(** * EffinTrak Analytics: the dashboard script [app.py]

    A shallow embedding of the Streamlit script and of the pandas
    operations it calls, followed by the properties of the dashboard.

    Modelling conventions.
    - A timestamp ([datetime64[ns]]) is the number of nanoseconds since
      the epoch, a calendar date the number of days since the epoch.
    - [amount] is an integer.  The views carry exact sums; the
      arithmetic of the column as pandas holds it (64-bit integers that
      wrap around, or binary64 floats that round) is written out
      beside them, for the sums that are compared with one another.
    - Every document carries the attributes [user], [date], [amount],
      [categoryName] and [paidTo]; other attributes are never read.
    - A DataFrame is its column labels and its rows in index order.
      Columns assigned by the script after the fetch ([month],
      [day_of_week]) are kept per row in [derived].
    - A run of the script is a computation over a session: the heap of
      frames, the elements rendered so far, the queries sent to the
      store.  The values of the input widgets are given.  [app] is a
      run on an empty cache; [script_run] is a run of a process whose
      cache of [get_data] may hold a table.
    - The connection to the store is the collection it gives access
      to.  The page configuration and the layout containers (sidebar,
      columns, tabs, expander) are not elements of the page; numbers
      are rendered as numbers, not as formatted text.  Of the charting
      calls, the bar chart of the monthly view refuses its arguments
      on some tables; the others are given one column by name. *)

From Stdlib Require Import ZArith QArith String Ascii PrimFloat.
From stdpp Require Import base list gmap strings sorting pretty.

#[local] Set Warnings "-clear-no-such-hyp".
#[local] Set Warnings "-inexact-float".

Local Open Scope string_scope.
Local Open Scope Z_scope.

(** ** Data model *)

Definition oid := N.

Record Document := mkDocument {
  doc_user : oid;
  doc_date : Z;
  doc_amount : Z;
  doc_categoryName : string;
  doc_paidTo : string
}.

(** Values of the columns the script adds: a monthly period (year and
    month) and a weekday name. *)
Inductive Cell :=
| CPeriod (year month : Z)
| CStr (s : string).

Record Row := mkRow {
  user : oid;
  date : Z;
  amount : Z;
  categoryName : string;
  paidTo : string;
  derived : list (string * Cell)
}.

Record DataFrame := mkDataFrame {
  columns : list string;
  rows : list Row
}.

#[global] Instance Cell_eq_dec : EqDecision Cell.
Proof. solve_decision. Defined.

#[global] Instance Row_eq_dec : EqDecision Row.
Proof. solve_decision. Defined.

#[global] Instance DataFrame_eq_dec : EqDecision DataFrame.
Proof. solve_decision. Defined.

(** ** Dates *)

Definition NS_PER_DAY : Z := 86400000000000.

(** [pd.Timestamp(d)] for a [datetime.date]: midnight of that day. *)
Definition Timestamp (d : Z) : Z := d * NS_PER_DAY.

(** [ts.date()] and [.dt.date]: the calendar day of a timestamp. *)
Definition dt_date (ts : Z) : Z := ts / NS_PER_DAY.

(** ** Boolean masks

    A comparison on a column yields a boolean Series; the conditional
    expressions of the filter yield either a Series or the Python
    scalar [True].  [&] is elementwise and broadcasts a scalar. *)

Inductive Mask :=
| MSeries (bs : list bool)
| MScalar (b : bool).

Definition mask_and (a b : Mask) : Mask :=
  match a, b with
  | MSeries x, MSeries y => MSeries (zip_with andb x y)
  | MSeries x, MScalar c => MSeries (map (fun v => v && c) x)
  | MScalar c, MSeries y => MSeries (map (andb c) y)
  | MScalar c, MScalar d => MScalar (c && d)
  end.

Infix "&&&" := mask_and (at level 40, left associativity).

(** [df[col] >= v], [df[col] <= v], [df[col].isin(values)], [==], [!=]. *)
Definition series_ge (col : Row -> Z) (v : Z) (df : DataFrame) : Mask :=
  MSeries (map (fun r => v <=? col r) (rows df)).

Definition series_le (col : Row -> Z) (v : Z) (df : DataFrame) : Mask :=
  MSeries (map (fun r => col r <=? v) (rows df)).

Definition isin (col : Row -> string) (values : list string) (df : DataFrame) : Mask :=
  MSeries (map (fun r => bool_decide (col r ∈ values)) (rows df)).

Definition series_eq (col : Row -> string) (v : string) (df : DataFrame) : Mask :=
  MSeries (map (fun r => bool_decide (col r = v)) (rows df)).

Definition series_ne (col : Row -> string) (v : string) (df : DataFrame) : Mask :=
  MSeries (map (fun r => bool_decide (col r ≠ v)) (rows df)).

(** Rows of [l] at the positions where the mask holds. *)
Fixpoint select_rows (l : list Row) (bs : list bool) : list Row :=
  match l, bs with
  | r :: l', b :: bs' => if b then r :: select_rows l' bs' else select_rows l' bs'
  | _, _ => []
  end.

(** Outcome of a computation of the script: a value, [st.stop()], or an
    uncaught exception. *)
Inductive Outcome (A : Type) :=
| Ret (a : A)
| Stopped
| Raised (e : string).
Arguments Ret {A} a.
Arguments Stopped {A}.
Arguments Raised {A} e.

Definition outcome_bind {A B} (o : Outcome A) (f : A -> Outcome B) : Outcome B :=
  match o with
  | Ret a => f a
  | Stopped => Stopped
  | Raised e => Raised e
  end.

(** [df[mask]]: boolean indexing.  A scalar key is a column lookup and
    fails; a Series of another length cannot be aligned. *)
Definition getitem_mask (df : DataFrame) (m : Mask) : Outcome DataFrame :=
  match m with
  | MSeries bs =>
      if decide (length bs = length (rows df))
      then Ret (mkDataFrame (columns df) (select_rows (rows df) bs))
      else Raised "IndexingError"
  | MScalar _ => Raised "KeyError"
  end.

(** Truth value of a Python list: non-empty. *)
Definition truthy {A} (l : list A) : bool :=
  match l with [] => false | _ => true end.

(** ** The filter (app.py, lines 73-78) *)

Record FilterSelection := mkFilterSelection {
  date_range : Z * Z;
  categories : list string;
  payees : list string
}.

Definition filter_mask (df : DataFrame) (sel : FilterSelection) : Mask :=
  series_ge date (Timestamp (fst (date_range sel))) df
  &&& series_le date (Timestamp (snd (date_range sel))) df
  &&& (if truthy (categories sel) then isin categoryName (categories sel) df else MScalar true)
  &&& (if truthy (payees sel) then isin paidTo (payees sel) df else MScalar true).

Definition df_filtered (df : DataFrame) (sel : FilterSelection) : Outcome DataFrame :=
  getitem_mask df (filter_mask df sel).

(** The condition a row has to meet under a filter selection. *)
Definition selected (sel : FilterSelection) (r : Row) : Prop :=
  Timestamp (fst (date_range sel)) <= date r <= Timestamp (snd (date_range sel))
  ∧ (categories sel = [] ∨ categoryName r ∈ categories sel)
  ∧ (payees sel = [] ∨ paidTo r ∈ payees sel).

#[global] Instance selected_dec sel r : Decision (selected sel r).
Proof. unfold selected. apply _. Defined.

(** ** Grouping, sorting and aggregation

    [df.groupby(key)['amount']] pairs each row's key with its amount;
    an aggregation lists the distinct keys in ascending order, each with
    the aggregate of the amounts of its group. *)

Definition series_sum (vs : list Z) : Z := foldr Z.add 0 vs.

Definition series_mean (vs : list Z) : option Q :=
  match vs with
  | [] => None
  | _ => Some (inject_Z (series_sum vs) / inject_Z (Z.of_nat (length vs)))%Q
  end.

Section sorting.
Context {A : Type} (leb : A -> A -> bool).

Fixpoint insert_sorted (x : A) (l : list A) : list A :=
  match l with
  | [] => [x]
  | y :: l' => if leb x y then x :: l else y :: insert_sorted x l'
  end.

(** A stable sort: of two elements that compare equal, the one that
    comes first in the input comes first in the output. *)
Definition sort_stable (l : list A) : list A := foldr insert_sorted [] l.
End sorting.

(** [Series.unique()]: the distinct values in order of first appearance. *)
Fixpoint unique_from {A} `{EqDecision A} (seen l : list A) : list A :=
  match l with
  | [] => []
  | x :: l' => if decide (x ∈ seen) then unique_from seen l'
               else x :: unique_from (x :: seen) l'
  end.

Definition unique {A} `{EqDecision A} (l : list A) : list A := unique_from [] l.

Definition pair_leb {A B} (la : A -> A -> bool) (lb : B -> B -> bool)
    `{EqDecision A} (x y : A * B) : bool :=
  if decide (x.1 = y.1) then lb x.2 y.2 else la x.1 y.1.

Section groupby.
Context {K : Type} `{EqDecision K}.

Definition groupby_amount (key : Row -> K) (l : list Row) : list (K * Z) :=
  map (fun r => (key r, amount r)) l.

(** Rows whose key is missing are left out of every group. *)
Definition groupby_amount_opt (key : Row -> option K) (l : list Row) : list (K * Z) :=
  omap (fun r => k ← key r; Some (k, amount r)) l.

Definition group_values (k : K) (g : list (K * Z)) : list Z :=
  map snd (filter (fun p => p.1 = k) g).

Definition group_keys (leb : K -> K -> bool) (g : list (K * Z)) : list K :=
  sort_stable leb (remove_dups (map fst g)).

Definition agg {V} (leb : K -> K -> bool) (f : list Z -> V) (g : list (K * Z)) : list (K * V) :=
  map (fun k => (k, f (group_values k g))) (group_keys leb g).
End groupby.

(** [sort_values(ascending=False)] on a Series of totals.  Equal totals
    keep their order here; pandas leaves the order of equal values
    open. *)
Definition sort_values_desc {K} (s : list (K * Z)) : list (K * Z) :=
  sort_stable (fun a b => b.2 <=? a.2) s.

Fixpoint cumsum_from (acc : Z) (vs : list Z) : list Z :=
  match vs with
  | [] => []
  | v :: vs' => (acc + v) :: cumsum_from (acc + v) vs'
  end.

Definition cumsum (vs : list Z) : list Z := cumsum_from 0 vs.

(** ** The views over a table (pure parts) *)

(** Overview metrics (lines 109-113). *)
Definition total_expenses (df : DataFrame) : Z := series_sum (map amount (rows df)).
Definition average_expense (df : DataFrame) : option Q := series_mean (map amount (rows df)).
Definition number_of_transactions (df : DataFrame) : nat := length (rows df).

(** Daily series (line 121) and its running total (lines 126-127). *)
Definition daily_expenses (df : DataFrame) : list (Z * Z) :=
  agg Z.leb series_sum (groupby_amount date (rows df)).

Definition cumulative_expenses (daily : list (Z * Z)) : list (Z * Z * Z) :=
  let sorted := sort_stable (fun a b => a.1 <=? b.1) daily in
  zip sorted (cumsum (map snd sorted)).

(** Category breakdown (line 135). *)
Definition category_totals (df : DataFrame) : list (string * Z) :=
  sort_values_desc (agg String.leb series_sum (groupby_amount categoryName (rows df))).

(** [df.nlargest(n, 'amount')]: the first [n] rows in descending order
    of amount, ties in table order. *)
Definition amount_desc (a b : Row) : bool := amount b <=? amount a.

Definition nlargest (n : nat) (df : DataFrame) : DataFrame :=
  mkDataFrame (columns df) (take n (sort_stable amount_desc (rows df))).

Definition top_expenses (top_n : nat) (df : DataFrame) : DataFrame := nlargest top_n df.

(** Top payees (line 195). *)
Definition top_payees (df : DataFrame) : list (string * Z) :=
  take 10 (sort_values_desc (agg String.leb series_sum (groupby_amount paidTo (rows df)))).

(** ** Calendar fields of a timestamp *)

(** Year, month and day of a day count (proleptic Gregorian calendar). *)
Definition civil_from_days (days : Z) : Z * Z * Z :=
  let z := days + 719468 in
  let era := z / 146097 in
  let doe := z - era * 146097 in
  let yoe := (doe - doe / 1460 + doe / 36524 - doe / 146096) / 365 in
  let doy := doe - (365 * yoe + yoe / 4 - yoe / 100) in
  let mp := (5 * doy + 2) / 153 in
  let d := doy - (153 * mp + 2) / 5 + 1 in
  let m := if mp <? 10 then mp + 3 else mp - 9 in
  let y := yoe + era * 400 + (if m <=? 2 then 1 else 0) in
  (y, m, d).

(** [.dt.to_period('M')]. *)
Definition to_period_M (ts : Z) : Cell :=
  let '(y, m, _) := civil_from_days (dt_date ts) in CPeriod y m.

Definition weekdays : list string :=
  ["Monday"; "Tuesday"; "Wednesday"; "Thursday"; "Friday"; "Saturday"; "Sunday"].

(** [.dt.day_name()]; day 0 of the epoch is a Thursday. *)
Definition day_name (ts : Z) : Cell :=
  CStr (default "" (weekdays !! Z.to_nat ((dt_date ts + 3) mod 7))).

(** ** Column assignment and derived columns *)

Fixpoint assoc_set (name : string) (c : Cell) (kvs : list (string * Cell)) : list (string * Cell) :=
  match kvs with
  | [] => [(name, c)]
  | (k, v) :: kvs' => if decide (k = name) then (k, c) :: kvs' else (k, v) :: assoc_set name c kvs'
  end.

Fixpoint assoc_get (name : string) (kvs : list (string * Cell)) : option Cell :=
  match kvs with
  | [] => None
  | (k, v) :: kvs' => if decide (k = name) then Some v else assoc_get name kvs'
  end.

Definition set_derived (name : string) (c : Cell) (r : Row) : Row :=
  mkRow (user r) (date r) (amount r) (categoryName r) (paidTo r)
        (assoc_set name c (derived r)).

(** [df[name] = f(df)]: the column is computed row by row and written
    into the frame; a new label goes last. *)
Definition setitem (name : string) (f : Row -> Cell) (df : DataFrame) : DataFrame :=
  mkDataFrame
    (if decide (name ∈ columns df) then columns df else columns df ++ [name])
    (map (fun r => set_derived name (f r) r) (rows df)).

Definition month_of (r : Row) : option (Z * Z) :=
  match assoc_get "month" (derived r) with
  | Some (CPeriod y m) => Some (y, m)
  | _ => None
  end.

Definition day_of_week_of (r : Row) : option string :=
  match assoc_get "day_of_week" (derived r) with
  | Some (CStr s) => Some s
  | _ => None
  end.

Definition period_leb (a b : Z * Z) : bool := pair_leb Z.leb Z.leb a b.

(** Monthly totals by category (line 155): one line per month, one
    column per category, a missing value where a month has no row of the
    category. *)
Definition monthly_expenses (df : DataFrame) : list string * list ((Z * Z) * list (option Z)) :=
  let g := groupby_amount_opt (fun r => m ← month_of r; Some (m, categoryName r)) (rows df) in
  let months := sort_stable period_leb (remove_dups (map (fun p => p.1.1) g)) in
  let cats := sort_stable String.leb (remove_dups (map (fun p => p.1.2) g)) in
  (cats,
   map (fun m => (m, map (fun c =>
                    match group_values (m, c) g with
                    | [] => None
                    | vs => Some (series_sum vs)
                    end) cats)) months).

(** Mean amount per weekday, reindexed to Monday..Sunday (line 162). *)
Definition dow_expenses (df : DataFrame) : list (string * option Q) :=
  let g := groupby_amount_opt day_of_week_of (rows df) in
  map (fun d => (d, series_mean (group_values d g))) weekdays.

(** ** Period comparison (lines 174-180) *)

Definition df_period (df : DataFrame) (period : Z * Z) : Outcome DataFrame :=
  getitem_mask df
    (series_ge (fun r => dt_date (date r)) period.1 df
     &&& series_le (fun r => dt_date (date r)) period.2 df).

Fixpoint series_lookup {K V} `{EqDecision K} (k : K) (s : list (K * V)) : option V :=
  match s with
  | [] => None
  | (k', v) :: s' => if decide (k' = k) then Some v else series_lookup k s'
  end.

(** A frame built from two Series: the index is the sorted union of the
    two indexes, and a label missing from a Series has no value in the
    column of that Series. *)
Definition frame_of_two_series (s1 s2 : list (string * Z)) : list (string * option Z * option Z) :=
  map (fun k => (k, series_lookup k s1, series_lookup k s2))
      (sort_stable String.leb (remove_dups (map fst s1 ++ map fst s2))).

Definition period_totals (df : DataFrame) : list (string * Z) :=
  agg String.leb series_sum (groupby_amount categoryName (rows df)).

Definition comparison (df : DataFrame) (period1 period2 : Z * Z)
    : Outcome (list (string * option Z * option Z)) :=
  outcome_bind (df_period df period1) (fun df_period1 =>
  outcome_bind (df_period df period2) (fun df_period2 =>
  Ret (frame_of_two_series (period_totals df_period1) (period_totals df_period2)))).

(** ** Statistical summary (line 202)

    Of the columns of [describe()], the count, the mean, the minimum and
    the maximum; the standard deviation and the quartiles are
    floating-point interpolations and are left out. *)
Record Describe := mkDescribe {
  d_count : nat;
  d_mean : option Q;
  d_min : option Z;
  d_max : option Z
}.

Definition series_min (vs : list Z) : option Z :=
  match vs with [] => None | v :: vs' => Some (foldr Z.min v vs') end.

Definition series_max (vs : list Z) : option Z :=
  match vs with [] => None | v :: vs' => Some (foldr Z.max v vs') end.

Definition describe (vs : list Z) : Describe :=
  mkDescribe (length vs) (series_mean vs) (series_min vs) (series_max vs).

Definition statistical_summary (df : DataFrame) : list (string * Describe) :=
  agg String.leb describe (groupby_amount categoryName (rows df)).

(** ** CSV export (lines 93-96)

    The content of the file: the header and one record per row, in
    table order.  The index column, which comes first in the file and
    has no label, and the text encoding are not modelled. *)
Record CSV := mkCSV {
  csv_header : list string;
  csv_records : list Row
}.

Definition convert_df (df : DataFrame) : CSV := mkCSV (columns df) (rows df).

(** ** What the page shows *)

Inductive Table :=
| TByDate (pts : list (Z * Z))
| TCumulative (pts : list (Z * Z * Z))
| TByCategory (pts : list (string * Z))
| TByPayee (pts : list (string * Z))
| TByWeekday (pts : list (string * option Q))
| TMonthByCategory (cats : list string) (body : list ((Z * Z) * list (option Z)))
| TComparison (pts : list (string * option Z * option Z))
| TFrame (df : DataFrame)
| TDescribe (stats : list (string * Describe)).

Inductive Number :=
| NInt (z : Z)
| NFloat (q : Q)
| NNaN.

Inductive Element :=
| st_error (msg : string)
| st_warning (msg : string)
| st_title (text : string)
| st_header (text : string)
| st_multiselect (label column : string) (options : list string)
| st_slider (label : string) (min_value max_value : Z)
| st_selectbox (label column : string) (options : list string)
| st_number_input (label : string)
| st_date_input (label : string)
| st_progress (value : Number)
| st_write_budget (category_spent : Z) (budget_amount budget_progress : Q)
| st_download_button (label : string) (data : CSV) (file_name mime : string)
| st_metric (label : string) (value : Number)
| st_plotly_chart (title : string) (data : Table)
| st_write (data : Table).

(** ** Sessions

    One run of the script threads a session: the frames on the heap
    (a variable of the script holds the position of its frame), the
    elements rendered so far, and the queries sent to the store. *)

Definition loc := nat.

Record Session := mkSession {
  heap : list DataFrame;
  page : list Element;
  queries : list oid
}.

Definition init : Session := mkSession [] [] [].

Definition M (A : Type) : Type := Session -> Outcome A * Session.

#[global] Instance M_ret : MRet M := fun A a s => (Ret a, s).

#[global] Instance M_bind : MBind M := fun A B f m s =>
  match m s with
  | (Ret a, s') => f a s'
  | (Stopped, s') => (Stopped, s')
  | (Raised e, s') => (Raised e, s')
  end.

Definition emit (e : Element) : M unit := fun s =>
  (Ret tt, mkSession (heap s) (page s ++ [e]) (queries s)).

(** [st.stop()]. *)
Definition st_stop {A} : M A := fun s => (Stopped, s).

Definition lift {A} (o : Outcome A) : M A := fun s => (o, s).

(** [try: m except: handler]. *)
Definition try_except {A} (m handler : M A) : M A := fun s =>
  match m s with
  | (Raised _, s') => handler s'
  | r => r
  end.

Definition alloc (df : DataFrame) : M loc := fun s =>
  (Ret (length (heap s)), mkSession (heap s ++ [df]) (page s) (queries s)).

Definition load (l : loc) : M DataFrame := fun s =>
  match heap s !! l with
  | Some df => (Ret df, s)
  | None => (Raised "NameError", s)
  end.

(** In-place update of the frame at [l]. *)
Definition update (l : loc) (f : DataFrame -> DataFrame) : M unit := fun s =>
  match heap s !! l with
  | Some df => (Ret tt, mkSession (<[l := f df]> (heap s)) (page s) (queries s))
  | None => (Raised "NameError", s)
  end.

(** [collection.find({"user": user_id})]. *)
Definition find (collection : list Document) (user_id : oid) : M (list Document) := fun s =>
  (Ret (filter (fun d => doc_user d = user_id) collection),
   mkSession (heap s) (page s) (queries s ++ [user_id])).

(** ** Identity resolution (lines 9-20) *)

Inductive PyVal :=
| PyNone
| PyStr (s : string)
| PyList (l : list (option string)).

Definition py_truthy (v : PyVal) : bool :=
  match v with
  | PyNone => false
  | PyStr s => negb (bool_decide (s = ""))
  | PyList l => truthy l
  end.

(** [query_params.get(key, default)]. *)
Definition query_params_get (query_params : gmap string string) (key : string)
    (dflt : PyVal) : PyVal :=
  match query_params !! key with
  | Some v => PyStr v
  | None => dflt
  end.

(** Widget values of one run. *)
Record Widgets := mkWidgets {
  selection : FilterSelection;
  budget_category : string;
  budget_amount : Q;
  period1 : Z * Z;
  period2 : Z * Z;
  top_n : nat
}.

Definition base_columns : list string :=
  ["user"; "date"; "amount"; "categoryName"; "paidTo"].

Definition row_of (d : Document) : Row :=
  mkRow (doc_user d) (doc_date d) (doc_amount d) (doc_categoryName d) (doc_paidTo d) [].

(** [pd.DataFrame(list(items))]. *)
Definition DataFrame_of (items : list Document) : DataFrame :=
  match items with
  | [] => mkDataFrame [] []
  | _ => mkDataFrame base_columns (map row_of items)
  end.

Definition df_empty (df : DataFrame) : bool :=
  negb (truthy (columns df)) || negb (truthy (rows df)).

(** [st.progress(value)] accepts an int in 0..100 or a float in 0..1. *)
Definition progress_ok (value : Number) : bool :=
  match value with
  | NInt z => (0 <=? z) && (z <=? 100)
  | NFloat q => Qle_bool 0 q && Qle_bool q 1
  | NNaN => false
  end.

(** Python's [min(x, 100)] for a float [x]: the int 100 when it is
    strictly smaller, [x] otherwise. *)
Definition min_100 (x : Q) : Number :=
  if Qle_bool x 100 then NFloat x else NInt 100.

(** True division; the divisor zero raises. *)
Definition truediv (a b : Q) : Outcome Q :=
  if Qeq_bool b 0 then Raised "ZeroDivisionError" else Ret (a / b)%Q.

(** Smallest and largest calendar day of the table.  On an empty table
    both are [NaT], a type the date slider has no entry for. *)
Definition date_bounds (df : DataFrame) : Outcome (Z * Z) :=
  match series_min (map date (rows df)), series_max (map date (rows df)) with
  | Some lo, Some hi => Ret (dt_date lo, dt_date hi)
  | _, _ => Raised "KeyError"
  end.

(** [st.slider] sends its bounds to the browser in microseconds since
    the epoch, and refuses a bound that is not a safe integer of
    JavaScript (at most [2^53 - 1] in absolute value). *)
Definition MICROS_PER_DAY : Z := 86400000000.

Definition js_safe_date (d : Z) : bool :=
  (- (2 ^ 53 - 1) <=? d * MICROS_PER_DAY) && (d * MICROS_PER_DAY <=? 2 ^ 53 - 1).

(** [str] of a monthly period: four digits of year for the years a
    timestamp can hold, two of month. *)
Definition two_digits (n : Z) : string :=
  if n <? 10 then "0" +:+ pretty n else pretty n.

Definition period_str (p : Z * Z) : string := pretty p.1 +:+ "-" +:+ two_digits p.2.

(** [px.bar(frame, x=..., y=...)]: plotly reads a list-like argument as
    a list of column references when every string in it is a column of
    the frame (an empty list is one), and does not accept such a list
    for both [x] and [y]. *)
Definition is_col_list (columns arg : list string) : bool :=
  forallb (fun c => bool_decide (c ∈ columns)) arg.

Definition px_bar (columns x y : list string) : Outcome unit :=
  if is_col_list columns x && is_col_list columns y then Raised "ValueError" else Ret tt.

(** ** The script *)

Section app.
(** The store's reading of a string as an identifier ([None] when the
    string is malformed), and the identifier the store's client makes
    up when it is given none. *)
Variable parse_oid : string -> option oid.
Variable generate_oid : oid.

(** [ObjectId(v)]. *)
Definition ObjectId (v : PyVal) : Outcome oid :=
  match v with
  | PyNone => Ret generate_oid
  | PyStr s => match parse_oid s with
               | Some o => Ret o
               | None => Raised "InvalidId"
               end
  | PyList _ => Raised "TypeError"
  end.

(** Lines 9-20. *)
Definition resolve_user_id (query_params : gmap string string) : M oid :=
  let user_id := query_params_get query_params "user_id" (PyList [None]) in
  (if negb (py_truthy user_id)
   then emit (st_error "No user ID provided. Please access this dashboard through the main application.");;
        st_stop
   else mret tt);;
  try_except (lift (ObjectId user_id))
             (emit (st_error "Invalid user ID format.");; st_stop).

(** Lines 41-49. *)
Definition get_data (collection : list Document) (user_id : oid) : M loc :=
  items ← find collection user_id;
  let df := DataFrame_of items in
  if df_empty df
  then emit (st_warning "No data found for the Selected User.");; st_stop
  else
    (* [df['date'] = pd.to_datetime(df['date'])]: the dates of the
       documents are timestamps already *)
    df ← lift (getitem_mask df (series_ne categoryName "Home" df));
    alloc df.

(** Lines 57-78: the filter controls and the filtered table, a frame
    of its own. *)
Definition sidebar_filters (df : loc) (w : Widgets) : M loc :=
  emit (st_title "Comprehensive Expense Analysis Dashboard");;
  emit (st_title "Dashboard Controls");;
  emit (st_header "Filters");;
  d ← load df;
  emit (st_multiselect "Select Categories" "categoryName" (unique (map categoryName (rows d))));;
  emit (st_multiselect "Select Payees" "paidTo" (unique (map paidTo (rows d))));;
  '(min_date, max_date) ← lift (date_bounds d);
  let max_date := if decide (min_date = max_date) then max_date + 1 else max_date in
  (if js_safe_date min_date && js_safe_date max_date
   then emit (st_slider "Select Date Range" min_date max_date)
   else lift (Raised "StreamlitJSNumberBoundsError"));;
  f ← lift (df_filtered d (selection w));
  alloc f.

(** Lines 81-89. *)
Definition budget_tracker (df filtered : loc) (w : Widgets) : M unit :=
  emit (st_header "Budget Settings");;
  d ← load df;
  emit (st_selectbox "Select Category for Budget" "categoryName" (unique (map categoryName (rows d))));;
  emit (st_number_input ("Set Budget for " +:+ budget_category w));;
  if negb (Qle_bool (budget_amount w) 0)
  then
    f ← load filtered;
    fc ← lift (getitem_mask f (series_eq categoryName (budget_category w) f));
    let category_spent := series_sum (map amount (rows fc)) in
    ratio ← lift (truediv (inject_Z category_spent) (budget_amount w));
    let budget_progress := (ratio * 100)%Q in
    (if progress_ok (min_100 budget_progress)
     then emit (st_progress (min_100 budget_progress))
     else lift (Raised "StreamlitAPIException"));;
    emit (st_write_budget category_spent (budget_amount w) budget_progress)
  else mret tt.

(** Lines 91-102. *)
Definition download (filtered : loc) : M unit :=
  emit (st_header "Download the Data");;
  f ← load filtered;
  emit (st_download_button "Download filtered data as CSV" (convert_df f)
                           "filtered_expenses.csv" "text/csv").

Definition number_of_mean (m : option Q) : Number :=
  match m with Some q => NFloat q | None => NNaN end.

(** Lines 106-113. *)
Definition overview (filtered : loc) : M unit :=
  emit (st_header "Expense Overview");;
  f ← load filtered;
  emit (st_metric "Total Expenses" (NInt (total_expenses f)));;
  emit (st_metric "Average Daily Expense" (number_of_mean (average_expense f)));;
  emit (st_metric "Number of Transactions" (NInt (Z.of_nat (number_of_transactions f)))).

(** Lines 117-129. *)
Definition time_series (filtered : loc) : M unit :=
  emit (st_header "Time Series Analysis");;
  f ← load filtered;
  let daily := daily_expenses f in
  emit (st_plotly_chart "Daily Expenses Over Time" (TByDate daily));;
  emit (st_plotly_chart "Cumulative Expenses Over Time" (TCumulative (cumulative_expenses daily))).

(** Lines 132-147. *)
Definition category_analysis (filtered : loc) : M unit :=
  emit (st_header "Category Analysis");;
  f ← load filtered;
  let totals := category_totals f in
  emit (st_plotly_chart "Expenses by Category" (TByCategory totals));;
  emit (st_plotly_chart "Total Expenses by Category" (TByCategory totals));;
  emit (st_plotly_chart "Expense Treemap" (TFrame f)).

(** Lines 150-164: both tabs first write a column into the filtered
    table, then group by it.  The bar chart of the first tab is given
    the month labels as [x] and the columns of the matrix as [y]. *)
Definition temporal_patterns (filtered : loc) : M unit :=
  emit (st_header "Temporal Patterns");;
  update filtered (setitem "month" (fun r => to_period_M (date r)));;
  f ← load filtered;
  let '(cats, body) := monthly_expenses f in
  lift (px_bar cats (map (fun line => period_str line.1) body) cats);;
  emit (st_plotly_chart "Monthly Expenses by Category" (TMonthByCategory cats body));;
  update filtered (setitem "day_of_week" (fun r => day_name (date r)));;
  f ← load filtered;
  emit (st_plotly_chart "Average Daily Expenses by Day of Week" (TByWeekday (dow_expenses f))).

(** Lines 167-184. *)
Definition expense_comparison (df : loc) (w : Widgets) : M unit :=
  emit (st_header "Expense Comparison");;
  emit (st_date_input "Select first period");;
  emit (st_date_input "Select second period");;
  d ← load df;
  c ← lift (comparison d (period1 w) (period2 w));
  emit (st_plotly_chart "Expense Comparison by Category" (TComparison c)).

(** Lines 187-191. *)
Definition top_expenses_analysis (filtered : loc) (w : Widgets) : M unit :=
  emit (st_header "Top Expenses Analysis");;
  emit (st_slider "Select number of top expenses to view" 5 20);;
  f ← load filtered;
  emit (st_plotly_chart ("Top " +:+ pretty (top_n w) +:+ " Individual Expenses")
                     (TFrame (top_expenses (top_n w) f))).

(** Lines 194-197. *)
Definition payee_analysis (filtered : loc) : M unit :=
  emit (st_header "Payee Analysis");;
  f ← load filtered;
  emit (st_plotly_chart "Top 10 Payees" (TByPayee (top_payees f))).

(** Lines 200-202. *)
Definition statistical_summary_view (filtered : loc) : M unit :=
  emit (st_header "Statistical Summary");;
  f ← load filtered;
  emit (st_write (TDescribe (statistical_summary f))).

(** The views, in script order, over the two frames. *)
Definition views (df filtered : loc) (w : Widgets) : M unit :=
  budget_tracker df filtered w;;
  download filtered;;
  overview filtered;;
  time_series filtered;;
  category_analysis filtered;;
  temporal_patterns filtered;;
  expense_comparison df w;;
  top_expenses_analysis filtered w;;
  payee_analysis filtered;;
  statistical_summary_view filtered.

(** The views one by one, in script order. *)
Definition view_list : list (loc -> loc -> Widgets -> M unit) :=
  [budget_tracker;
   fun _ filtered _ => download filtered;
   fun _ filtered _ => overview filtered;
   fun _ filtered _ => time_series filtered;
   fun _ filtered _ => category_analysis filtered;
   fun _ filtered _ => temporal_patterns filtered;
   fun df _ w => expense_comparison df w;
   fun _ filtered w => top_expenses_analysis filtered w;
   fun _ filtered _ => payee_analysis filtered;
   fun _ filtered _ => statistical_summary_view filtered].

(** One run of the script, on an empty cache. *)
Definition app (query_params : gmap string string) (collection : list Document)
    (w : Widgets) : M unit :=
  user_id ← resolve_user_id query_params;
  df ← get_data collection user_id;
  filtered ← sidebar_filters df w;
  views df filtered w.

(** [@st.cache_data] on [get_data] (line 40).  The function takes no
    argument, so the cache of the process has one entry, whoever the
    user of the run is.  On a miss the body runs, and the table it
    returns is stored; nothing is stored when the body stops the run.
    On a hit the body does not run: the call returns a copy of the
    stored table. *)
Definition get_data_cached (cache : option DataFrame) (collection : list Document)
    (user_id : oid) (s : Session) : Outcome loc * Session * option DataFrame :=
  match cache with
  | Some stored => (alloc stored s, cache)
  | None =>
      let r := get_data collection user_id s in
      (r, match r.1 with
          | Ret df => heap r.2 !! df
          | _ => None
          end)
  end.

(** One run of the script in a process whose cache is [cache]: the
    outcome, the session at the end of the run, and the cache the next
    run starts with. *)
Definition script_run (cache : option DataFrame) (query_params : gmap string string)
    (collection : list Document) (w : Widgets)
    : Outcome unit * Session * option DataFrame :=
  match resolve_user_id query_params init with
  | (Ret user_id, s) =>
      match get_data_cached cache collection user_id s with
      | (Ret df, s', cache') =>
          ((filtered ← sidebar_filters df w; views df filtered w) s', cache')
      | (Stopped, s', cache') => (Stopped, s', cache')
      | (Raised e, s', cache') => (Raised e, s', cache')
      end
  | (Stopped, s) => (Stopped, s, cache)
  | (Raised e, s) => (Raised e, s, cache)
  end.
End app.

(** ** The store's reading of a string as an identifier

    [bson.ObjectId(s)] for a string: the string has 24 characters and
    [bytes.fromhex] reads it.  [bytes.fromhex] reads pairs of
    hexadecimal digits and skips ASCII whitespace before a pair; the
    bytes read are kept as they are, however many. *)
Definition hex_digit (c : ascii) : option N :=
  let n := N_of_ascii c in
  if ((48 <=? n) && (n <=? 57))%N then Some (n - 48)%N
  else if ((97 <=? n) && (n <=? 102))%N then Some (n - 87)%N
  else if ((65 <=? n) && (n <=? 70))%N then Some (n - 55)%N
  else None.

Definition is_space (c : ascii) : bool :=
  let n := N_of_ascii c in
  (n =? 32)%N || ((9 <=? n) && (n <=? 13))%N.

Fixpoint fromhex (s : string) : option (list N) :=
  match s with
  | EmptyString => Some []
  | String c s' =>
      if is_space c then fromhex s'
      else
        match s' with
        | EmptyString => None
        | String c' s'' =>
            top ← hex_digit c;
            bot ← hex_digit c';
            bs ← fromhex s'';
            Some ((16 * top + bot)%N :: bs)
        end
  end.

(** An identifier is its bytes; as a number, the bytes in base 256
    after a leading 1, so that identifiers of different lengths are
    different numbers. *)
Definition oid_of_bytes (bs : list N) : oid :=
  fold_left (fun acc b => (256 * acc + b)%N) bs 1%N.

Definition bson_oid (s : string) : option oid :=
  if decide (String.length s = 24%nat) then oid_of_bytes <$> fromhex s else None.

(** ** A sample table *)

Definition sample_rows : list Row :=
  [mkRow 7%N (Timestamp 19723 + 5) 10 "Food" "Shop" [];
   mkRow 7%N (Timestamp 19724) 20 "Food" "Cafe" [];
   mkRow 7%N (Timestamp 19730) 5 "Transport" "Bus" [];
   mkRow 7%N (Timestamp 19760) 7 "Food" "Shop" []].

Definition sample_df : DataFrame := mkDataFrame base_columns sample_rows.

(** The [cumulative_amount] column of the cumulative series. *)
Definition cumulative_amount (cum : list (Z * Z * Z)) : list Z := map snd cum.

(** ** Adding a constraint to a selection

    A category (or payee) selection [after] constrains at least as much
    as [before] when [before] is empty (no constraint at all), or when
    [after] is a non-empty selection within [before]. *)
Definition adds_constraint (before after : list string) : Prop :=
  before = [] ∨ (after ≠ [] ∧ after ⊆ before).

(** The session after one more element is rendered. *)
Definition render (e : Element) (s : Session) : Session :=
  mkSession (heap s) (page s ++ [e]) (queries s).

(** [wp m Q s]: running [m] from the session [s] ends in an outcome and
    a session that satisfy [Q]. *)
Definition wp {A} (m : M A) (Q : Outcome A -> Session -> Prop) (s : Session) : Prop :=
  Q (m s).1 (m s).2.

(** The postcondition of a sequence, seen from its first part. *)
Definition wp_then {A B} (f : A -> M B) (Q : Outcome B -> Session -> Prop)
    (o : Outcome A) (s : Session) : Prop :=
  match o with
  | Ret a => wp (f a) Q s
  | Stopped => Q Stopped s
  | Raised e => Q (Raised e) s
  end.

(** ** The comparison, as the design states it

    The total of a category within a period: the sum of [amount] over
    the rows of the table whose calendar day lies in the period and
    whose category is the given one; no value when there is no such
    row. *)
Definition in_period (p : Z * Z) (r : Row) : Prop :=
  p.1 <= dt_date (date r) <= p.2.

Definition period_total (df : DataFrame) (p : Z * Z) (c : string) : option Z :=
  match filter (fun r => categoryName r = c ∧ in_period p r) (rows df) with
  | [] => None
  | rs => Some (series_sum (map amount rs))
  end.

(** ** Invariants of a run

    [Inv HI PI s]: the heap of [s] satisfies [HI] and every element of
    its page satisfies [PI]. *)
Definition Inv (HI : list DataFrame -> Prop) (PI : Element -> Prop) (s : Session) : Prop :=
  HI (heap s) ∧ Forall PI (page s).

Definition inv_post (HI : list DataFrame -> Prop) (PI : Element -> Prop) {A}
    (o : Outcome A) (s : Session) : Prop :=
  Inv HI PI s.

(** ** Category labels on the page *)

Definition table_categories (t : Table) : list string :=
  match t with
  | TByCategory pts => map fst pts
  | TMonthByCategory cats _ => cats
  | TComparison pts => map (fun x => x.1.1) pts
  | TFrame df => map categoryName (rows df)
  | TDescribe stats => map fst stats
  | TByDate _ | TCumulative _ | TByPayee _ | TByWeekday _ => []
  end.

Definition element_categories (e : Element) : list string :=
  match e with
  | st_multiselect _ column options | st_selectbox _ column options =>
      if decide (column = "categoryName") then options else []
  | st_download_button _ data _ _ => map categoryName (csv_records data)
  | st_plotly_chart _ t | st_write t => table_categories t
  | _ => []
  end.

Definition home_free (df : DataFrame) : Prop :=
  "Home" ∉ map categoryName (rows df).

(** The columns of a row that come from the store. *)
Definition base (r : Row) : oid * Z * Z * string * string :=
  (user r, date r, amount r, categoryName r, paidTo r).

(** The table the script works on: the documents of the user, minus
    those of the category "Home". *)
Definition normalized (collection : list Document) (user_id : oid) : DataFrame :=
  mkDataFrame base_columns
    (filter (fun r => categoryName r ≠ "Home")
       (map row_of (filter (fun d => doc_user d = user_id) collection))).

Definition no_home (e : Element) : Prop := "Home" ∉ element_categories e.

(** The filtered table after the two tabs of "Temporal Patterns". *)
Definition with_temporal_columns (f : DataFrame) : DataFrame :=
  setitem "day_of_week" (fun r => day_name (date r))
    (setitem "month" (fun r => to_period_M (date r)) f).

(** A collection with documents of two users, one of category "Home". *)
Definition sample_collection : list Document :=
  [mkDocument 7%N (Timestamp 19723 + 5) 10 "Food" "Shop";
   mkDocument 7%N (Timestamp 19724) 20 "Food" "Cafe";
   mkDocument 7%N (Timestamp 19730) 5 "Transport" "Bus";
   mkDocument 7%N (Timestamp 19760) 7 "Food" "Shop";
   mkDocument 7%N (Timestamp 19761) 1000 "Home" "Landlord";
   mkDocument 8%N (Timestamp 19761) 3 "Food" "Shop"].

Definition sample_widgets : Widgets :=
  mkWidgets (mkFilterSelection (19723, 19760) [] []) "Food" 0
            (19723, 19753) (19754, 19784) 10.

Definition sample_session : Session := mkSession [sample_df; sample_df] [] [].

(** A table with a row late on its last day, and the selection the
    controls start with. *)
Definition late_row : Row :=
  mkRow 7%N (Timestamp 19760 + 36000000000000) 7 "Food" "Shop" [].

Definition late_df : DataFrame :=
  mkDataFrame base_columns
    [mkRow 7%N (Timestamp 19723) 10 "Food" "Shop" []; late_row].

Definition late_selection : FilterSelection := mkFilterSelection (19723, 19760) [] [].

Definition is_comparison_chart (e : Element) : Prop :=
  match e with
  | st_plotly_chart _ (TComparison _) => True
  | _ => False
  end.

(** A computation that sends no query to the store. *)
Definition keeps_queries {A} (m : M A) : Prop :=
  ∀ s, queries (m s).2 = queries s.

(** The month of a row, as year and month. *)
Definition month_key (r : Row) : Z * Z :=
  match to_period_M (date r) with
  | CPeriod y m => (y, m)
  | CStr _ => (0, 0)
  end.

(** The weekday of a row. *)
Definition weekday_of (r : Row) : string :=
  match day_name (date r) with
  | CStr s => s
  | CPeriod _ _ => ""
  end.

(** The session of a run of the views alone: the unfiltered table at
    position 0, the filtered table at position 1, an empty page. *)
Definition two_frames (D F : DataFrame) : Session := mkSession [D; F] [] [].

(** ** The amount column as pandas holds it

    A column of integers is an [int64] column: its sums are taken in
    64-bit two's complement arithmetic and wrap around without notice.
    A column with a fractional amount is a [float64] column: its sums
    are rounded at every addition. *)

Definition wrap64 (z : Z) : Z := (z + 2 ^ 63) mod 2 ^ 64 - 2 ^ 63.

Definition sum_int64 (vs : list Z) : Z :=
  fold_left (fun acc v => wrap64 (acc + v)) vs 0.



(** Lines 109, 121, 126-127 and 135 on an [int64] amount column. *)
Definition total_expenses_int64 (df : DataFrame) : Z := sum_int64 (map amount (rows df)).



Definition category_totals_int64 (df : DataFrame) : list (string * Z) :=
  sort_values_desc (agg String.leb sum_int64 (groupby_amount categoryName (rows df))).


(** A row of a table whose amount column is [float64]; a document
    without the attribute [categoryName] has none in the table. *)
Record FloatRow := mkFloatRow {
  fr_date : Z;
  fr_categoryName : option string;
  fr_amount : float
}.

(** [Series.sum()] on [float64]: a missing value counts as zero, and
    numpy adds up pairwise: fewer than eight values from left to right,
    up to 128 values in eight interleaved partial sums, more by halves.
    The sum starts from the zero of addition, which is negative zero. *)
Definition sum_left (acc : float) (vs : list float) : float :=
  fold_left PrimFloat.add vs acc.

Fixpoint add_blocks (fuel : nat) (r vs : list float) : list float * list float :=
  match fuel with
  | O => (r, vs)
  | S fuel' =>
      if (8 <=? length vs)%nat
      then add_blocks fuel' (zip_with PrimFloat.add r (take 8 vs)) (drop 8 vs)
      else (r, vs)
  end.

Definition sum_block (vs : list float) : float :=
  let '(r, rest) := add_blocks (length vs) (take 8 vs) (drop 8 vs) in
  match r with
  | [r0; r1; r2; r3; r4; r5; r6; r7] =>
      sum_left (PrimFloat.add
                  (PrimFloat.add (PrimFloat.add r0 r1) (PrimFloat.add r2 r3))
                  (PrimFloat.add (PrimFloat.add r4 r5) (PrimFloat.add r6 r7))) rest
  | _ => sum_left neg_zero vs
  end.

Fixpoint pairwise_sum (fuel : nat) (vs : list float) : float :=
  let n := length vs in
  if (n <? 8)%nat then sum_left neg_zero vs
  else if (n <=? 128)%nat then sum_block vs
  else
    match fuel with
    | O => sum_block vs
    | S fuel' =>
        let n2 := (n / 2 - (n / 2) mod 8)%nat in
        PrimFloat.add (pairwise_sum fuel' (take n2 vs)) (pairwise_sum fuel' (drop n2 vs))
    end.

Definition sum_float64 (vs : list float) : float :=
  let vs := map (fun v => if is_nan v then PrimFloat.zero else v) vs in
  PrimFloat.add neg_zero (pairwise_sum (length vs) vs).

(** [groupby(...).sum()] on [float64]: the values of a group are added
    in table order with a running compensation (Kahan); a missing value
    is skipped. *)
Definition group_sum_step (st : float * float) (val : float) : float * float :=
  if is_nan val then st
  else
    let y := PrimFloat.sub val st.2 in
    let t := PrimFloat.add st.1 y in
    let c := PrimFloat.sub (PrimFloat.sub t st.1) y in
    (t, if is_nan c then PrimFloat.zero else c).

Definition group_sum_float64 (vs : list float) : float :=
  (fold_left group_sum_step vs (PrimFloat.zero, PrimFloat.zero)).1.



(** Rows whose key is missing are left out of every group. *)
Definition agg_float64 {K} `{EqDecision K} (leb : K -> K -> bool)
    (g : list (K * float)) : list (K * float) :=
  map (fun k => (k, group_sum_float64 (map snd (filter (fun p => p.1 = k) g))))
      (sort_stable leb (remove_dups (map fst g))).

(** Lines 109, 121, 126-127 and 135 on a [float64] amount column. *)
Definition total_expenses_float64 (l : list FloatRow) : float :=
  sum_float64 (map fr_amount l).



Definition category_totals_float64 (l : list FloatRow) : list (string * float) :=
  sort_stable (fun a b => PrimFloat.leb b.2 a.2)
    (agg_float64 String.leb
       (omap (fun r => c ← fr_categoryName r; Some (c, fr_amount r)) l)).

(** Three purchases, two of them of one category and one day. *)
Definition float_rows : list FloatRow :=
  [mkFloatRow (Timestamp 19723) (Some "Food") 19.99%float;
   mkFloatRow (Timestamp 19724) (Some "Fuel") 19.99%float;
   mkFloatRow (Timestamp 19723) (Some "Food") 3.3%float].

(** A purchase recorded without a category. *)
Definition uncategorised_rows : list FloatRow :=
  [mkFloatRow (Timestamp 19723) (Some "Food") 10%float;
   mkFloatRow (Timestamp 19724) None 5%float].


(** A computation that renders only elements that satisfy [P]. *)
Definition renders_only (P : Element -> Prop) {A} (m : M A) : Prop :=
  ∀ s, ∃ es, page (m s).2 = (page s ++ es)%list ∧ Forall P es.

Definition not_an_error (e : Element) : Prop := ∀ msg, e ≠ st_error msg.

(** A request whose [user_id] has 24 characters, eight pairs of
    hexadecimal digits with a space after each. *)
Definition spaced_user_id : string := "00 00 00 00 00 00 00 09 ".

(** ** A run among other frames and a run on the two tables alone

    [framed df filtered D s0 m m']: from a session that differs from
    [s0] in the filtered table and in elements rendered since, [m]
    does what [m'] does on the two tables alone, the unfiltered table
    at position 0 and the filtered table at position 1: the same
    outcome, the same elements rendered, the same filtered table at
    the end, with the rows it had in the store's columns; no other
    frame, no query. *)
Definition framed (df filtered : loc) (D : DataFrame) (s0 : Session) {A}
    (m m' : M A) : Prop :=
  ∀ F es, ∃ o F' es',
    m (mkSession (<[filtered := F]> (heap s0)) (page s0 ++ es) (queries s0))
    = (o, mkSession (<[filtered := F']> (heap s0)) (page s0 ++ es ++ es') (queries s0))
    ∧ m' (mkSession [D; F] es []) = (o, mkSession [D; F'] (es ++ es') [])
    ∧ map base (rows F') = map base (rows F).

(** A computation that writes to no frame. *)
Definition keeps_heap {A} (m : M A) : Prop :=
  ∀ s, heap (m s).2 = heap s.

(** * Properties *)

(** ** Lemmas on masks *)

Section masks.
Implicit Types (l : list Row) (f g : Row -> bool).

Lemma select_rows_map l f :
  select_rows l (map f l) = filter (fun r => f r = true) l.
Proof.
  induction l as [|r l IH]; simpl; [done|].
  rewrite IH. destruct (f r) eqn:E.
  - by rewrite filter_cons_True.
  - rewrite filter_cons_False; [done|]. by rewrite E.
Qed.

Lemma zip_with_andb_map l f g :
  zip_with andb (map f l) (map g l) = map (fun r => f r && g r) l.
Proof. induction l as [|r l IH]; simpl; [done|]. by rewrite IH. Qed.
End masks.

(** The mask of the filter is a Series that holds at a row exactly when
    the row is selected. *)
Lemma mask_and_optional df (col : Row -> string) (vs : list string) (f : Row -> bool) :
  MSeries (map f (rows df)) &&& (if truthy vs then isin col vs df else MScalar true)
  = MSeries (map (fun r => f r && bool_decide (vs = [] ∨ col r ∈ vs)) (rows df)).
Proof.
  destruct vs as [|v vs]; simpl.
  - by rewrite map_map.
  - rewrite zip_with_andb_map. f_equal. apply map_ext. intros r.
    f_equal. apply bool_decide_ext. naive_solver.
Qed.

Lemma filter_mask_spec df sel :
  filter_mask df sel = MSeries (map (fun r => bool_decide (selected sel r)) (rows df)).
Proof.
  unfold filter_mask.
  replace (series_ge date (Timestamp (date_range sel).1) df
           &&& series_le date (Timestamp (date_range sel).2) df)
    with (MSeries (map (fun r => (Timestamp (date_range sel).1 <=? date r)
                                 && (date r <=? Timestamp (date_range sel).2)) (rows df)))
    by (simpl; by rewrite zip_with_andb_map).
  rewrite !mask_and_optional. f_equal. apply map_ext. intros r.
  unfold selected.
  repeat match goal with |- context [bool_decide ?P] => destruct (bool_decide_reflect P) end;
  destruct (Z.leb_spec (Timestamp (date_range sel).1) (date r));
  destruct (Z.leb_spec (date r) (Timestamp (date_range sel).2));
  simpl; try done; exfalso; naive_solver lia.
Qed.


Lemma select_rows_decide (P : Row -> Prop) `{!∀ r, Decision (P r)} (l : list Row) :
  select_rows l (map (fun r => bool_decide (P r)) l) = filter P l.
Proof.
  rewrite select_rows_map. apply list_filter_iff. intros r.
  by rewrite bool_decide_eq_true.
Qed.

Lemma df_filtered_spec df sel :
  df_filtered df sel = Ret (mkDataFrame (columns df) (filter (selected sel) (rows df))).
Proof.
  unfold df_filtered. rewrite filter_mask_spec. simpl.
  rewrite length_map, decide_True by done. by rewrite select_rows_decide.
Qed.

(** ** Sorting *)

Section sort_lemmas.
Context {A : Type} (leb : A -> A -> bool).

Lemma insert_sorted_perm x l : insert_sorted leb x l ≡ₚ x :: l.
Proof.
  induction l as [|y l IH]; simpl; [done|].
  destruct (leb x y); [done|]. rewrite IH. apply Permutation_swap.
Qed.

Lemma sort_stable_perm l : sort_stable leb l ≡ₚ l.
Proof.
  induction l as [|x l IH]; simpl; [done|].
  rewrite insert_sorted_perm. by rewrite IH.
Qed.

Lemma sort_stable_length l : length (sort_stable leb l) = length l.
Proof. by rewrite sort_stable_perm. Qed.

Lemma elem_of_sort_stable x l : x ∈ sort_stable leb l ↔ x ∈ l.
Proof. by rewrite sort_stable_perm. Qed.

Hypothesis leb_total : ∀ a b, leb a b = true ∨ leb b a = true.
Hypothesis leb_trans : ∀ a b c, leb a b = true → leb b c = true → leb a c = true.

Let R (a b : A) : Prop := leb a b = true.

Lemma insert_sorted_sorted x l :
  StronglySorted R l → StronglySorted R (insert_sorted leb x l).
Proof.
  induction 1 as [|y l Hs IH Hy]; simpl.
  - repeat constructor.
  - destruct (leb x y) eqn:E.
    + constructor; [by constructor|]. constructor; [done|].
      eapply Forall_impl; [exact Hy|]. intros z Hz. by eapply leb_trans.
    + constructor; [done|].
      rewrite insert_sorted_perm. constructor; [|done].
      destruct (leb_total x y) as [H|H]; [congruence|done].
Qed.

Lemma sort_stable_sorted l : StronglySorted R (sort_stable leb l).
Proof.
  induction l as [|x l IH]; simpl; [constructor|].
  by apply insert_sorted_sorted.
Qed.
End sort_lemmas.

(** A strongly sorted list splits at any point into a front that
    dominates the back. *)
Lemma sorted_take_drop {A} (R : A -> A -> Prop) (l : list A) (n : nat) :
  StronglySorted R l → ∀ x y, x ∈ take n l → y ∈ drop n l → R x y.
Proof.
  intros Hs. revert n. induction Hs as [|a l Hs IH Ha]; intros n x y.
  - rewrite take_nil. by intros ?%elem_of_nil.
  - destruct n as [|n]; simpl; [by intros ?%elem_of_nil|].
    intros [->|Hx]%elem_of_cons Hy.
    + rewrite Forall_forall in Ha. apply Ha. by eapply subseteq_drop.
    + by eapply IH.
Qed.

(** ** Sums *)

Lemma series_sum_app l1 l2 : series_sum (l1 ++ l2) = series_sum l1 + series_sum l2.
Proof. induction l1 as [|x l1 IH]; simpl; lia. Qed.

Lemma series_sum_perm l1 l2 : l1 ≡ₚ l2 → series_sum l1 = series_sum l2.
Proof. induction 1; simpl; lia. Qed.

Lemma series_sum_nonneg l : Forall (fun v => 0 <= v) l → 0 <= series_sum l.
Proof. induction 1; simpl; lia. Qed.

Section group_lemmas.
Context {K : Type} `{EqDecision K}.
Implicit Types (g : list (K * Z)) (ks : list K).

Lemma group_values_cons k p g :
  group_values k (p :: g) = if decide (p.1 = k) then p.2 :: group_values k g
                            else group_values k g.
Proof.
  unfold group_values. destruct (decide (p.1 = k)).
  - by rewrite filter_cons_True.
  - by rewrite filter_cons_False.
Qed.

Lemma group_values_subseteq k g : group_values k g ⊆ map snd g.
Proof.
  unfold group_values. intros v (p & -> & Hp)%list_elem_of_fmap.
  apply list_elem_of_fmap. exists p. split; [done|].
  by apply list_elem_of_filter in Hp as [_ ?].
Qed.

Lemma group_values_nonempty k g : k ∈ map fst g → group_values k g ≠ [].
Proof.
  intros (p & -> & Hp)%list_elem_of_fmap. unfold group_values.
  intros E%fmap_nil_inv.
  assert (p ∈ filter (fun q : K * Z => q.1 = p.1) g) as Hin
    by by apply list_elem_of_filter.
  rewrite E in Hin. by apply elem_of_nil in Hin.
Qed.

Lemma group_values_empty k g : k ∉ map fst g → group_values k g = [].
Proof.
  intros Hk. unfold group_values.
  destruct (filter _ g) as [|p l] eqn:E; [done|].
  assert (p ∈ filter (fun q : K * Z => q.1 = k) g) as Hin
    by (rewrite E; apply list_elem_of_here).
  apply list_elem_of_filter in Hin as [<- Hin]. destruct Hk.
  apply list_elem_of_fmap. by exists p.
Qed.

(** Over distinct keys, a value counted at one key is counted once. *)
Lemma sum_indicator k0 (a : Z) ks :
  NoDup ks → k0 ∈ ks →
  series_sum (map (fun k => if decide (k0 = k) then a else 0) ks) = a.
Proof.
  induction 1 as [|k ks Hk Hnd IH]; [by intros ?%elem_of_nil|].
  intros Hin. simpl. destruct (decide (k0 = k)) as [->|Hne].
  - assert (series_sum (map (fun k' => if decide (k = k') then a else 0) ks) = 0) as ->; [|lia].
    clear IH Hin Hnd. induction ks as [|k' ks IH]; simpl; [done|].
    apply not_elem_of_cons in Hk as [Hne Hk].
    rewrite decide_False by done. rewrite IH by done. done.
  - apply elem_of_cons in Hin as [?|Hin]; [done|]. rewrite IH by done. lia.
Qed.

(** The group sums over a duplicate-free list of keys that covers the
    keys in use add up to the sum of all values. *)
Lemma sum_group_sums ks g :
  NoDup ks → map fst g ⊆ ks →
  series_sum (map (fun k => series_sum (group_values k g)) ks) = series_sum (map snd g).
Proof.
  intros Hnd. induction g as [|p g IH]; intros Hsub.
  - clear. induction ks as [|k ks IHk]; [done|].
    change (0 + series_sum (map (fun k => series_sum (group_values k [])) ks) = 0).
    by rewrite IHk.
  - simpl in *.
    assert (Hp : p.1 ∈ ks) by (apply Hsub; apply list_elem_of_here).
    assert (Hg : map fst g ⊆ ks) by (intros k Hk; apply Hsub; by apply list_elem_of_further).
    rewrite <- IH by done. rewrite <- (sum_indicator p.1 p.2 ks Hnd Hp) at 1.
    clear. induction ks as [|k ks IHk]; simpl; [done|].
    rewrite IHk. rewrite group_values_cons.
    destruct (decide (p.1 = k)); simpl; lia.
Qed.

Lemma group_keys_perm leb g : group_keys leb g ≡ₚ remove_dups (map fst g).
Proof. apply sort_stable_perm. Qed.

Lemma elem_of_group_keys leb g k : k ∈ group_keys leb g ↔ k ∈ map fst g.
Proof. by rewrite group_keys_perm, elem_of_remove_dups. Qed.

Lemma NoDup_group_keys leb g : NoDup (group_keys leb g).
Proof. rewrite group_keys_perm. apply NoDup_remove_dups. Qed.

Lemma agg_keys {V} leb (f : list Z -> V) g : map fst (agg leb f g) = group_keys leb g.
Proof. unfold agg. rewrite map_map. simpl. apply map_id. Qed.

Lemma agg_values {V} leb (f : list Z -> V) g :
  map snd (agg leb f g) = map (fun k => f (group_values k g)) (group_keys leb g).
Proof. unfold agg. by rewrite map_map. Qed.

Lemma elem_of_agg {V} leb (f : list Z -> V) g k v :
  (k, v) ∈ agg leb f g ↔ k ∈ map fst g ∧ v = f (group_values k g).
Proof.
  unfold agg. rewrite list_elem_of_fmap. setoid_rewrite elem_of_group_keys.
  split.
  - intros (k' & [= -> ->] & Hk). done.
  - intros [Hk ->]. by exists k.
Qed.

Lemma agg_sum_total leb g :
  series_sum (map snd (agg leb series_sum g)) = series_sum (map snd g).
Proof.
  rewrite agg_values. apply sum_group_sums.
  - apply NoDup_group_keys.
  - intros k Hk. by apply elem_of_group_keys.
Qed.
End group_lemmas.

Lemma groupby_amount_values {K} (key : Row -> K) l :
  map snd (groupby_amount key l) = map amount l.
Proof. unfold groupby_amount. by rewrite map_map. Qed.

Lemma groupby_amount_keys {K} (key : Row -> K) l :
  map fst (groupby_amount key l) = map key l.
Proof. unfold groupby_amount. by rewrite map_map. Qed.

(** The filter, exactly: the rows of the table, in table order and with
    its columns, whose [date] is no earlier than midnight of the first
    day of the range and no later than midnight of the last day, whose
    [categoryName] is in the category set when that set is non-empty,
    and whose [paidTo] is in the payee set when that set is non-empty. *)
Lemma df_filtered_exact (df : DataFrame) (sel : FilterSelection) :
  ∃ out, df_filtered df sel = Ret out
    ∧ columns out = columns df
    ∧ rows out = filter (selected sel) (rows df)
    ∧ ∀ r, r ∈ rows out ↔
        r ∈ rows df
        ∧ Timestamp (fst (date_range sel)) <= date r <= Timestamp (snd (date_range sel))
        ∧ (categories sel = [] ∨ categoryName r ∈ categories sel)
        ∧ (payees sel = [] ∨ paidTo r ∈ payees sel).
Proof.
  eexists. split; [apply df_filtered_spec|]. simpl. split; [done|]. split; [done|].
  intros r. rewrite list_elem_of_filter. unfold selected. tauto.
Qed.

(** The lower bound is the calendar day of the row; the upper bound is
    not: a row of the last day passes only at midnight. *)
Lemma Timestamp_le_iff d ts : Timestamp d <= ts ↔ d <= dt_date ts.
Proof.
  unfold Timestamp, dt_date, NS_PER_DAY. split; intros H.
  - apply Z.div_le_lower_bound; lia.
  - pose proof (Z.mul_div_le ts 86400000000000 ltac:(lia)). nia.
Qed.

(** C1, at a table whose last row is dated ten hours into the last day,
    under the selection the date slider starts with (the first and the
    last day of the table, no category, no payee): the calendar day of
    that row lies in the inclusive range, and the filter leaves the row
    out. *)
Theorem C1_last_day_row_dropped :
  date_bounds late_df = Ret (date_range late_selection)
  ∧ late_row ∈ rows late_df
  ∧ (date_range late_selection).1 <= dt_date (date late_row) <= (date_range late_selection).2
  ∧ categories late_selection = [] ∧ payees late_selection = []
  ∧ ∃ out, df_filtered late_df late_selection = Ret out
           ∧ (late_row ∉ rows out)
           ∧ length (rows out) = 1%nat.
Proof.
  split; [reflexivity|]. split; [apply list_elem_of_further, list_elem_of_here|].
  split; [by vm_compute|]. split; [done|]. split; [done|].
  eexists. split; [apply df_filtered_spec|]. split; [|reflexivity].
  simpl. intros H. apply list_elem_of_filter in H as [(Hd & _) _].
  revert Hd. vm_compute. intros [_ H]. by apply H.
Qed.


(** In exact arithmetic the totals of the category breakdown add up to
    the sum of [amount] over the table. *)
Lemma category_totals_sum_exact (df : DataFrame) :
  series_sum (map snd (category_totals df)) = total_expenses df.
Proof.
  unfold category_totals, sort_values_desc, total_expenses.
  rewrite (series_sum_perm _ (map snd (agg String.leb series_sum
             (groupby_amount categoryName (rows df))))).
  - by rewrite agg_sum_total, groupby_amount_values.
  - apply Permutation_map, sort_stable_perm.
Qed.

(** ** Top-N *)

Lemma amount_desc_total a b : amount_desc a b = true ∨ amount_desc b a = true.
Proof. unfold amount_desc. rewrite !Z.leb_le. lia. Qed.

Lemma amount_desc_trans a b c :
  amount_desc a b = true → amount_desc b c = true → amount_desc a c = true.
Proof. unfold amount_desc. rewrite !Z.leb_le. lia. Qed.

(** For every table and every row count: the result has
    [min n (row count)] rows, in descending order of amount, and every
    row left out has an amount no larger than any row kept. *)
Lemma nlargest_spec (n : nat) (df : DataFrame) :
  columns (nlargest n df) = columns df
  ∧ length (rows (nlargest n df)) = Nat.min n (length (rows df))
  ∧ StronglySorted (fun a b => amount b <= amount a) (rows (nlargest n df))
  ∧ ∃ rest, rows df ≡ₚ rows (nlargest n df) ++ rest
            ∧ ∀ x y, x ∈ rows (nlargest n df) → y ∈ rest → amount y <= amount x.
Proof.
  unfold nlargest. simpl.
  pose proof (sort_stable_sorted amount_desc amount_desc_total amount_desc_trans (rows df)) as Hs.
  set (sorted := sort_stable amount_desc (rows df)) in *.
  assert (Hs' : StronglySorted (fun a b => amount b <= amount a) sorted).
  { clear -Hs. induction Hs as [|a l Hs IH Ha]; constructor; [done|].
    eapply Forall_impl; [exact Ha|]. intros b. unfold amount_desc. by rewrite Z.leb_le. }
  split; [done|]. split.
  { rewrite length_take. unfold sorted. by rewrite sort_stable_length. }
  split.
  { clear -Hs'. revert n. induction Hs' as [|a l Hs IH Ha]; intros [|n]; simpl; try constructor.
    - apply IH.
    - eapply Forall_forall. intros b Hb%subseteq_take.
      rewrite Forall_forall in Ha. by apply Ha. }
  exists (drop n sorted). split.
  - rewrite take_drop. symmetry. apply sort_stable_perm.
  - intros x y Hx Hy. by apply (sorted_take_drop _ _ n Hs').
Qed.

(** C4. For every filtered table and every N from 5 to 20, the Top-N
    view has exactly min(N, row count) rows, sorted in descending order
    of amount, and they are rows with the largest amounts: the table is
    these rows together with rows whose amount is no larger than any of
    them. *)
Theorem C4_top_expenses (df : DataFrame) (n : nat) :
  (5 <= n <= 20)%nat →
  length (rows (top_expenses n df)) = Nat.min n (length (rows df))
  ∧ StronglySorted (fun a b => amount b <= amount a) (rows (top_expenses n df))
  ∧ ∃ rest, rows df ≡ₚ rows (top_expenses n df) ++ rest
            ∧ ∀ x y, x ∈ rows (top_expenses n df) → y ∈ rest → amount y <= amount x.
Proof. intros _. unfold top_expenses. apply nlargest_spec. Qed.

Lemma C4_top_expenses_witness :
  length (rows (top_expenses 5 sample_df)) = 4%nat.
Proof.
  destruct (C4_top_expenses sample_df 5 ltac:(lia)) as [H _]. exact H.
Defined.

(** ** The cumulative series *)

Lemma cumsum_from_length acc vs : length (cumsum_from acc vs) = length vs.
Proof. revert acc. induction vs as [|v vs IH]; intros acc; simpl; [done|]. by rewrite IH. Qed.

Lemma cumsum_from_last acc vs :
  vs ≠ [] → last (cumsum_from acc vs) = Some (acc + series_sum vs).
Proof.
  revert acc. induction vs as [|v vs IH]; intros acc Hne; [done|].
  destruct vs as [|v' vs].
  - simpl. f_equal. lia.
  - change (cumsum_from acc (v :: v' :: vs))
      with ((acc + v) :: cumsum_from (acc + v) (v' :: vs)).
    rewrite last_cons, IH by done. simpl. f_equal. lia.
Qed.

Lemma cumsum_from_sorted acc vs :
  Forall (fun v => 0 <= v) vs →
  Forall (fun c => acc <= c) (cumsum_from acc vs)
  ∧ StronglySorted Z.le (cumsum_from acc vs).
Proof.
  intros H. revert acc. induction H as [|v vs Hv Hvs IH]; intros acc; simpl.
  - split; constructor.
  - destruct (IH (acc + v)) as [Hb Hs]. split.
    + constructor; [lia|]. eapply Forall_impl; [exact Hb|]. simpl. lia.
    + by constructor.
Qed.

Lemma map_snd_zip_same_length {A B} (l : list A) (k : list B) :
  length l = length k → map snd (zip l k) = k.
Proof.
  revert k. induction l as [|a l IH]; intros [|b k] E; simpl in *; try done.
  f_equal. apply IH. lia.
Qed.

Lemma cumulative_amount_spec daily :
  cumulative_amount (cumulative_expenses daily)
  = cumsum (map snd (sort_stable (fun a b : Z * Z => a.1 <=? b.1) daily)).
Proof.
  unfold cumulative_amount, cumulative_expenses, cumsum.
  apply map_snd_zip_same_length. by rewrite cumsum_from_length, length_map.
Qed.

Lemma daily_expenses_nonneg df :
  (∀ r, r ∈ rows df → 0 <= amount r) →
  Forall (fun v => 0 <= v) (map snd (daily_expenses df)).
Proof.
  intros H. unfold daily_expenses. rewrite agg_values.
  apply Forall_forall. intros v (k & -> & _)%list_elem_of_fmap.
  apply series_sum_nonneg, Forall_forall. intros a Ha%group_values_subseteq.
  rewrite groupby_amount_values in Ha.
  apply list_elem_of_fmap in Ha as (r & -> & Hr). by apply H.
Qed.

Lemma daily_expenses_total df :
  series_sum (map snd (daily_expenses df)) = total_expenses df.
Proof.
  unfold daily_expenses, total_expenses.
  by rewrite agg_sum_total, groupby_amount_values.
Qed.

Lemma daily_expenses_nonempty df : rows df ≠ [] → daily_expenses df ≠ [].
Proof.
  destruct (rows df) as [|r l] eqn:E; [done|]. intros _ Hd.
  assert (Hk : date r ∈ map fst (daily_expenses df)).
  { unfold daily_expenses. rewrite agg_keys, elem_of_group_keys, groupby_amount_keys, E.
    simpl. apply list_elem_of_here. }
  rewrite Hd in Hk. by apply elem_of_nil in Hk.
Qed.

(** In exact arithmetic: with [daily] the per-date sums of [amount] and
    [cum] the running sum over the date-sorted [daily], [cum] is
    non-decreasing whenever every amount of the table is non-negative;
    the daily series adds up to the total of [amount] over the table;
    and the final value of [cum], which exists as soon as the table has
    a row, is that sum. *)
Lemma cumulative_exact (df : DataFrame) :
  let daily := daily_expenses df in
  let cum := cumulative_amount (cumulative_expenses daily) in
  ((∀ r, r ∈ rows df → 0 <= amount r) → StronglySorted Z.le cum)
  ∧ series_sum (map snd daily) = total_expenses df
  ∧ length cum = length daily
  ∧ (rows df ≠ [] → last cum = Some (total_expenses df)).
Proof.
  intros daily cum. unfold cum. rewrite cumulative_amount_spec.
  set (sorted := sort_stable _ daily).
  assert (Hp : map snd sorted ≡ₚ map snd daily)
    by apply Permutation_map, sort_stable_perm.
  split; [|split; [|split]].
  - intros H. apply cumsum_from_sorted. rewrite Hp. by apply daily_expenses_nonneg.
  - apply daily_expenses_total.
  - unfold cumsum. rewrite cumsum_from_length, length_map. apply sort_stable_length.
  - intros Hne. unfold cumsum. rewrite cumsum_from_last.
    + rewrite (series_sum_perm _ _ Hp). f_equal. rewrite Z.add_0_l. apply daily_expenses_total.
    + intros E%fmap_nil_inv. apply (daily_expenses_nonempty df Hne).
      apply Permutation_nil_r. rewrite <- E. symmetry. apply sort_stable_perm.
Qed.

(** ** Monotonicity of the filter *)

Lemma filter_length_mono {A} (P Q : A -> Prop)
    `{!∀ x, Decision (P x)} `{!∀ x, Decision (Q x)} (l : list A) :
  (∀ x, x ∈ l → P x → Q x) → (length (filter P l) <= length (filter Q l))%nat.
Proof.
  induction l as [|a l IH]; intros Hpq; [done|].
  assert (IH' : (length (filter P l) <= length (filter Q l))%nat).
  { apply IH. intros x Hx. apply Hpq. by apply list_elem_of_further. }
  destruct (decide (P a)) as [HP|HP].
  - rewrite (filter_cons_True P) by done.
    rewrite (filter_cons_True Q) by (apply Hpq; [apply list_elem_of_here|done]).
    simpl. lia.
  - rewrite (filter_cons_False P) by done.
    destruct (decide (Q a)).
    + rewrite (filter_cons_True Q) by done. simpl. lia.
    + by rewrite (filter_cons_False Q).
Qed.

Lemma adds_constraint_selected sel1 sel2 r :
  date_range sel1 = date_range sel2 →
  adds_constraint (categories sel1) (categories sel2) →
  adds_constraint (payees sel1) (payees sel2) →
  selected sel2 r → selected sel1 r.
Proof.
  unfold selected, adds_constraint. intros -> Hc Hp (Hd & Hc2 & Hp2).
  split; [done|]. split.
  - destruct Hc as [?|[Hne Hsub]]; [by left|]. right.
    destruct Hc2 as [?|?]; [done|]. by apply Hsub.
  - destruct Hp as [?|[Hne Hsub]]; [by left|]. right.
    destruct Hp2 as [?|?]; [done|]. by apply Hsub.
Qed.

(** C6. For every table and every two filter selections with the same
    date range, if the second adds a category or payee constraint to the
    first (an unconstrained, empty selection gives way to any selection,
    or a non-empty selection is narrowed to a non-empty part of it), the
    second filtered table has at most as many rows as the first. *)
Theorem C6_filter_monotone (df : DataFrame) (sel1 sel2 : FilterSelection) :
  date_range sel1 = date_range sel2 →
  adds_constraint (categories sel1) (categories sel2) →
  adds_constraint (payees sel1) (payees sel2) →
  ∃ out1 out2,
    df_filtered df sel1 = Ret out1 ∧ df_filtered df sel2 = Ret out2
    ∧ (length (rows out2) <= length (rows out1))%nat.
Proof.
  intros Hd Hc Hp. do 2 eexists.
  split; [apply df_filtered_spec|]. split; [apply df_filtered_spec|].
  simpl. apply filter_length_mono. intros r _.
  by apply adds_constraint_selected.
Qed.

Lemma C6_filter_monotone_witness :
  ∃ out1 out2,
    df_filtered sample_df (mkFilterSelection (19723, 19760) [] ["Shop"; "Cafe"]) = Ret out1
    ∧ df_filtered sample_df (mkFilterSelection (19723, 19760) ["Food"] ["Shop"]) = Ret out2
    ∧ (length (rows out2) <= length (rows out1))%nat.
Proof.
  apply C6_filter_monotone.
  - reflexivity.
  - left. reflexivity.
  - right. split; [discriminate|]. simpl.
    intros x Hx. apply list_elem_of_singleton in Hx as ->. apply list_elem_of_here.
Defined.

(** Clearing a selection lifts the constraint: the empty selection is
    not a narrowing, and the row count can grow. *)
Example clearing_a_selection_widens :
  ∃ out1 out2,
    df_filtered sample_df (mkFilterSelection (19723, 19760) ["Transport"] []) = Ret out1
    ∧ df_filtered sample_df (mkFilterSelection (19723, 19760) [] []) = Ret out2
    ∧ length (rows out1) = 1%nat ∧ length (rows out2) = 4%nat.
Proof. do 2 eexists. split; [reflexivity|]. split; [reflexivity|]. split; reflexivity. Qed.

(** ** Reasoning about runs of the script *)

Lemma wp_bind {A B} (m : M A) (f : A -> M B) (Q : Outcome B -> Session -> Prop) s :
  wp m (wp_then f Q) s → wp (m ≫= f) Q s.
Proof.
  unfold wp, wp_then, mbind, M_bind.
  destruct (m s) as [[a| |e] s']; simpl; done.
Qed.

Section wp_rules.
Context {B : Type}.
Implicit Types (Q : Outcome B -> Session -> Prop) (s : Session).

Lemma wp_ret (a : B) Q s : Q (Ret a) s → wp (mret a) Q s.
Proof. done. Qed.

Lemma wp_lift (o : Outcome B) Q s : Q o s → wp (lift o) Q s.
Proof. done. Qed.

Lemma wp_stop Q s : Q Stopped s → wp st_stop Q s.
Proof. done. Qed.

Lemma wp_emit_bind e (f : unit -> M B) Q s :
  wp (f tt) Q (render e s) → wp (emit e ≫= f) Q s.
Proof. intros H. by apply wp_bind. Qed.

Lemma wp_load_bind l d (f : DataFrame -> M B) Q s :
  heap s !! l = Some d → wp (f d) Q s → wp (load l ≫= f) Q s.
Proof.
  intros Hl H. apply wp_bind. unfold wp, load at 1 2. by rewrite Hl.
Qed.

Lemma wp_load_bind_None l (f : DataFrame -> M B) Q s :
  heap s !! l = None → Q (Raised "NameError") s → wp (load l ≫= f) Q s.
Proof.
  intros Hl H. apply wp_bind. unfold wp, load at 1 2. by rewrite Hl.
Qed.

Lemma wp_lift_bind {A} (o : Outcome A) (f : A -> M B) Q s :
  wp_then f Q o s → wp (lift o ≫= f) Q s.
Proof. intros H. by apply wp_bind. Qed.

Lemma wp_update_bind l d g (f : unit -> M B) Q s :
  heap s !! l = Some d →
  wp (f tt) Q (mkSession (<[l := g d]> (heap s)) (page s) (queries s)) →
  wp (update l g ≫= f) Q s.
Proof.
  intros Hl H. apply wp_bind. unfold wp, update at 1 2. by rewrite Hl.
Qed.

Lemma wp_update_bind_None l g (f : unit -> M B) Q s :
  heap s !! l = None → Q (Raised "NameError") s → wp (update l g ≫= f) Q s.
Proof.
  intros Hl H. apply wp_bind. unfold wp, update at 1 2. by rewrite Hl.
Qed.
End wp_rules.

Lemma wp_emit e (Q : Outcome unit -> Session -> Prop) s :
  Q (Ret tt) (render e s) → wp (emit e) Q s.
Proof. done. Qed.

Lemma wp_mono {A} (m : M A) (Q Q' : Outcome A -> Session -> Prop) s :
  wp m Q s → (∀ o s', Q o s' → Q' o s') → wp m Q' s.
Proof. unfold wp. auto. Qed.

Lemma wp_run {A} (m : M A) (Q : Outcome A -> Session -> Prop) s :
  wp m Q s → Q (m s).1 (m s).2.
Proof. done. Qed.

Lemma wp_eq {A} (m : M A) (o : Outcome A) (s s' : Session) :
  wp m (fun o' s'' => o' = o ∧ s'' = s') s → m s = (o, s').
Proof. unfold wp. destruct (m s). simpl. by intros [-> ->]. Qed.

(** One step through a sequence of the script. *)
Ltac wp_rule :=
  lazymatch goal with
  | |- wp (emit _ ≫= _) _ _ => apply wp_emit_bind
  | |- wp (emit _) _ _ => apply wp_emit
  | |- wp (load _ ≫= _) _ _ => eapply wp_load_bind; [simpl; eassumption|]
  | |- wp (lift _ ≫= _) _ _ => apply wp_lift_bind
  | |- wp (lift _) _ _ => apply wp_lift
  | |- wp (mret _) _ _ => apply wp_ret
  | |- wp st_stop _ _ => apply wp_stop
  | |- wp (update _ _ ≫= _) _ _ => eapply wp_update_bind; [simpl; eassumption|]
  | |- wp (_ ≫= _) _ _ => apply wp_bind
  end.

Ltac wp_step := wp_rule; cbv beta.

Lemma Qle_bool_false_Qeq_bool (b : Q) : Qle_bool b 0 = false → Qeq_bool b 0 = false.
Proof.
  intros H. destruct (Qeq_bool b 0) eqn:E; [|done].
  apply Qeq_bool_iff in E. assert (Qle_bool b 0 = true); [|congruence].
  apply Qle_bool_iff. rewrite E. apply Qle_refl.
Qed.

Lemma getitem_mask_series df (f : Row -> bool) :
  getitem_mask df (MSeries (map f (rows df)))
  = Ret (mkDataFrame (columns df) (filter (fun r => f r = true) (rows df))).
Proof.
  unfold getitem_mask. rewrite length_map, decide_True by done.
  by rewrite select_rows_map.
Qed.

(** ** The budget tracker *)

(** C10. In the budget tracker the spend of the category is divided by
    the budget amount only when the amount is strictly positive: for
    every table and every budget amount the run of the tracker never
    raises a division by zero, and with a budget amount of zero (the
    default) nothing of the budget view is rendered, only the two
    input controls and their header. *)
Theorem C10_budget_guard (df filtered : loc) (w : Widgets) (s : Session) :
  (budget_tracker df filtered w s).1 ≠ Raised "ZeroDivisionError"
  ∧ ∀ d, heap s !! df = Some d → (budget_amount w == 0)%Q →
      budget_tracker df filtered w s
      = (Ret tt,
         render (st_number_input ("Set Budget for " +:+ budget_category w))
           (render (st_selectbox "Select Category for Budget" "categoryName"
                      (unique (map categoryName (rows d))))
              (render (st_header "Budget Settings") s))).
Proof.
  split.
  - apply (wp_run _ (fun o _ => o ≠ Raised "ZeroDivisionError")).
    unfold budget_tracker. wp_step.
    destruct (heap s !! df) as [d|] eqn:Hd; cycle 1.
    { by apply wp_load_bind_None. }
    do 3 wp_step.
    destruct (Qle_bool (budget_amount w) 0) eqn:Hb; cbn [negb]; [by wp_step|].
    destruct (heap s !! filtered) as [f|] eqn:Hf; cycle 1.
    { by apply wp_load_bind_None. }
    wp_step. unfold series_eq. rewrite getitem_mask_series.
    wp_step. simpl. wp_step.
    unfold truediv. rewrite Qle_bool_false_Qeq_bool by done. simpl.
    wp_step. destruct (progress_ok _); by repeat wp_step.
  - intros d Hd Hz.
    assert (Hb : Qle_bool (budget_amount w) 0 = true).
    { apply Qle_bool_iff. rewrite Hz. apply Qle_refl. }
    apply wp_eq. unfold budget_tracker. do 4 wp_step. rewrite Hb. cbn [negb]. by wp_step.
Qed.

Lemma C10_budget_guard_witness :
  budget_tracker 0%nat 1%nat (mkWidgets (mkFilterSelection (19723, 19760) [] []) "Food" 0
                                (19723, 19753) (19754, 19784) 10)
                 (mkSession [sample_df; sample_df] [] [])
  = (Ret tt,
     mkSession [sample_df; sample_df]
       [st_header "Budget Settings";
        st_selectbox "Select Category for Budget" "categoryName" ["Food"; "Transport"];
        st_number_input "Set Budget for Food"] []).
Proof.
  destruct (C10_budget_guard 0%nat 1%nat
              (mkWidgets (mkFilterSelection (19723, 19760) [] []) "Food" 0
                         (19723, 19753) (19754, 19784) 10)
              (mkSession [sample_df; sample_df] [] [])) as [_ H].
  apply (H sample_df); reflexivity.
Defined.

(** ** Identity resolution *)

Section identity.
Variable parse_oid : string -> option oid.
Variable generate_oid : oid.

Lemma resolve_user_id_absent qp s :
  qp !! "user_id" = None →
  resolve_user_id parse_oid generate_oid qp s
  = (Stopped, render (st_error "Invalid user ID format.") s).
Proof.
  intros H. unfold resolve_user_id, query_params_get. rewrite H. reflexivity.
Qed.

Lemma resolve_user_id_malformed qp v s :
  qp !! "user_id" = Some v → parse_oid v = None →
  ∃ msg, resolve_user_id parse_oid generate_oid qp s = (Stopped, render (st_error msg) s).
Proof.
  intros H Hp. unfold resolve_user_id, query_params_get. rewrite H.
  destruct (decide (v = "")) as [->|Hne].
  - eexists. reflexivity.
  - eexists. unfold py_truthy. rewrite bool_decide_eq_false_2 by done.
    unfold mbind, M_bind, try_except, lift, ObjectId. simpl. rewrite Hp. reflexivity.
Qed.

Lemma resolve_user_id_well_formed qp v o s :
  qp !! "user_id" = Some v → v ≠ "" → parse_oid v = Some o →
  resolve_user_id parse_oid generate_oid qp s = (Ret o, s).
Proof.
  intros H Hne Hp. unfold resolve_user_id, query_params_get. rewrite H.
  unfold py_truthy. rewrite bool_decide_eq_false_2 by done.
  unfold mbind, M_bind, try_except, lift, ObjectId. simpl. by rewrite Hp.
Qed.

(** For every request, if the [user_id] query parameter is absent, or
    present with a value that the store does not read as an identifier,
    the run stops with the page holding one more element, an error
    message, and nothing else changed: no query was sent to the store,
    no table was built and no other element was rendered. *)
Lemma refused_identifier_halts (qp : gmap string string) (collection : list Document)
    (w : Widgets) (s : Session) :
  (qp !! "user_id" = None ∨ ∃ v, qp !! "user_id" = Some v ∧ parse_oid v = None) →
  ∃ msg, app parse_oid generate_oid qp collection w s
         = (Stopped, render (st_error msg) s).
Proof.
  intros [H|(v & H & Hp)].
  - exists "Invalid user ID format.". unfold app, mbind, M_bind at 1.
    by rewrite resolve_user_id_absent.
  - destruct (resolve_user_id_malformed qp v s H Hp) as [msg E].
    exists msg. unfold app, mbind, M_bind at 1. by rewrite E.
Qed.
End identity.

(** ** The period comparison *)

Lemma df_period_spec df p :
  df_period df p = Ret (mkDataFrame (columns df) (filter (in_period p) (rows df))).
Proof.
  unfold df_period, series_ge, series_le. cbn [mask_and].
  rewrite zip_with_andb_map, getitem_mask_series. do 2 f_equal.
  apply list_filter_iff. intros r. unfold in_period.
  rewrite andb_true_iff, !Z.leb_le. done.
Qed.

Lemma group_values_groupby {K} `{EqDecision K} (key : Row -> K) k l :
  group_values k (groupby_amount key l) = map amount (filter (fun r => key r = k) l).
Proof.
  unfold group_values, groupby_amount.
  induction l as [|r l IH]; [done|]. simpl.
  destruct (decide (key r = k)) as [E|E].
  - rewrite (filter_cons_True (fun r => key r = k)) by done.
    rewrite filter_cons_True by done. simpl. by rewrite IH.
  - rewrite (filter_cons_False (fun r => key r = k)) by done.
    rewrite filter_cons_False by done. done.
Qed.

Lemma series_lookup_map {K V} `{EqDecision K} (h : K -> V) k ks :
  series_lookup k (map (fun k' => (k', h k')) ks)
  = if decide (k ∈ ks) then Some (h k) else None.
Proof.
  induction ks as [|k' ks IH]; cbn [map series_lookup].
  - destruct (decide (k ∈ [])) as [?%elem_of_nil|]; done.
  - destruct (decide (k' = k)) as [->|Hne].
    + destruct (decide (k ∈ k :: ks)) as [|Hn]; [done|].
      destruct Hn. apply list_elem_of_here.
    + rewrite IH. destruct (decide (k ∈ ks)), (decide (k ∈ k' :: ks)) as [Hin|Hn]; try done.
      * destruct Hn. by apply list_elem_of_further.
      * apply elem_of_cons in Hin as [?|?]; done.
Qed.

Lemma period_totals_lookup df p c :
  series_lookup c (period_totals (mkDataFrame (columns df) (filter (in_period p) (rows df))))
  = period_total df p c.
Proof.
  unfold period_totals, agg. rewrite series_lookup_map. simpl.
  rewrite group_values_groupby, list_filter_filter. unfold period_total.
  destruct (decide _) as [Hin|Hin].
  - apply elem_of_group_keys in Hin. rewrite groupby_amount_keys in Hin.
    apply list_elem_of_fmap in Hin as (r & -> & Hr).
    apply list_elem_of_filter in Hr as [Hp Hr].
    destruct (filter _ (rows df)) as [|r' l] eqn:E; [|done].
    assert (r ∈ filter (fun r' => categoryName r' = categoryName r ∧ in_period p r') (rows df))
      as Hin by by apply list_elem_of_filter.
    rewrite E in Hin. by apply elem_of_nil in Hin.
  - destruct (filter (fun r => categoryName r = c ∧ in_period p r) (rows df))
      as [|r' l] eqn:E; [done|]. destruct Hin.
    assert (r' ∈ filter (fun r' => categoryName r' = c ∧ in_period p r') (rows df))
      as Hin by (rewrite E; apply list_elem_of_here).
    apply list_elem_of_filter in Hin as [[<- Hp] Hr].
    apply elem_of_group_keys. rewrite groupby_amount_keys.
    apply list_elem_of_fmap. exists r'. split; [done|]. by apply list_elem_of_filter.
Qed.

Lemma series_lookup_is_Some {K V} `{EqDecision K} (k : K) (s : list (K * V)) :
  is_Some (series_lookup k s) ↔ k ∈ map fst s.
Proof.
  induction s as [|[k' v] s IH]; simpl.
  - split; [by intros [? ?]|by intros ?%elem_of_nil].
  - destruct (decide (k' = k)) as [->|Hne].
    + split; [intros _; apply list_elem_of_here|by eexists].
    + rewrite IH. split; [by apply list_elem_of_further|].
      by intros [?|?]%elem_of_cons.
Qed.

Lemma frame_of_two_series_spec (s1 s2 : list (string * Z)) :
  NoDup (map (fun x => x.1.1) (frame_of_two_series s1 s2))
  ∧ ∀ c v1 v2, (c, v1, v2) ∈ frame_of_two_series s1 s2 ↔
      v1 = series_lookup c s1 ∧ v2 = series_lookup c s2 ∧ (is_Some v1 ∨ is_Some v2).
Proof.
  unfold frame_of_two_series. split.
  - rewrite map_map. simpl. rewrite map_id, sort_stable_perm. apply NoDup_remove_dups.
  - intros c v1 v2. rewrite list_elem_of_fmap.
    setoid_rewrite elem_of_sort_stable. setoid_rewrite elem_of_remove_dups.
    setoid_rewrite elem_of_app. split.
    + intros (k & [= -> -> ->] & Hk). split; [done|]. split; [done|].
      by rewrite !series_lookup_is_Some.
    + intros (-> & -> & H). exists c. split; [done|].
      by rewrite !series_lookup_is_Some in H.
Qed.

Lemma comparison_spec df p1 p2 :
  ∃ T, comparison df p1 p2 = Ret T
    ∧ NoDup (map (fun x => x.1.1) T)
    ∧ ∀ c v1 v2, (c, v1, v2) ∈ T ↔
        v1 = period_total df p1 c ∧ v2 = period_total df p2 c ∧ (is_Some v1 ∨ is_Some v2).
Proof.
  unfold comparison. rewrite !df_period_spec. simpl. eexists. split; [done|].
  destruct (frame_of_two_series_spec
              (period_totals (mkDataFrame (columns df) (filter (in_period p1) (rows df))))
              (period_totals (mkDataFrame (columns df) (filter (in_period p2) (rows df)))))
    as [Hnd H].
  split; [done|]. intros c v1 v2. rewrite H, !period_totals_lookup. done.
Qed.

(** The comparison view reads the frame of the unfiltered table and
    nothing else of the session. *)
Lemma expense_comparison_spec (df : loc) (w : Widgets) (s : Session) (D : DataFrame) :
  heap s !! df = Some D →
  ∃ T, expense_comparison df w s
       = (Ret tt,
          render (st_plotly_chart "Expense Comparison by Category" (TComparison T))
            (render (st_date_input "Select second period")
               (render (st_date_input "Select first period")
                  (render (st_header "Expense Comparison") s))))
    ∧ comparison D (period1 w) (period2 w) = Ret T
    ∧ NoDup (map (fun x => x.1.1) T)
    ∧ ∀ c v1 v2, (c, v1, v2) ∈ T ↔
        v1 = period_total D (period1 w) c ∧ v2 = period_total D (period2 w) c
        ∧ (is_Some v1 ∨ is_Some v2).
Proof.
  intros Hd. destruct (comparison_spec D (period1 w) (period2 w)) as (T & E & Hnd & H).
  exists T. split; [|done].
  apply wp_eq. unfold expense_comparison. do 4 wp_step. rewrite E. by wp_step.
Qed.

(** ** Invariants along a run *)

Section invariant_rules.
Variable HI : list DataFrame -> Prop.
Variable PI : Element -> Prop.
Context {B : Type}.
Implicit Types (s : Session).

Local Abbreviation post := (@inv_post HI PI B).

Lemma Inv_render e s : Inv HI PI s → PI e → Inv HI PI (render e s).
Proof.
  intros [Hh Hp] He. split; [done|]. simpl. apply Forall_app. split; [done|].
  by constructor.
Qed.

Lemma inv_ret (a : B) s : Inv HI PI s → wp (mret a) post s.
Proof. done. Qed.

Lemma inv_stop s : Inv HI PI s → wp st_stop post s.
Proof. done. Qed.

Lemma inv_lift (o : Outcome B) s : Inv HI PI s → wp (lift o) post s.
Proof. done. Qed.

Lemma inv_seq {A} (m : M A) (f : A -> M B) s :
  wp m (@inv_post HI PI A) s →
  (∀ a s', Inv HI PI s' → wp (f a) post s') →
  wp (m ≫= f) post s.
Proof.
  intros Hm Hf. apply wp_bind. eapply wp_mono; [exact Hm|].
  intros [a| |e] s' H; simpl; [by apply Hf|done|done].
Qed.

Lemma inv_emit_bind e (f : unit -> M B) s :
  Inv HI PI s → PI e →
  (∀ s', Inv HI PI s' → wp (f tt) post s') →
  wp (emit e ≫= f) post s.
Proof. intros Hs He Hf. apply wp_emit_bind, Hf. by apply Inv_render. Qed.

Lemma inv_load_bind l (f : DataFrame -> M B) s :
  Inv HI PI s →
  (∀ d, heap s !! l = Some d → wp (f d) post s) →
  wp (load l ≫= f) post s.
Proof.
  intros Hs Hf. destruct (heap s !! l) as [d|] eqn:E.
  - eapply wp_load_bind; [done|]. by apply Hf.
  - by apply wp_load_bind_None.
Qed.

Lemma inv_lift_bind {A} (o : Outcome A) (f : A -> M B) s :
  Inv HI PI s →
  (∀ a, o = Ret a → wp (f a) post s) →
  wp (lift o ≫= f) post s.
Proof.
  intros Hs Hf. apply wp_lift_bind. destruct o as [a| |e]; simpl; [by apply Hf|done|done].
Qed.

Lemma inv_update_bind l g (f : unit -> M B) s :
  Inv HI PI s →
  (∀ d, heap s !! l = Some d → HI (<[l := g d]> (heap s))) →
  (∀ s', Inv HI PI s' → wp (f tt) post s') →
  wp (update l g ≫= f) post s.
Proof.
  intros Hs Hu Hf. destruct (heap s !! l) as [d|] eqn:E.
  - eapply wp_update_bind; [done|]. apply Hf. split; [by apply Hu|]. apply Hs.
  - by apply wp_update_bind_None.
Qed.

Lemma inv_find_bind collection user_id (f : list Document -> M B) s :
  Inv HI PI s →
  (∀ s', Inv HI PI s' → wp (f (filter (fun d => doc_user d = user_id) collection)) post s') →
  wp (find collection user_id ≫= f) post s.
Proof. intros Hs Hf. apply wp_bind. unfold wp at 1. simpl. apply Hf. apply Hs. Qed.
End invariant_rules.

Lemma inv_try_except HI PI {A} (m handler : M A) s :
  wp m (inv_post HI PI) s →
  (∀ s', Inv HI PI s' → wp handler (inv_post HI PI) s') →
  wp (try_except m handler) (inv_post HI PI) s.
Proof.
  unfold wp, try_except, inv_post. intros Hm Hh.
  destruct (m s) as [[a| |e] s']; simpl in *; [done|done|]. by apply Hh.
Qed.

Lemma inv_emit HI PI e s : Inv HI PI s → PI e → wp (emit e) (inv_post HI PI) s.
Proof. intros Hs He. apply wp_emit. by apply Inv_render. Qed.

Lemma inv_alloc HI PI (d : DataFrame) s :
  Inv HI PI s → HI (heap s ++ [d])%list → wp (alloc d) (inv_post HI PI) s.
Proof. intros Hs Hd. split; [done|]. apply Hs. Qed.

(** One step of an invariant proof: the rule for the head of the
    sequence; the session of the rest of the sequence is a fresh one
    that satisfies the invariant.  What is left are the conditions on
    the elements rendered and on the frames written. *)
Ltac inv_step :=
  lazymatch goal with
  | H : Inv _ _ ?s |- wp (emit _ ≫= _) _ ?s =>
      apply inv_emit_bind; [exact H| |clear dependent s; intros s H]
  | H : Inv _ _ ?s |- wp (emit _) _ ?s => apply inv_emit; [exact H|]
  | H : Inv _ _ ?s |- wp (load _ ≫= _) _ ?s =>
      apply inv_load_bind; [exact H|let d := fresh "d" in let Hd := fresh "Hd" in intros d Hd]
  | H : Inv _ _ ?s |- wp (lift _ ≫= _) _ ?s =>
      apply inv_lift_bind; [exact H|let a := fresh "a" in let Ha := fresh "Ha" in intros a Ha]
  | H : Inv _ _ ?s |- wp (lift _) _ ?s => apply inv_lift; exact H
  | H : Inv _ _ ?s |- wp (mret _) _ ?s => apply inv_ret; exact H
  | H : Inv _ _ ?s |- wp st_stop _ ?s => apply inv_stop; exact H
  | H : Inv _ _ ?s |- wp (update _ _ ≫= _) _ ?s =>
      apply inv_update_bind; [exact H| |clear dependent s; intros s H]
  | H : Inv _ _ ?s |- wp (find _ _ ≫= _) _ ?s =>
      apply inv_find_bind; [exact H|clear dependent s; intros s H]
  end; cbv beta.

(** ** The excluded category *)

Lemma select_rows_subseteq l bs : select_rows l bs ⊆ l.
Proof.
  revert bs. induction l as [|r l IH]; intros bs x.
  - destruct bs; simpl; by intros ?%elem_of_nil.
  - destruct bs as [|[] bs]; simpl.
    + by intros ?%elem_of_nil.
    + intros [->|Hx]%elem_of_cons; [apply list_elem_of_here|].
      apply list_elem_of_further. by eapply IH.
    + intros Hx. apply list_elem_of_further. by eapply IH.
Qed.

Lemma getitem_mask_subseteq df m out :
  getitem_mask df m = Ret out → rows out ⊆ rows df.
Proof.
  destruct m as [bs|b]; simpl; [|done]. case_decide; [|done].
  intros [= <-]. apply select_rows_subseteq.
Qed.

Lemma home_free_subseteq d d' : home_free d → rows d' ⊆ rows d → home_free d'.
Proof.
  unfold home_free. intros H Hsub (r & E & Hr)%list_elem_of_fmap. apply H.
  apply list_elem_of_fmap. exists r. split; [done|]. by apply Hsub.
Qed.

Lemma home_free_getitem_mask df m out :
  home_free df → getitem_mask df m = Ret out → home_free out.
Proof. intros H E. eapply home_free_subseteq; [done|]. by eapply getitem_mask_subseteq. Qed.

Lemma unique_from_subseteq {A} `{EqDecision A} (seen l : list A) : unique_from seen l ⊆ l.
Proof.
  revert seen. induction l as [|x l IH]; intros seen; simpl; [done|].
  case_decide.
  - intros y Hy. apply list_elem_of_further. by eapply IH.
  - intros y [->|Hy]%elem_of_cons; [apply list_elem_of_here|].
    apply list_elem_of_further. by eapply IH.
Qed.

Lemma setitem_categories name f df :
  map categoryName (rows (setitem name f df)) = map categoryName (rows df).
Proof. unfold setitem. simpl. by rewrite map_map. Qed.

Lemma setitem_base name f df : map base (rows (setitem name f df)) = map base (rows df).
Proof. unfold setitem. simpl. by rewrite map_map. Qed.

Lemma home_free_setitem name f df : home_free df → home_free (setitem name f df).
Proof. unfold home_free. by rewrite setitem_categories. Qed.

Lemma agg_categories {V} (f : list Z -> V) df c :
  c ∈ map fst (agg String.leb f (groupby_amount categoryName (rows df))) →
  c ∈ map categoryName (rows df).
Proof. by rewrite agg_keys, elem_of_group_keys, groupby_amount_keys. Qed.

Lemma category_totals_categories df c :
  c ∈ map fst (category_totals df) → c ∈ map categoryName (rows df).
Proof.
  unfold category_totals, sort_values_desc. intros Hc. apply (agg_categories series_sum).
  by rewrite sort_stable_perm in Hc.
Qed.

Lemma groupby_amount_opt_keys {K} (key : Row -> option K) l k :
  k ∈ map fst (groupby_amount_opt key l) → ∃ r, r ∈ l ∧ key r = Some k.
Proof.
  unfold groupby_amount_opt. intros ([k' v] & -> & Hp)%list_elem_of_fmap.
  apply list_elem_of_omap in Hp as (r & Hr & E). exists r. split; [done|].
  destruct (key r) as [k''|]; simpl in *; [|done]. by injection E as -> _.
Qed.

Lemma monthly_expenses_categories df c :
  c ∈ (monthly_expenses df).1 → c ∈ map categoryName (rows df).
Proof.
  unfold monthly_expenses. simpl. rewrite elem_of_sort_stable, elem_of_remove_dups.
  intros (p & -> & Hp)%list_elem_of_fmap.
  assert (Hk : p.1 ∈ map fst (groupby_amount_opt
            (fun r => m ← month_of r; Some (m, categoryName r)) (rows df))).
  { apply list_elem_of_fmap. by exists p. }
  apply groupby_amount_opt_keys in Hk as (r & Hr & E).
  apply list_elem_of_fmap. exists r. split; [|done].
  destruct (month_of r); simpl in E; [|done]. by injection E as <-.
Qed.

Lemma period_total_categories df p c :
  is_Some (period_total df p c) → c ∈ map categoryName (rows df).
Proof.
  unfold period_total.
  destruct (filter _ (rows df)) as [|r l] eqn:E; [by intros [? ?]|]. intros _.
  assert (r ∈ filter (fun r => categoryName r = c ∧ in_period p r) (rows df)) as Hin
    by (rewrite E; apply list_elem_of_here).
  apply list_elem_of_filter in Hin as [[<- _] Hr].
  apply list_elem_of_fmap. by exists r.
Qed.

Lemma comparison_categories df p1 p2 T c :
  comparison df p1 p2 = Ret T → c ∈ map (fun x => x.1.1) T →
  c ∈ map categoryName (rows df).
Proof.
  intros E ([[c' v1] v2] & -> & Hin)%list_elem_of_fmap. simpl.
  destruct (comparison_spec df p1 p2) as (T' & E' & _ & H).
  rewrite E in E'. injection E' as <-.
  apply H in Hin as (-> & -> & [Hs|Hs]); by eapply period_total_categories.
Qed.

Lemma nlargest_subseteq n df : rows (nlargest n df) ⊆ rows df.
Proof.
  unfold nlargest. simpl. intros r Hr%subseteq_take. by apply elem_of_sort_stable in Hr.
Qed.

Create HintDb home discriminated.

Lemma no_home_frame title d : home_free d → no_home (st_plotly_chart title (TFrame d)).
Proof. done. Qed.

Lemma no_home_csv label d file_name mime :
  home_free d → no_home (st_download_button label (convert_df d) file_name mime).
Proof. done. Qed.

Lemma no_home_category_totals title d :
  home_free d → no_home (st_plotly_chart title (TByCategory (category_totals d))).
Proof. intros H Hc. by apply H, category_totals_categories. Qed.

Lemma no_home_monthly title d :
  home_free d →
  no_home (st_plotly_chart title
             (TMonthByCategory (monthly_expenses d).1 (monthly_expenses d).2)).
Proof. intros H Hc. by apply H, monthly_expenses_categories. Qed.

Lemma no_home_comparison title d p1 p2 T :
  home_free d → comparison d p1 p2 = Ret T →
  no_home (st_plotly_chart title (TComparison T)).
Proof. intros H E Hc. eapply H, comparison_categories; done. Qed.

Lemma no_home_describe d :
  home_free d → no_home (st_write (TDescribe (statistical_summary d))).
Proof. intros H Hc. by apply H, (agg_categories describe). Qed.

Lemma no_home_multiselect label column d :
  home_free d → no_home (st_multiselect label column (unique (map categoryName (rows d)))).
Proof.
  intros H. unfold no_home. simpl. case_decide; [|apply not_elem_of_nil].
  intros Hc. by apply H, (unique_from_subseteq []).
Qed.

Lemma no_home_selectbox label column d :
  home_free d → no_home (st_selectbox label column (unique (map categoryName (rows d)))).
Proof.
  intros H. unfold no_home. simpl. case_decide; [|apply not_elem_of_nil].
  intros Hc. by apply H, (unique_from_subseteq []).
Qed.

Lemma home_free_top_expenses n d : home_free d → home_free (top_expenses n d).
Proof. intros H. eapply home_free_subseteq; [done|]. apply nlargest_subseteq. Qed.

#[local] Hint Resolve no_home_frame no_home_csv no_home_category_totals no_home_monthly
  no_home_comparison no_home_describe no_home_multiselect no_home_selectbox
  home_free_top_expenses home_free_setitem home_free_getitem_mask : home.

Lemma Inv_home_lookup s l d :
  Inv (Forall home_free) no_home s → heap s !! l = Some d → home_free d.
Proof. intros [H _] Hl. by eapply Forall_lookup_1. Qed.

Lemma Forall_home_insert h l d :
  Forall home_free h → home_free d → Forall home_free (<[l := d]> h).
Proof. intros Hh Hd. by apply Forall_insert. Qed.

(** A step of the invariant "no frame and no element carries the
    category Home"; elements without category labels are dealt with on
    the spot. *)
Ltac home_step :=
  inv_step;
  try lazymatch goal with
  | H : Inv _ _ ?s, Hd : heap ?s !! _ = Some ?d |- wp _ _ ?s =>
      pose proof (Inv_home_lookup _ _ _ H Hd)
  end;
  try lazymatch goal with
  | |- no_home _ => first [ by (unfold no_home; cbn; apply not_elem_of_nil)
                          | by eauto with home ]
  end.

Abbreviation home_post := (inv_post (Forall home_free) no_home).
Abbreviation home_inv := (Inv (Forall home_free) no_home).

Section home_pieces.
Variable parse_oid : string -> option oid.
Variable generate_oid : oid.
Implicit Types (s : Session) (w : Widgets).

Lemma resolve_user_id_home qp s :
  home_inv s → wp (resolve_user_id parse_oid generate_oid qp) home_post s.
Proof.
  intros H. unfold resolve_user_id. apply inv_seq.
  - destruct (negb _); [|by apply inv_ret]. home_step. by apply inv_stop.
  - clear dependent s. intros _ s H. apply inv_try_except; [by apply inv_lift|].
    clear dependent s. intros s H. home_step. by apply inv_stop.
Qed.

Lemma normalized_home_free collection user_id : home_free (normalized collection user_id).
Proof.
  unfold home_free, normalized. simpl. intros (r & E & Hr)%list_elem_of_fmap.
  apply list_elem_of_filter in Hr as [Hne _]. done.
Qed.

Lemma get_data_home collection user_id s :
  home_inv s → wp (get_data collection user_id) home_post s.
Proof.
  intros H. unfold get_data. home_step.
  destruct (df_empty _).
  - home_step. by apply inv_stop.
  - unfold series_ne. rewrite getitem_mask_series. home_step.
    injection Ha as <-. apply inv_alloc; [done|].
    apply Forall_app. split; [apply H|]. constructor; [|done].
    unfold home_free. simpl. intros (r & E & Hr)%list_elem_of_fmap.
    apply list_elem_of_filter in Hr as [Hne _].
    apply bool_decide_eq_true in Hne. done.
Qed.

Lemma sidebar_filters_home df w s :
  home_inv s → wp (sidebar_filters df w) home_post s.
Proof.
  intros H. unfold sidebar_filters. do 6 home_step.
  home_step. destruct a as [min_date max_date].
  destruct (_ && _); [|by home_step]. home_step. home_step.
  lazymatch goal with
  | E : df_filtered _ _ = Ret _ |- _ => rewrite df_filtered_spec in E; injection E as <-
  end.
  apply inv_alloc; [done|]. apply Forall_app. split; [apply H|].
  constructor; [|done]. eapply home_free_subseteq; [done|]. simpl.
  intros r Hr. by apply list_elem_of_filter in Hr as [_ ?].
Qed.

Lemma budget_tracker_home df filtered w s :
  home_inv s → wp (budget_tracker df filtered w) home_post s.
Proof.
  intros H. unfold budget_tracker. do 4 home_step.
  destruct (negb _); [|by apply inv_ret].
  do 3 home_step. apply inv_seq.
  - destruct (progress_ok _); [by home_step|by apply inv_lift].
  - clear dependent s. intros _ s H. by home_step.
Qed.

Lemma download_home filtered s : home_inv s → wp (download filtered) home_post s.
Proof. intros H. unfold download. by do 3 home_step. Qed.

Lemma overview_home filtered s : home_inv s → wp (overview filtered) home_post s.
Proof. intros H. unfold overview. by do 5 home_step. Qed.

Lemma time_series_home filtered s : home_inv s → wp (time_series filtered) home_post s.
Proof. intros H. unfold time_series. by do 4 home_step. Qed.

Lemma category_analysis_home filtered s :
  home_inv s → wp (category_analysis filtered) home_post s.
Proof. intros H. unfold category_analysis. by do 5 home_step. Qed.

Lemma temporal_patterns_home filtered s :
  home_inv s → wp (temporal_patterns filtered) home_post s.
Proof.
  intros H. unfold temporal_patterns. home_step. home_step.
  { intros d Hd. apply Forall_home_insert; [apply H|].
    apply home_free_setitem. by eapply Inv_home_lookup. }
  home_step. rewrite (surjective_pairing (monthly_expenses d)). home_step.
  home_step. home_step.
  { intros d' Hd'. apply Forall_home_insert; [apply H|].
    apply home_free_setitem. by eapply Inv_home_lookup. }
  by do 2 home_step.
Qed.

Lemma expense_comparison_home df w s :
  home_inv s → wp (expense_comparison df w) home_post s.
Proof. intros H. unfold expense_comparison. by do 6 home_step. Qed.

Lemma top_expenses_analysis_home filtered w s :
  home_inv s → wp (top_expenses_analysis filtered w) home_post s.
Proof. intros H. unfold top_expenses_analysis. by do 4 home_step. Qed.

Lemma payee_analysis_home filtered s : home_inv s → wp (payee_analysis filtered) home_post s.
Proof. intros H. unfold payee_analysis. by do 3 home_step. Qed.

Lemma statistical_summary_view_home filtered s :
  home_inv s → wp (statistical_summary_view filtered) home_post s.
Proof. intros H. unfold statistical_summary_view. by do 3 home_step. Qed.

Lemma views_home df filtered w s : home_inv s → wp (views df filtered w) home_post s.
Proof.
  intros H. unfold views.
  apply inv_seq; [by apply budget_tracker_home|]. clear dependent s. intros _ s H.
  apply inv_seq; [by apply download_home|]. clear dependent s. intros _ s H.
  apply inv_seq; [by apply overview_home|]. clear dependent s. intros _ s H.
  apply inv_seq; [by apply time_series_home|]. clear dependent s. intros _ s H.
  apply inv_seq; [by apply category_analysis_home|]. clear dependent s. intros _ s H.
  apply inv_seq; [by apply temporal_patterns_home|]. clear dependent s. intros _ s H.
  apply inv_seq; [by apply expense_comparison_home|]. clear dependent s. intros _ s H.
  apply inv_seq; [by apply top_expenses_analysis_home|]. clear dependent s. intros _ s H.
  apply inv_seq; [by apply payee_analysis_home|]. clear dependent s. intros _ s H.
  by apply statistical_summary_view_home.
Qed.

Lemma app_home qp collection w s :
  home_inv s → wp (app parse_oid generate_oid qp collection w) home_post s.
Proof.
  intros H. unfold app.
  apply inv_seq; [by apply resolve_user_id_home|]. clear dependent s. intros user_id s H.
  apply inv_seq; [by apply get_data_home|]. clear dependent s. intros df s H.
  apply inv_seq; [by apply sidebar_filters_home|]. clear dependent s. intros filtered s H.
  by apply views_home.
Qed.
End home_pieces.

(** The fetch: nothing for a user without documents, otherwise a new
    frame that holds the normalized table. *)
Lemma get_data_spec collection user_id s :
  get_data collection user_id s
  = if decide (filter (fun d => doc_user d = user_id) collection = [])
    then (Stopped, render (st_warning "No data found for the Selected User.")
                     (mkSession (heap s) (page s) (queries s ++ [user_id])))
    else (Ret (length (heap s)),
          mkSession (heap s ++ [normalized collection user_id]) (page s)
                    (queries s ++ [user_id])).
Proof.
  unfold get_data, normalized, find, mbind, M_bind.
  destruct (filter _ collection) as [|d items] eqn:E.
  - rewrite decide_True by done. reflexivity.
  - rewrite decide_False by done.
    change (df_empty (DataFrame_of (d :: items))) with false. cbv iota.
    unfold series_ne. rewrite getitem_mask_series. unfold lift, alloc. simpl.
    assert (Hf : filter (fun r => bool_decide (categoryName r ≠ "Home") = true)
                   (row_of d :: map row_of items)
                 = filter (fun r => categoryName r ≠ "Home") (row_of d :: map row_of items)).
    { apply list_filter_iff. intros r. by rewrite bool_decide_eq_true. }
    by rewrite Hf.
Qed.

(** C2. For every fetched dataset, the table that [get_data] hands to
    the script holds the documents of the user except those whose
    [categoryName] is "Home"; and for every run of the script, from the
    empty session, no frame on the heap (the table, the filtered table)
    has a row of category "Home" and no element of the page (the
    controls, every aggregation view, the period comparison, the CSV
    export) carries the category label "Home". *)
Theorem C2_home_excluded (parse_oid : string -> option oid) (generate_oid : oid)
    (qp : gmap string string) (collection : list Document) (w : Widgets) :
  (∀ user_id s l s',
     get_data collection user_id s = (Ret l, s') →
     ∃ D, heap s' !! l = Some D
          ∧ rows D = filter (fun r => categoryName r ≠ "Home")
                       (map row_of (filter (fun d => doc_user d = user_id) collection)))
  ∧ (∀ d r, d ∈ heap (app parse_oid generate_oid qp collection w init).2 →
            r ∈ rows d → categoryName r ≠ "Home")
  ∧ (∀ e, e ∈ page (app parse_oid generate_oid qp collection w init).2 →
          "Home" ∉ element_categories e).
Proof.
  split; [|split].
  - intros user_id s l s'. rewrite get_data_spec. case_decide; [done|].
    intros [= <- <-]. exists (normalized collection user_id). split; [|done].
    simpl. by rewrite lookup_app_r, Nat.sub_diag.
  - intros d r Hd Hr E.
    assert (Hi : home_inv init) by (split; constructor).
    pose proof (wp_run _ _ _ (app_home parse_oid generate_oid qp collection w init Hi)) as [Hh _].
    rewrite Forall_forall in Hh. apply (Hh d Hd).
    apply list_elem_of_fmap. by exists r.
  - intros e He.
    assert (Hi : home_inv init) by (split; constructor).
    pose proof (wp_run _ _ _ (app_home parse_oid generate_oid qp collection w init Hi)) as [_ Hp].
    rewrite Forall_forall in Hp. by apply Hp.
Qed.

Lemma C2_home_excluded_witness :
  ∃ D, heap (get_data sample_collection 7%N init).2 !! 0%nat = Some D
       ∧ rows D = sample_rows.
Proof.
  destruct (C2_home_excluded bson_oid 0%N ∅ sample_collection sample_widgets) as [H _].
  apply (H 7%N init 0%nat (get_data sample_collection 7%N init).2). reflexivity.
Defined.


(** The hand-computed comparison of the sample table: January against
    February. *)
Example comparison_sample :
  comparison sample_df (19723, 19753) (19754, 19784)
  = Ret [("Food", Some 30, Some 7); ("Transport", Some 5, None)].
Proof. reflexivity. Qed.

(** ** Shared state *)

Section frame.
Variable HI : list DataFrame -> Prop.
Variable PI : Element -> Prop.
Variables df filtered : loc.
Variable w : Widgets.
Hypothesis HI_setitem : ∀ h d name f,
  HI h → h !! filtered = Some d → HI (<[filtered := setitem name f d]> h).
Hypothesis HI_alloc : ∀ h d, HI h → HI (h ++ [d]).
Hypothesis PI_other : ∀ e, ¬ is_comparison_chart e → PI e.
Hypothesis PI_comparison : ∀ h d T title,
  HI h → h !! df = Some d → comparison d (period1 w) (period2 w) = Ret T →
  PI (st_plotly_chart title (TComparison T)).

Local Abbreviation post := (inv_post HI PI).

Ltac frame_step :=
  inv_step;
  try lazymatch goal with
  | |- PI _ => by (apply PI_other; simpl; tauto)
  end.

Lemma sidebar_filters_frame s :
  Inv HI PI s → wp (sidebar_filters df w) post s.
Proof.
  intros H. unfold sidebar_filters. do 7 frame_step.
  destruct a as [min_date max_date].
  destruct (_ && _); [|by frame_step]. do 2 frame_step.
  apply inv_alloc; [done|]. apply HI_alloc, H.
Qed.

Lemma budget_tracker_frame s :
  Inv HI PI s → wp (budget_tracker df filtered w) post s.
Proof.
  intros H. unfold budget_tracker. do 4 frame_step.
  destruct (negb _); [|by apply inv_ret].
  do 3 frame_step. apply inv_seq.
  - destruct (progress_ok _); [by frame_step|by apply inv_lift].
  - clear dependent s. intros _ s H. by frame_step.
Qed.

Lemma temporal_patterns_frame s :
  Inv HI PI s → wp (temporal_patterns filtered) post s.
Proof.
  intros H. unfold temporal_patterns. frame_step. frame_step.
  { intros d Hd. apply HI_setitem; [apply H|done]. }
  frame_step. rewrite (surjective_pairing (monthly_expenses d)). frame_step.
  frame_step. frame_step.
  { intros d' Hd'. apply HI_setitem; [apply H|done]. }
  by do 2 frame_step.
Qed.

Lemma expense_comparison_frame s :
  Inv HI PI s → wp (expense_comparison df w) post s.
Proof.
  intros H. unfold expense_comparison. do 5 frame_step.
  frame_step. eapply PI_comparison; [apply H|done|done].
Qed.

Lemma views_frame s : Inv HI PI s → wp (views df filtered w) post s.
Proof.
  intros H. unfold views.
  apply inv_seq; [by apply budget_tracker_frame|]. clear dependent s. intros _ s H.
  apply inv_seq; [unfold download; by do 3 frame_step|]. clear dependent s. intros _ s H.
  apply inv_seq; [unfold overview; by do 5 frame_step|]. clear dependent s. intros _ s H.
  apply inv_seq; [unfold time_series; by do 4 frame_step|]. clear dependent s. intros _ s H.
  apply inv_seq; [unfold category_analysis; by do 5 frame_step|].
  clear dependent s. intros _ s H.
  apply inv_seq; [by apply temporal_patterns_frame|]. clear dependent s. intros _ s H.
  apply inv_seq; [by apply expense_comparison_frame|]. clear dependent s. intros _ s H.
  apply inv_seq; [unfold top_expenses_analysis; by do 4 frame_step|].
  clear dependent s. intros _ s H.
  apply inv_seq; [unfold payee_analysis; by do 3 frame_step|].
  clear dependent s. intros _ s H.
  unfold statistical_summary_view. by do 3 frame_step.
Qed.
End frame.

(** C8, as stated, fails.  The filtered table is written to: after the
    two tabs of "Temporal Patterns" the frame of the filtered table is
    no longer the frame the filter produced, and the Top-N view that
    follows shows rows with the two new columns. *)
Lemma C8_filtered_table_mutated :
  heap (temporal_patterns 1%nat sample_session).2 !! 1%nat ≠ heap sample_session !! 1%nat
  ∧ columns (with_temporal_columns sample_df) ≠ columns sample_df
  ∧ top_expenses 10 (with_temporal_columns sample_df) ≠ top_expenses 10 sample_df.
Proof. split; [|split]; vm_compute; discriminate. Qed.

Lemma cons_eq_inv {A} (x y : A) (l k : list A) : x :: l = y :: k → x = y ∧ l = k.
Proof. by intros [= -> ->]. Qed.

Lemma base_amount r r' : base r = base r' → amount r = amount r'.
Proof. unfold base. congruence. Qed.

Lemma map_base_eq {B} (f : Row -> B) l l' :
  (∀ r r', base r = base r' → f r = f r') →
  map base l = map base l' → map f l = map f l'.
Proof.
  intros Hf. revert l'. induction l as [|r l IH]; intros [|r' l'] E; simpl in *; try done.
  apply cons_eq_inv in E as [E1 E2]. rewrite (Hf r r' E1), (IH l' E2). done.
Qed.

Lemma groupby_amount_base {K} (key : Row -> K) l l' :
  (∀ r r', base r = base r' → key r = key r') →
  map base l = map base l' → groupby_amount key l = groupby_amount key l'.
Proof.
  intros Hk. apply map_base_eq. intros r r' E.
  by rewrite (Hk r r' E), (base_amount r r' E).
Qed.

Lemma insert_sorted_base x x' s s' :
  base x = base x' → map base s = map base s' →
  map base (insert_sorted amount_desc x s) = map base (insert_sorted amount_desc x' s').
Proof.
  intros Hx. revert s'. induction s as [|y s IH]; intros [|y' s'] E; simpl in *; try done.
  - by rewrite Hx.
  - apply cons_eq_inv in E as [Ey E].
    assert (amount_desc x y = amount_desc x' y') as ->.
    { unfold amount_desc. by rewrite (base_amount _ _ Hx), (base_amount _ _ Ey). }
    destruct (amount_desc x' y'); simpl.
    + by rewrite Hx, Ey, E.
    + rewrite Ey. f_equal. by apply IH.
Qed.

Lemma sort_stable_base l l' :
  map base l = map base l' →
  map base (sort_stable amount_desc l) = map base (sort_stable amount_desc l').
Proof.
  revert l'. induction l as [|x l IH]; intros [|x' l'] E; simpl in *; try done.
  apply cons_eq_inv in E as [Ex E]. apply insert_sorted_base; [done|by apply IH].
Qed.

(** Views that read the store's columns only give the same result on
    tables that agree on these columns. *)
Lemma same_base_views F F' :
  map base (rows F') = map base (rows F) →
  top_payees F' = top_payees F
  ∧ statistical_summary F' = statistical_summary F
  ∧ ∀ n, map base (rows (top_expenses n F')) = map base (rows (top_expenses n F)).
Proof.
  intros E. split; [|split].
  - unfold top_payees. rewrite (groupby_amount_base paidTo _ _ ltac:(unfold base; congruence) E). done.
  - unfold statistical_summary.
    rewrite (groupby_amount_base categoryName _ _ ltac:(unfold base; congruence) E). done.
  - intros n. unfold top_expenses, nlargest. simpl.
    rewrite <- !firstn_map. f_equal. by apply sort_stable_base.
Qed.

(** ** The comparison within a run of the script *)

Lemma resolve_user_id_cases parse_oid generate_oid qp s :
  (∃ msg, resolve_user_id parse_oid generate_oid qp s = (Stopped, render (st_error msg) s))
  ∨ (∃ o, resolve_user_id parse_oid generate_oid qp s = (Ret o, s)).
Proof.
  destruct (qp !! "user_id") as [v|] eqn:E.
  - destruct (decide (v = "")) as [->|Hne].
    + left. eexists. unfold resolve_user_id, query_params_get. rewrite E. reflexivity.
    + destruct (parse_oid v) as [o|] eqn:Hp.
      * right. exists o. by eapply resolve_user_id_well_formed.
      * left. by eapply resolve_user_id_malformed.
  - left. eexists. by apply resolve_user_id_absent.
Qed.

(** The filtered table goes to a new position of the heap. *)
Lemma sidebar_filters_loc df w s :
  wp (sidebar_filters df w) (fun o _ => ∀ l, o = Ret l → l = length (heap s)) s.
Proof.
  unfold sidebar_filters. do 3 wp_step.
  destruct (heap s !! df) as [d|] eqn:Hd; [|by apply wp_load_bind_None].
  do 4 wp_step. destruct (date_bounds d) as [[min_date max_date]| |e]; simpl; [|done|done].
  destruct (_ && _); [|by wp_step].
  do 2 wp_step. rewrite df_filtered_spec. simpl. unfold wp. simpl. by intros l [= <-].
Qed.

Section comparison_in_app.
Variable parse_oid : string -> option oid.
Variable generate_oid : oid.
Variable collection : list Document.
Variable w : Widgets.

(** Along a run from the empty session the comparison chart, once
    rendered, is the comparison of the normalized table of the user,
    whatever the filter selection made of the filtered table. *)
Lemma app_comparison_unfiltered qp title T :
  st_plotly_chart title (TComparison T)
    ∈ page (app parse_oid generate_oid qp collection w init).2 →
  ∃ user_id, comparison (normalized collection user_id) (period1 w) (period2 w) = Ret T.
Proof.
  unfold app. unfold mbind at 1, M_bind at 1.
  destruct (resolve_user_id_cases parse_oid generate_oid qp init) as [(msg & ->)|(o & ->)].
  { simpl. by intros [=]%list_elem_of_singleton. }
  unfold mbind at 1, M_bind at 1. rewrite get_data_spec. case_decide.
  { simpl. by intros [=]%list_elem_of_singleton. }
  set (D := normalized collection o). set (s1 := mkSession _ _ _).
  set (HI := fun h : list DataFrame => h !! 0%nat = Some D).
  set (PI := fun e => ∀ title T, e = st_plotly_chart title (TComparison T) →
                      comparison D (period1 w) (period2 w) = Ret T).
  assert (Hother : ∀ e, ¬ is_comparison_chart e → PI e).
  { intros e He ? ? ->. by destruct He. }
  assert (Hcmp : ∀ h d T' title',
    HI h → h !! 0%nat = Some d → comparison d (period1 w) (period2 w) = Ret T' →
    PI (st_plotly_chart title' (TComparison T'))).
  { unfold HI. intros h d T' title' Hh Hd E ? ? [= _ <-]. congruence. }
  assert (Halloc : ∀ (h : list DataFrame) (d : DataFrame), HI h → HI (h ++ [d])%list).
  { unfold HI. intros h d Hh. by apply lookup_app_l_Some. }
  assert (Hset : ∀ h d name f,
    HI h → h !! 1%nat = Some d → HI (<[1%nat := setitem name f d]> h)).
  { unfold HI. intros h d name f Hh _. by rewrite list_lookup_insert_ne. }
  assert (H1 : Inv HI PI s1) by (split; [done|constructor]).
  pose proof (sidebar_filters_frame HI PI 0%nat w Halloc Hother s1 H1) as Hinv.
  pose proof (sidebar_filters_loc 0%nat w s1) as Hloc.
  unfold wp, inv_post in Hinv, Hloc. unfold mbind, M_bind at 1.
  change (length (heap init)) with 0%nat.
  destruct (sidebar_filters 0%nat w s1) as [[l| |e] s2]; simpl in Hinv, Hloc.
  - rewrite (Hloc l eq_refl). simpl.
    pose proof (wp_run _ _ _
      (views_frame HI PI 0%nat 1%nat w Hset Hother Hcmp s2 Hinv)) as [_ Hp].
    intros Hin. exists o. rewrite Forall_forall in Hp. by eapply Hp.
  - intros Hin. exists o. destruct Hinv as [_ Hp]. rewrite Forall_forall in Hp. by eapply Hp.
  - intros Hin. exists o. destruct Hinv as [_ Hp]. rewrite Forall_forall in Hp. by eapply Hp.
Qed.
End comparison_in_app.

(** C7. For every normalized table [D] and every two date intervals,
    the comparison is computed from the unfiltered table and not from
    the filtered view: the view loads the frame of the unfiltered table
    whatever else the session holds, and along a run of the script the
    chart rendered is the comparison of the normalized table of the
    user.  The comparison has one line per category that has a row of
    [D] in at least one of the two intervals; the line carries, for each
    interval independently, the sum of [amount] over the rows of [D] of
    that category dated in the interval, and no value where the
    interval has no such row. *)
Theorem C7_period_comparison (parse_oid : string -> option oid) (generate_oid : oid)
    (collection : list Document) (w : Widgets) :
  (∀ df s D, heap s !! df = Some D →
     ∃ T, expense_comparison df w s
          = (Ret tt,
             render (st_plotly_chart "Expense Comparison by Category" (TComparison T))
               (render (st_date_input "Select second period")
                  (render (st_date_input "Select first period")
                     (render (st_header "Expense Comparison") s))))
       ∧ comparison D (period1 w) (period2 w) = Ret T)
  ∧ (∀ qp title T,
       st_plotly_chart title (TComparison T)
         ∈ page (app parse_oid generate_oid qp collection w init).2 →
       ∃ user_id, comparison (normalized collection user_id) (period1 w) (period2 w) = Ret T)
  ∧ (∀ D, ∃ T, comparison D (period1 w) (period2 w) = Ret T
       ∧ NoDup (map (fun x => x.1.1) T)
       ∧ ∀ c v1 v2, (c, v1, v2) ∈ T ↔
           v1 = period_total D (period1 w) c ∧ v2 = period_total D (period2 w) c
           ∧ (is_Some v1 ∨ is_Some v2)).
Proof.
  split; [|split].
  - intros df s D Hd.
    destruct (expense_comparison_spec df w s D Hd) as (T & E & Hc & _). by exists T.
  - apply app_comparison_unfiltered.
  - intros D. apply comparison_spec.
Qed.

Lemma C7_period_comparison_witness :
  ∃ T, expense_comparison 0%nat sample_widgets sample_session
       = (Ret tt,
          render (st_plotly_chart "Expense Comparison by Category" (TComparison T))
            (render (st_date_input "Select second period")
               (render (st_date_input "Select first period")
                  (render (st_header "Expense Comparison") sample_session))))
    ∧ comparison sample_df (19723, 19753) (19754, 19784) = Ret T.
Proof.
  destruct (C7_period_comparison bson_oid 0%N sample_collection sample_widgets)
    as (H & _ & _).
  apply (H 0%nat sample_session sample_df). reflexivity.
Defined.

(** * Further properties of the script *)

(** ** Sorted series *)

Lemma sorted_nodup_strict (l : list Z) :
  StronglySorted Z.le l → NoDup l → StronglySorted Z.lt l.
Proof.
  induction 1 as [|a l Hs IH Ha]; intros Hnd; [constructor|].
  apply NoDup_cons in Hnd as [Hin Hnd]. constructor; [by apply IH|].
  rewrite Forall_forall in Ha |- *. intros b Hb.
  assert (a ≠ b) by (intros ->; done). specialize (Ha b Hb). lia.
Qed.

Lemma group_keys_Z_sorted (g : list (Z * Z)) : StronglySorted Z.lt (group_keys Z.leb g).
Proof.
  apply sorted_nodup_strict; [|apply NoDup_group_keys].
  unfold group_keys.
  assert (Hs := sort_stable_sorted Z.leb
    ltac:(intros a b; rewrite !Z.leb_le; lia)
    ltac:(intros a b c; rewrite !Z.leb_le; lia) (remove_dups (map fst g))).
  induction Hs as [|a l Hs IH Ha]; constructor; [done|].
  eapply Forall_impl; [exact Ha|]. intros b. by rewrite Z.leb_le.
Qed.

(** Sorting a sorted list changes nothing. *)
Lemma sort_stable_sorted_id {A} (leb : A -> A -> bool) (l : list A) :
  StronglySorted (fun a b => leb a b = true) l → sort_stable leb l = l.
Proof.
  induction 1 as [|a l Hs IH Ha]; [done|]. simpl. rewrite IH.
  destruct l as [|b l]; [done|]. simpl.
  apply Forall_cons in Ha as [-> _]. done.
Qed.

Lemma map_fst_zip_same_length {A B} (l : list A) (k : list B) :
  length l = length k → map fst (zip l k) = l.
Proof.
  revert k. induction l as [|a l IH]; intros [|b k] E; simpl in *; try done.
  f_equal. apply IH. lia.
Qed.

Lemma cumsum_from_lookup acc vs i :
  (i < length vs)%nat →
  cumsum_from acc vs !! i = Some (acc + series_sum (take (S i) vs)).
Proof.
  revert acc i. induction vs as [|v vs IH]; intros acc i Hi; simpl in Hi; [lia|].
  destruct i as [|i].
  - simpl. f_equal. destruct vs; simpl; lia.
  - change (cumsum_from (acc + v) vs !! i = Some (acc + (v + series_sum (take (S i) vs)))).
    rewrite IH by lia. f_equal. lia.
Qed.

Lemma sort_values_desc_sorted {K} (s : list (K * Z)) :
  StronglySorted (fun a b : K * Z => b.2 <= a.2) (sort_values_desc s).
Proof.
  unfold sort_values_desc.
  assert (Hs := sort_stable_sorted (fun a b : K * Z => b.2 <=? a.2)
    ltac:(intros a b; rewrite !Z.leb_le; lia)
    ltac:(intros a b c; rewrite !Z.leb_le; lia) s).
  induction Hs as [|a l Hs IH Ha]; constructor; [done|].
  eapply Forall_impl; [exact Ha|]. intros b. by rewrite Z.leb_le.
Qed.

Lemma agg_sum_groupby_elem {K} `{EqDecision K} leb (key : Row -> K) l k v :
  (k, v) ∈ agg leb series_sum (groupby_amount key l) ↔
  k ∈ map key l ∧ v = series_sum (map amount (filter (fun r => key r = k) l)).
Proof. by rewrite elem_of_agg, groupby_amount_keys, group_values_groupby. Qed.

(** ** The daily series *)

(** X2. The daily series has one point per distinct value of [date] in
    the table, in strictly ascending order of date, and the point of a
    date carries the sum of [amount] over the rows of that date. *)
Theorem daily_expenses_spec (df : DataFrame) :
  StronglySorted Z.lt (map fst (daily_expenses df))
  ∧ ∀ d v, (d, v) ∈ daily_expenses df ↔
      d ∈ map date (rows df)
      ∧ v = series_sum (map amount (filter (fun r => date r = d) (rows df))).
Proof.
  unfold daily_expenses. split.
  - rewrite agg_keys. apply group_keys_Z_sorted.
  - intros d v. apply agg_sum_groupby_elem.
Qed.

(** X3. Sorting the daily series by date again leaves it as it is, so
    the cumulative series has the dates and amounts of the daily series
    in the same order, and its value at a position is the sum of the
    daily amounts up to and including that position. *)
Theorem cumulative_expenses_prefix_sums (df : DataFrame) (i : nat) :
  map fst (cumulative_expenses (daily_expenses df)) = daily_expenses df
  ∧ ((i < length (daily_expenses df))%nat →
     cumulative_amount (cumulative_expenses (daily_expenses df)) !! i
     = Some (series_sum (take (S i) (map snd (daily_expenses df))))).
Proof.
  assert (Hid : sort_stable (fun a b : Z * Z => a.1 <=? b.1) (daily_expenses df)
                = daily_expenses df).
  { apply sort_stable_sorted_id.
    assert (Hs : StronglySorted Z.lt (map fst (daily_expenses df)))
      by (unfold daily_expenses; rewrite agg_keys; apply group_keys_Z_sorted).
    revert Hs.
    generalize (daily_expenses df). intros l. induction l as [|a l IH]; intros Hs.
    - constructor.
    - simpl in Hs. apply StronglySorted_inv in Hs as [Hs Ha].
      constructor; [by apply IH|]. apply Forall_forall.
      intros b Hb. apply Z.leb_le.
      assert (Hin : b.1 ∈ map fst l) by (apply list_elem_of_fmap; by exists b).
      pose proof (proj1 (Forall_forall _ _) Ha _ Hin). lia. }
  split.
  - unfold cumulative_expenses. rewrite Hid. apply map_fst_zip_same_length.
    unfold cumsum. by rewrite cumsum_from_length, length_map.
  - intros Hi. rewrite cumulative_amount_spec, Hid. unfold cumsum.
    rewrite cumsum_from_lookup by by rewrite length_map. done.
Qed.

Lemma cumulative_expenses_prefix_sums_witness :
  cumulative_amount (cumulative_expenses (daily_expenses sample_df)) !! 2%nat = Some 35.
Proof.
  destruct (cumulative_expenses_prefix_sums sample_df 2) as [_ H].
  apply H. vm_compute. lia.
Defined.

(** ** The category breakdown *)

(** X4. The category breakdown lists every category of the table once,
    in descending order of total, each with the sum of [amount] over
    the rows of the category. *)
Theorem category_totals_spec (df : DataFrame) :
  StronglySorted (fun a b : string * Z => b.2 <= a.2) (category_totals df)
  ∧ NoDup (map fst (category_totals df))
  ∧ ∀ c v, (c, v) ∈ category_totals df ↔
      c ∈ map categoryName (rows df)
      ∧ v = series_sum (map amount (filter (fun r => categoryName r = c) (rows df))).
Proof.
  unfold category_totals. split; [apply sort_values_desc_sorted|]. split.
  - unfold sort_values_desc. rewrite sort_stable_perm, agg_keys. apply NoDup_group_keys.
  - intros c v. unfold sort_values_desc. rewrite elem_of_sort_stable.
    apply agg_sum_groupby_elem.
Qed.

(** ** Top payees *)

Lemma sorted_take {A} (R : A -> A -> Prop) (l : list A) (n : nat) :
  StronglySorted R l → StronglySorted R (take n l).
Proof.
  intros Hs. revert n. induction Hs as [|a l Hs IH Ha]; intros [|n]; simpl; try constructor.
  - apply IH.
  - apply Forall_forall. intros b Hb%subseteq_take.
    by apply (proj1 (Forall_forall _ _) Ha).
Qed.

(** X5. The top payees are at most ten, and all the payees of the table
    when these are fewer: distinct payees in descending order of total,
    each with the sum of [amount] over its rows, and no payee left out
    has a larger total than a payee listed. *)
Theorem top_payees_spec (df : DataFrame) :
  length (top_payees df) = Nat.min 10 (length (remove_dups (map paidTo (rows df))))
  ∧ StronglySorted (fun a b : string * Z => b.2 <= a.2) (top_payees df)
  ∧ NoDup (map fst (top_payees df))
  ∧ (∀ p v, (p, v) ∈ top_payees df →
       p ∈ map paidTo (rows df)
       ∧ v = series_sum (map amount (filter (fun r => paidTo r = p) (rows df))))
  ∧ (∀ p q v, p ∈ map paidTo (rows df) → p ∉ map fst (top_payees df) →
       (q, v) ∈ top_payees df →
       series_sum (map amount (filter (fun r => paidTo r = p) (rows df))) <= v).
Proof.
  unfold top_payees.
  set (totals := agg String.leb series_sum (groupby_amount paidTo (rows df))).
  set (ranked := sort_values_desc totals).
  assert (Hperm : ranked ≡ₚ totals) by apply sort_stable_perm.
  assert (Hsorted : StronglySorted (fun a b : string * Z => b.2 <= a.2) ranked)
    by apply sort_values_desc_sorted.
  assert (Hnd : NoDup (map fst ranked)).
  { rewrite Hperm. unfold totals. rewrite agg_keys. apply NoDup_group_keys. }
  assert (Helem : ∀ p v, (p, v) ∈ ranked ↔
    p ∈ map paidTo (rows df)
    ∧ v = series_sum (map amount (filter (fun r => paidTo r = p) (rows df)))).
  { intros p v. rewrite Hperm. apply agg_sum_groupby_elem. }
  split; [|split; [|split; [|split]]].
  - rewrite length_take. f_equal. rewrite Hperm. unfold totals, agg.
    rewrite length_map. unfold group_keys.
    by rewrite sort_stable_length, groupby_amount_keys.
  - by apply sorted_take.
  - eapply sublist_NoDup; [exact Hnd|]. apply fmap_sublist, sublist_take.
  - intros p v Hin%subseteq_take. by apply Helem.
  - intros p q v Hp Hout Hq.
    set (vp := series_sum (map amount (filter (fun r => paidTo r = p) (rows df)))).
    assert (Hin : (p, vp) ∈ ranked) by by apply Helem.
    rewrite <- (take_drop 10 ranked) in Hin. apply elem_of_app in Hin as [Hin|Hin].
    + destruct Hout. apply list_elem_of_fmap. by exists (p, vp).
    + apply (sorted_take_drop _ _ 10 Hsorted (q, v) (p, vp)); done.
Qed.

Lemma top_payees_spec_witness :
  "Cafe" ∈ map paidTo (rows sample_df)
  ∧ 20 = series_sum (map amount (filter (fun r => paidTo r = "Cafe") (rows sample_df))).
Proof.
  destruct (top_payees_spec sample_df) as (_ & _ & _ & H & _).
  apply (H "Cafe" 20). vm_compute. apply list_elem_of_here.
Defined.

(** ** The statistical summary *)

Lemma series_min_spec vs :
  vs ≠ [] → ∃ lo, series_min vs = Some lo ∧ lo ∈ vs ∧ ∀ v, v ∈ vs → lo <= v.
Proof.
  destruct vs as [|v0 vs]; [done|]. intros _. eexists. split; [reflexivity|].
  induction vs as [|v vs [IHin IHle]]; simpl.
  - split; [apply list_elem_of_here|]. intros v ->%list_elem_of_singleton. lia.
  - split.
    + destruct (Z.min_spec v (foldr Z.min v0 vs)) as [[_ ->]|[_ ->]].
      * apply list_elem_of_further, list_elem_of_here.
      * apply elem_of_cons in IHin as [->|?]; [apply list_elem_of_here|].
        by do 2 apply list_elem_of_further.
    + intros x Hx.
      assert (Hcases : x = v ∨ x ∈ v0 :: vs).
      { apply elem_of_cons in Hx as [->|Hx]; [right; apply list_elem_of_here|].
        apply elem_of_cons in Hx as [->|Hx]; [by left|].
        right. by apply list_elem_of_further. }
      destruct Hcases as [->|Hin]; [lia|]. specialize (IHle x Hin). lia.
Qed.

Lemma series_max_spec vs :
  vs ≠ [] → ∃ hi, series_max vs = Some hi ∧ hi ∈ vs ∧ ∀ v, v ∈ vs → v <= hi.
Proof.
  destruct vs as [|v0 vs]; [done|]. intros _. eexists. split; [reflexivity|].
  induction vs as [|v vs [IHin IHle]]; simpl.
  - split; [apply list_elem_of_here|]. intros v ->%list_elem_of_singleton. lia.
  - split.
    + destruct (Z.max_spec v (foldr Z.max v0 vs)) as [[_ ->]|[_ ->]].
      * apply elem_of_cons in IHin as [->|?]; [apply list_elem_of_here|].
        by do 2 apply list_elem_of_further.
      * apply list_elem_of_further, list_elem_of_here.
    + intros x Hx.
      assert (Hcases : x = v ∨ x ∈ v0 :: vs).
      { apply elem_of_cons in Hx as [->|Hx]; [right; apply list_elem_of_here|].
        apply elem_of_cons in Hx as [->|Hx]; [by left|].
        right. by apply list_elem_of_further. }
      destruct Hcases as [->|Hin]; [lia|]. specialize (IHle x Hin). lia.
Qed.

Lemma group_count_as_sum {K} `{EqDecision K} (k : K) (g : list (K * Z)) :
  Z.of_nat (length (group_values k g))
  = series_sum (group_values k (map (fun p => (p.1, 1)) g)).
Proof.
  induction g as [|p g IH]; [done|].
  change (map (fun p => (p.1, 1)) (p :: g)) with ((p.1, 1) :: map (fun p => (p.1, 1)) g).
  rewrite !group_values_cons. simpl. destruct (decide (p.1 = k)); simpl; lia.
Qed.

Lemma group_counts_total {K} `{EqDecision K} leb (g : list (K * Z)) :
  series_sum (map (fun k => Z.of_nat (length (group_values k g))) (group_keys leb g))
  = Z.of_nat (length g).
Proof.
  set (g1 := map (fun p : K * Z => (p.1, 1)) g).
  assert (Hk : map fst g1 = map fst g) by (unfold g1; by rewrite map_map).
  rewrite (map_ext _ (fun k => series_sum (group_values k g1)))
    by (intros k; apply group_count_as_sum).
  rewrite (sum_group_sums _ g1).
  - unfold g1. rewrite map_map. simpl. clear. induction g as [|p g IH]; simpl; lia.
  - apply NoDup_group_keys.
  - intros k Hk'. apply elem_of_group_keys. by rewrite <- Hk.
Qed.

(** X6. The statistical summary has one line per category of the table;
    the counts of the lines add up to the number of transactions of the
    overview, every line counts at least one row, and its minimum and
    maximum are amounts of rows of the category that bound the amount
    of every row of the category. *)
Theorem statistical_summary_spec (df : DataFrame) :
  series_sum (map (fun x => Z.of_nat (d_count x.2)) (statistical_summary df))
    = Z.of_nat (number_of_transactions df)
  ∧ NoDup (map fst (statistical_summary df))
  ∧ (∀ c, c ∈ map fst (statistical_summary df) ↔ c ∈ map categoryName (rows df))
  ∧ ∀ c st, (c, st) ∈ statistical_summary df →
      (1 <= d_count st)%nat
      ∧ ∃ lo hi, d_min st = Some lo ∧ d_max st = Some hi
        ∧ (∃ r, r ∈ rows df ∧ categoryName r = c ∧ amount r = lo)
        ∧ (∃ r, r ∈ rows df ∧ categoryName r = c ∧ amount r = hi)
        ∧ ∀ r, r ∈ rows df → categoryName r = c → lo <= amount r <= hi.
Proof.
  unfold statistical_summary, number_of_transactions.
  set (g := groupby_amount categoryName (rows df)).
  split; [|split; [|split]].
  - unfold agg. rewrite map_map. simpl.
    rewrite (group_counts_total String.leb g). unfold g, groupby_amount.
    by rewrite length_map.
  - rewrite agg_keys. apply NoDup_group_keys.
  - intros c. unfold g. by rewrite agg_keys, elem_of_group_keys, groupby_amount_keys.
  - intros c st [Hc ->]%elem_of_agg. unfold g in *.
    rewrite group_values_groupby. rewrite groupby_amount_keys in Hc.
    set (vs := map amount (filter (fun r => categoryName r = c) (rows df))).
    assert (Hvs : ∀ v, v ∈ vs ↔ ∃ r, r ∈ rows df ∧ categoryName r = c ∧ amount r = v).
    { intros v. unfold vs. rewrite list_elem_of_fmap. split.
      - intros (r & -> & [? ?]%list_elem_of_filter). by exists r.
      - intros (r & ? & ? & <-). exists r. split; [done|]. by apply list_elem_of_filter. }
    assert (Hne : vs ≠ []).
    { apply list_elem_of_fmap in Hc as (r & -> & Hr).
      intros E. assert (amount r ∈ vs) as Hin by (apply Hvs; by exists r).
      rewrite E in Hin. by apply elem_of_nil in Hin. }
    destruct (series_min_spec vs Hne) as (lo & Elo & Hlo & Hlo').
    destruct (series_max_spec vs Hne) as (hi & Ehi & Hhi & Hhi').
    split.
    { simpl. destruct vs; [done|]. simpl. lia. }
    exists lo, hi. simpl. split; [done|]. split; [done|].
    split; [by apply Hvs|]. split; [by apply Hvs|].
    intros r Hr Hcat.
    assert (amount r ∈ vs) by (apply Hvs; by exists r). split; auto.
Qed.

Lemma statistical_summary_spec_witness :
  (1 <= 3)%nat
  ∧ ∃ lo hi, Some 7 = Some lo ∧ Some 20 = Some hi
    ∧ (∃ r, r ∈ rows sample_df ∧ categoryName r = "Food" ∧ amount r = lo)
    ∧ (∃ r, r ∈ rows sample_df ∧ categoryName r = "Food" ∧ amount r = hi)
    ∧ ∀ r, r ∈ rows sample_df → categoryName r = "Food" → lo <= amount r <= hi.
Proof.
  destruct (statistical_summary_spec sample_df) as (_ & _ & _ & H).
  apply (H "Food" (mkDescribe 3 (Some (37 # 3)) (Some 7) (Some 20))).
  vm_compute. apply list_elem_of_here.
Defined.

(** ** The filter in calendar days *)

Lemma le_Timestamp_iff d ts : ts <= Timestamp d ↔ dt_date ts < d ∨ ts = Timestamp d.
Proof.
  unfold Timestamp, dt_date, NS_PER_DAY. split.
  - intros H. destruct (decide (ts = d * 86400000000000)) as [|Hne]; [by right|].
    left. apply Z.div_lt_upper_bound; lia.
  - intros [H| ->]; [|lia].
    pose proof (Z.mul_div_le ts 86400000000000 ltac:(lia)).
    pose proof (Z.mod_pos_bound ts 86400000000000 ltac:(lia)).
    pose proof (Z.div_mod ts 86400000000000 ltac:(lia)). nia.
Qed.

(** X7. The filter in terms of calendar days: a row passes the date
    range [(lo, hi)] when its day is at least [lo] and either earlier
    than [hi], or the row is dated at midnight of [hi]; rows later on
    the day [hi] do not pass.  The category and payee conditions are as
    selected, an empty selection being no condition. *)
Theorem df_filtered_calendar (df : DataFrame) (sel : FilterSelection) :
  ∃ out, df_filtered df sel = Ret out
    ∧ ∀ r, r ∈ rows out ↔
        r ∈ rows df
        ∧ (date_range sel).1 <= dt_date (date r)
        ∧ (dt_date (date r) < (date_range sel).2 ∨ date r = Timestamp (date_range sel).2)
        ∧ (categories sel = [] ∨ categoryName r ∈ categories sel)
        ∧ (payees sel = [] ∨ paidTo r ∈ payees sel).
Proof.
  eexists. split; [apply df_filtered_spec|]. simpl. intros r.
  rewrite list_elem_of_filter. unfold selected.
  rewrite Timestamp_le_iff, le_Timestamp_iff. tauto.
Qed.

Lemma filter_all {A} (P : A -> Prop) `{!∀ x, Decision (P x)} (l : list A) :
  (∀ x, x ∈ l → P x) → filter P l = l.
Proof.
  induction l as [|a l IH]; intros Hall; [done|].
  rewrite filter_cons_True by (apply Hall, list_elem_of_here).
  f_equal. apply IH. intros x Hx. by apply Hall, list_elem_of_further.
Qed.

Lemma dt_date_mono a b : a <= b → dt_date a <= dt_date b.
Proof. unfold dt_date, NS_PER_DAY. intros H. apply Z.div_le_mono; lia. Qed.

(** The bounds of the date slider: the calendar days of the earliest
    and of the latest row. *)
Lemma date_bounds_spec (df : DataFrame) :
  rows df ≠ [] →
  ∃ lo hi, date_bounds df = Ret (lo, hi)
    ∧ (∃ r, r ∈ rows df ∧ dt_date (date r) = lo)
    ∧ (∃ r, r ∈ rows df ∧ dt_date (date r) = hi)
    ∧ ∀ r, r ∈ rows df → lo <= dt_date (date r) <= hi.
Proof.
  intros Hne. unfold date_bounds.
  assert (Hne' : map date (rows df) ≠ []) by (by intros ?%fmap_nil_inv).
  destruct (series_min_spec _ Hne') as (lo & -> & Hlo & Hlo').
  destruct (series_max_spec _ Hne') as (hi & -> & Hhi & Hhi').
  exists (dt_date lo), (dt_date hi). split; [done|].
  apply list_elem_of_fmap in Hlo as (rl & -> & Hrl).
  apply list_elem_of_fmap in Hhi as (rh & -> & Hrh).
  split; [by exists rl|]. split; [by exists rh|].
  intros r Hr. assert (Hd : date r ∈ map date (rows df))
    by (apply list_elem_of_fmap; by exists r).
  split; apply dt_date_mono; auto.
Qed.

(** ** The filter controls *)

(** The run of the filter controls on a table with rows. *)
Lemma sidebar_filters_run (df : loc) (w : Widgets) (s : Session) (d : DataFrame) (lo hi : Z) :
  heap s !! df = Some d → date_bounds d = Ret (lo, hi) →
  let hi' := if decide (lo = hi) then hi + 1 else hi in
  let controls :=
    [st_title "Comprehensive Expense Analysis Dashboard";
     st_title "Dashboard Controls";
     st_header "Filters";
     st_multiselect "Select Categories" "categoryName" (unique (map categoryName (rows d)));
     st_multiselect "Select Payees" "paidTo" (unique (map paidTo (rows d)))] in
  sidebar_filters df w s
  = if js_safe_date lo && js_safe_date hi'
    then (Ret (length (heap s)),
          mkSession
            (heap s ++ [mkDataFrame (columns d) (filter (selected (selection w)) (rows d))])
            (page s ++ controls ++ [st_slider "Select Date Range" lo hi'])
            (queries s))
    else (Raised "StreamlitJSNumberBoundsError",
          mkSession (heap s) (page s ++ controls) (queries s)).
Proof.
  intros Hd E hi' controls.
  destruct (js_safe_date lo && js_safe_date hi') eqn:Hs;
    apply wp_eq; unfold sidebar_filters; do 6 wp_step; rewrite E;
    wp_step; unfold wp_then; cbv beta iota; fold hi'; rewrite Hs.
  - wp_step. rewrite df_filtered_spec. wp_step. simpl.
    unfold wp, alloc, render. simpl. split; [done|].
    unfold controls. by rewrite <- !app_assoc.
  - wp_step. simpl. unfold render. simpl. split; [done|].
    unfold controls. by rewrite <- !app_assoc.
Qed.

(** X8. On a table whose rows all fall on one calendar day the date
    slider runs from that day to the next; with the selection the
    controls start with (the whole slider, no category, no payee) the
    filtered table is the table itself. *)
Theorem single_day_default_selection (df : loc) (w : Widgets) (s : Session)
    (d : DataFrame) (day : Z) :
  heap s !! df = Some d → rows d ≠ [] →
  (∀ r, r ∈ rows d → dt_date (date r) = day) →
  js_safe_date day && js_safe_date (day + 1) = true →
  selection w = mkFilterSelection (day, day + 1) [] [] →
  sidebar_filters df w s
  = (Ret (length (heap s)),
     mkSession
       (heap s ++ [d])
       (page s ++
        [st_title "Comprehensive Expense Analysis Dashboard";
         st_title "Dashboard Controls";
         st_header "Filters";
         st_multiselect "Select Categories" "categoryName"
           (unique (map categoryName (rows d)));
         st_multiselect "Select Payees" "paidTo" (unique (map paidTo (rows d)));
         st_slider "Select Date Range" day (day + 1)])
       (queries s)).
Proof.
  intros Hd Hne Hday Hsafe Hsel.
  assert (E : date_bounds d = Ret (day, day)).
  { destruct (date_bounds_spec d Hne) as (lo & hi & -> & (rl & Hrl & <-) & (rh & Hrh & <-) & _).
    by rewrite (Hday rl Hrl), (Hday rh Hrh). }
  rewrite (sidebar_filters_run df w s d day day Hd E). cbv zeta.
  rewrite decide_True by done. rewrite Hsafe, Hsel.
  rewrite filter_all.
  - by destruct d.
  - intros r Hr. unfold selected. simpl. split; [|by split; left].
    rewrite Timestamp_le_iff, le_Timestamp_iff, (Hday r Hr). lia.
Qed.

Lemma single_day_default_selection_witness :
  sidebar_filters 0%nat
    (mkWidgets (mkFilterSelection (19760, 19760 + 1) [] []) "Food" 0
               (19723, 19753) (19754, 19784) 10)
    (mkSession [mkDataFrame base_columns [late_row]] [] [])
  = (Ret 1%nat,
     mkSession
       [mkDataFrame base_columns [late_row]; mkDataFrame base_columns [late_row]]
       [st_title "Comprehensive Expense Analysis Dashboard";
        st_title "Dashboard Controls";
        st_header "Filters";
        st_multiselect "Select Categories" "categoryName" ["Food"];
        st_multiselect "Select Payees" "paidTo" ["Shop"];
        st_slider "Select Date Range" 19760 (19760 + 1)]
       []).
Proof.
  apply (single_day_default_selection 0%nat _
           (mkSession [mkDataFrame base_columns [late_row]] [] [])
           (mkDataFrame base_columns [late_row]) 19760).
  - reflexivity.
  - discriminate.
  - simpl. intros r Hr. apply list_elem_of_singleton in Hr as ->. reflexivity.
  - reflexivity.
  - reflexivity.
Defined.

(** X9. On a table with rows the filter controls render, in this order,
    two titles, a header and the two multiselects, and then the date
    slider, which runs from the calendar day of the earliest row to that
    of the latest row, moved one day on when the two coincide, so its
    range is never empty.  When both ends are dates the slider can send
    to the browser, the filtered table goes to a new frame, the table
    is left as it is and no query is sent.  When one is not, the slider
    raises: the run ends after the five elements and no filtered table
    is made. *)
Theorem sidebar_filters_spec (df : loc) (w : Widgets) (s : Session) (d : DataFrame) :
  heap s !! df = Some d → rows d ≠ [] →
  ∃ lo hi,
    date_bounds d = Ret (lo, hi)
    ∧ (∀ r, r ∈ rows d → lo <= dt_date (date r) <= hi)
    ∧ lo < (if decide (lo = hi) then hi + 1 else hi)
    ∧ sidebar_filters df w s
      = if js_safe_date lo && js_safe_date (if decide (lo = hi) then hi + 1 else hi)
        then
          (Ret (length (heap s)),
           mkSession
             (heap s ++ [mkDataFrame (columns d) (filter (selected (selection w)) (rows d))])
             (page s ++
              [st_title "Comprehensive Expense Analysis Dashboard";
               st_title "Dashboard Controls";
               st_header "Filters";
               st_multiselect "Select Categories" "categoryName"
                 (unique (map categoryName (rows d)));
               st_multiselect "Select Payees" "paidTo" (unique (map paidTo (rows d)));
               st_slider "Select Date Range" lo (if decide (lo = hi) then hi + 1 else hi)])
             (queries s))
        else
          (Raised "StreamlitJSNumberBoundsError",
           mkSession (heap s)
             (page s ++
              [st_title "Comprehensive Expense Analysis Dashboard";
               st_title "Dashboard Controls";
               st_header "Filters";
               st_multiselect "Select Categories" "categoryName"
                 (unique (map categoryName (rows d)));
               st_multiselect "Select Payees" "paidTo" (unique (map paidTo (rows d)))])
             (queries s)).
Proof.
  intros Hd Hne.
  destruct (date_bounds_spec d Hne) as (lo & hi & E & (rl & Hrl & Hlo) & _ & Hb).
  exists lo, hi. split; [done|]. split; [done|]. split.
  { pose proof (Hb rl Hrl). case_decide; lia. }
  by rewrite (sidebar_filters_run df w s d lo hi Hd E).
Qed.

Lemma sidebar_filters_spec_witness :
  ∃ lo hi,
    date_bounds sample_df = Ret (lo, hi)
    ∧ lo < (if decide (lo = hi) then hi + 1 else hi)
    ∧ (sidebar_filters 0%nat sample_widgets sample_session).1 = Ret 2%nat.
Proof.
  destruct (sidebar_filters_spec 0%nat sample_widgets sample_session sample_df)
    as (lo & hi & E & _ & Hlt & Hrun); [reflexivity|discriminate|].
  exists lo, hi. split; [exact E|]. split; [exact Hlt|]. rewrite Hrun.
  vm_compute in E. injection E as <- <-. reflexivity.
Defined.

(** ** The fetch *)

(** X10. The fetch through its cache.  On an empty cache the body
    runs and sends one query, for the identifier it is given: when no
    document of the collection belongs to the user it renders the
    warning and stops, and the cache stays empty; otherwise it renders
    nothing and returns a new frame, which is stored in the cache, and
    whose rows are documents of the collection, in the order of the
    collection, each of the user and none of the category "Home".  On a
    filled cache no query is sent and nothing is rendered: the stored
    table goes to a new frame and the cache stays as it is, whoever the
    user is and whatever the collection holds. *)
Theorem get_data_outcomes (collection : list Document) (user_id : oid) (s : Session) :
  ((∀ d, d ∈ collection → doc_user d ≠ user_id) →
     get_data_cached None collection user_id s
     = (Stopped,
        mkSession (heap s) (page s ++ [st_warning "No data found for the Selected User."])
                  (queries s ++ [user_id]),
        None))
  ∧ (∀ d, d ∈ collection → doc_user d = user_id →
       ∃ D, get_data_cached None collection user_id s
            = (Ret (length (heap s)),
               mkSession (heap s ++ [D]) (page s) (queries s ++ [user_id]),
               Some D)
         ∧ columns D = base_columns
         ∧ rows D `sublist_of` map row_of collection
         ∧ ∀ r, r ∈ rows D → user r = user_id ∧ categoryName r ≠ "Home")
  ∧ (∀ stored,
       get_data_cached (Some stored) collection user_id s
       = (Ret (length (heap s)),
          mkSession (heap s ++ [stored]) (page s) (queries s),
          Some stored)).
Proof.
  unfold get_data_cached. rewrite get_data_spec. split; [|split].
  - intros Hnone. rewrite decide_True; [done|].
    destruct (filter _ collection) as [|d l] eqn:E; [done|].
    assert (d ∈ filter (fun d => doc_user d = user_id) collection) as Hin
      by (rewrite E; apply list_elem_of_here).
    apply list_elem_of_filter in Hin as [? ?]. by destruct (Hnone d).
  - intros d Hd Hu. rewrite decide_False.
    + exists (normalized collection user_id). cbn [fst snd heap].
      rewrite lookup_app_r, Nat.sub_diag by done.
      split; [done|]. split; [done|]. split.
      * unfold normalized. simpl. etrans; [apply sublist_filter|].
        apply fmap_sublist, sublist_filter.
      * unfold normalized. simpl. intros r [Hne Hr]%list_elem_of_filter. split; [|done].
        apply list_elem_of_fmap in Hr as (d' & -> & Hd').
        by apply list_elem_of_filter in Hd' as [? _].
    + intros E. assert (d ∈ filter (fun d => doc_user d = user_id) collection) as Hin
        by by apply list_elem_of_filter.
      rewrite E in Hin. by apply elem_of_nil in Hin.
  - done.
Qed.

Lemma get_data_outcomes_witness :
  ∃ D, get_data_cached None sample_collection 7%N init
       = (Ret 0%nat, mkSession [D] [] [7%N], Some D)
    ∧ rows D `sublist_of` map row_of sample_collection.
Proof.
  destruct (get_data_outcomes sample_collection 7%N init) as (_ & H & _).
  destruct (H (mkDocument 7%N (Timestamp 19724) 20 "Food" "Cafe")) as (D & E & _ & Hs & _).
  - apply list_elem_of_further, list_elem_of_here.
  - reflexivity.
  - exists D. split; [exact E|exact Hs].
Defined.

(** X11. The emptiness check comes before the exclusion of "Home": for a
    user whose documents are all of the category "Home" the fetch
    renders no warning and does not stop; it returns a table without
    rows. *)
Theorem get_data_only_home (collection : list Document) (user_id : oid) (s : Session)
    (d : Document) :
  d ∈ collection → doc_user d = user_id →
  (∀ d', d' ∈ collection → doc_user d' = user_id → doc_categoryName d' = "Home") →
  get_data collection user_id s
  = (Ret (length (heap s)),
     mkSession (heap s ++ [mkDataFrame base_columns []]) (page s) (queries s ++ [user_id])).
Proof.
  intros Hd Hu Hhome. rewrite get_data_spec, decide_False.
  - do 4 f_equal. unfold normalized. f_equal.
    destruct (filter (fun r => categoryName r ≠ "Home") _) as [|r l] eqn:E; [done|].
    assert (Hin : r ∈ filter (fun r => categoryName r ≠ "Home")
                    (map row_of (filter (fun d => doc_user d = user_id) collection)))
      by (rewrite E; apply list_elem_of_here).
    apply list_elem_of_filter in Hin as [Hne Hr].
    apply list_elem_of_fmap in Hr as (d' & -> & Hd').
    apply list_elem_of_filter in Hd' as [? ?]. destruct Hne. simpl. by apply Hhome.
  - intros E. assert (d ∈ filter (fun d => doc_user d = user_id) collection) as Hin
      by by apply list_elem_of_filter.
    rewrite E in Hin. by apply elem_of_nil in Hin.
Qed.

Lemma get_data_only_home_witness :
  get_data [mkDocument 7%N (Timestamp 19761) 1000 "Home" "Landlord"] 7%N init
  = (Ret 0%nat, mkSession [mkDataFrame base_columns []] [] [7%N]).
Proof.
  apply (get_data_only_home [mkDocument 7%N (Timestamp 19761) 1000 "Home" "Landlord"]
           7%N init (mkDocument 7%N (Timestamp 19761) 1000 "Home" "Landlord")).
  - apply list_elem_of_here.
  - reflexivity.
  - intros d' Hd' _. apply list_elem_of_singleton in Hd' as ->. reflexivity.
Defined.

(** ** Identity resolution, case by case *)

(** X12. The outcome of identity resolution for every request: an
    absent [user_id] is answered with "Invalid user ID format." (the
    default of the lookup is a non-empty list, which passes the first
    test and is refused as an identifier); a present but empty value
    with "No user ID provided ..."; a non-empty value that the store
    does not read as an identifier with "Invalid user ID format."; in
    these cases the run stops.  Any other value yields its identifier
    and renders nothing. *)
Theorem resolve_user_id_outcomes (parse_oid : string -> option oid) (generate_oid : oid)
    (qp : gmap string string) (s : Session) :
  resolve_user_id parse_oid generate_oid qp s
  = match qp !! "user_id" with
    | None => (Stopped, render (st_error "Invalid user ID format.") s)
    | Some v =>
        if decide (v = "")
        then (Stopped,
              render (st_error "No user ID provided. Please access this dashboard through the main application.") s)
        else match parse_oid v with
             | Some o => (Ret o, s)
             | None => (Stopped, render (st_error "Invalid user ID format.") s)
             end
    end.
Proof.
  destruct (qp !! "user_id") as [v|] eqn:E.
  - case_decide as Hv.
    + subst v. unfold resolve_user_id, query_params_get. rewrite E. reflexivity.
    + destruct (parse_oid v) as [o|] eqn:Hp.
      * by eapply resolve_user_id_well_formed.
      * unfold resolve_user_id, query_params_get. rewrite E.
        unfold py_truthy. rewrite bool_decide_eq_false_2 by done.
        unfold mbind, M_bind, try_except, lift, ObjectId. simpl. by rewrite Hp.
  - by apply resolve_user_id_absent.
Qed.

(** ** Queries to the store *)

Lemma keeps_queries_bind {A B} (m : M A) (f : A -> M B) :
  keeps_queries m → (∀ a, keeps_queries (f a)) → keeps_queries (m ≫= f).
Proof.
  unfold keeps_queries, mbind, M_bind. intros Hm Hf s. specialize (Hm s).
  destruct (m s) as [[a| |e] s']; simpl in *; [|done|done].
  by rewrite Hf.
Qed.

Lemma keeps_queries_ret {A} (a : A) : keeps_queries (mret a).
Proof. done. Qed.

Lemma keeps_queries_emit e : keeps_queries (emit e).
Proof. done. Qed.

Lemma keeps_queries_lift {A} (o : Outcome A) : keeps_queries (lift o).
Proof. done. Qed.

Lemma keeps_queries_stop {A} : keeps_queries (@st_stop A).
Proof. done. Qed.

Lemma keeps_queries_load l : keeps_queries (load l).
Proof. intros s. unfold load. by destruct (heap s !! l). Qed.

Lemma keeps_queries_update l g : keeps_queries (update l g).
Proof. intros s. unfold update. by destruct (heap s !! l). Qed.

Lemma keeps_queries_alloc d : keeps_queries (alloc d).
Proof. done. Qed.

Lemma keeps_queries_try_except {A} (m handler : M A) :
  keeps_queries m → keeps_queries handler → keeps_queries (try_except m handler).
Proof.
  unfold keeps_queries, try_except. intros Hm Hh s. specialize (Hm s).
  destruct (m s) as [[a| |e] s']; simpl in *; [done|done|]. by rewrite Hh.
Qed.

(** Through a sequence, branch by branch. *)
Ltac keeps_queries_tac :=
  repeat first
    [ apply keeps_queries_emit | apply keeps_queries_load | apply keeps_queries_lift
    | apply keeps_queries_update | apply keeps_queries_alloc | apply keeps_queries_ret
    | apply keeps_queries_stop
    | apply keeps_queries_bind; [|intros ?]
    | lazymatch goal with
      | |- keeps_queries (if ?b then _ else _) => destruct b
      | |- keeps_queries (let '(_, _) := ?p in _) => destruct p
      | |- keeps_queries (match ?p with (_, _) => _ end) => destruct p
      end ].

Lemma sidebar_filters_keeps_queries df w : keeps_queries (sidebar_filters df w).
Proof. unfold sidebar_filters. keeps_queries_tac. Qed.

Lemma views_keeps_queries df filtered w : keeps_queries (views df filtered w).
Proof.
  unfold views, budget_tracker, download, overview, time_series, category_analysis,
    temporal_patterns, expense_comparison, top_expenses_analysis, payee_analysis,
    statistical_summary_view.
  keeps_queries_tac.
Qed.

(** The query log of a run on an empty cache: the query of the fetch,
    when identity resolution lets the run reach it. *)
Lemma app_query_log (parse_oid : string -> option oid) (generate_oid : oid)
    (qp : gmap string string) (collection : list Document) (w : Widgets) (s : Session) :
  queries (app parse_oid generate_oid qp collection w s).2
  = (queries s ++ match (resolve_user_id parse_oid generate_oid qp s).1 with
                  | Ret user_id => [user_id]
                  | _ => []
                  end)%list.
Proof.
  unfold app. unfold mbind at 1, M_bind at 1.
  destruct (resolve_user_id_cases parse_oid generate_oid qp s) as [(msg & ->)|(o & ->)].
  { simpl. by rewrite app_nil_r. }
  simpl. unfold mbind at 1, M_bind at 1. rewrite get_data_spec. case_decide; [done|].
  assert (Hk : keeps_queries (sidebar_filters (length (heap s)) w
                               ≫= λ filtered, views (length (heap s)) filtered w)).
  { apply keeps_queries_bind; [apply sidebar_filters_keeps_queries|].
    intros filtered. apply views_keeps_queries. }
  by rewrite Hk.
Qed.

Lemma M_bind_eq {A B} (m : M A) (f : A -> M B) (s : Session) :
  (m ≫= f) s
  = match m s with
    | (Ret a, s') => f a s'
    | (Stopped, s') => (Stopped, s')
    | (Raised e, s') => (Raised e, s')
    end.
Proof. reflexivity. Qed.

(** A run on an empty cache is [app] from the empty session. *)
Lemma script_run_miss (parse_oid : string -> option oid) (generate_oid : oid)
    (qp : gmap string string) (collection : list Document) (w : Widgets) :
  (script_run parse_oid generate_oid None qp collection w).1
  = app parse_oid generate_oid qp collection w init.
Proof.
  unfold script_run, app, get_data_cached.
  rewrite (M_bind_eq (resolve_user_id parse_oid generate_oid qp)).
  destruct (resolve_user_id parse_oid generate_oid qp init) as [[o| |e] s]; [|done|done].
  rewrite (M_bind_eq (get_data collection o)).
  by destruct (get_data collection o s) as [[l| |e] s'].
Qed.

(** A run on a filled cache: the stored table is the table of the run. *)
Lemma script_run_hit (parse_oid : string -> option oid) (generate_oid : oid)
    (stored : DataFrame) (qp : gmap string string) (collection : list Document)
    (w : Widgets) (o : oid) :
  resolve_user_id parse_oid generate_oid qp init = (Ret o, init) →
  script_run parse_oid generate_oid (Some stored) qp collection w
  = ((sidebar_filters 0%nat w ≫= λ filtered, views 0%nat filtered w)
       (mkSession [stored] [] []),
     Some stored).
Proof. intros E. unfold script_run, get_data_cached. by rewrite E. Qed.

(** X13. Queries and the cache over the runs of a process.  A run
    queries the store at most once, and only on an empty cache: not at
    all when identity resolution stops the run, once, for the
    identifier resolved from the request, when the cache is empty, and
    not at all when the cache holds a table.  A run on an empty cache
    is the run [app]; a run on a filled cache leaves the cache as it
    is and works on the stored table, whoever the user of the request
    is. *)
Theorem script_run_queries (parse_oid : string -> option oid) (generate_oid : oid)
    (cache : option DataFrame) (qp : gmap string string) (collection : list Document)
    (w : Widgets) :
  queries (script_run parse_oid generate_oid cache qp collection w).1.2
  = match cache, (resolve_user_id parse_oid generate_oid qp init).1 with
    | None, Ret user_id => [user_id]
    | _, _ => []
    end
  ∧ (script_run parse_oid generate_oid None qp collection w).1
    = app parse_oid generate_oid qp collection w init
  ∧ (∀ stored, cache = Some stored →
       (script_run parse_oid generate_oid cache qp collection w).2 = Some stored
       ∧ ∀ user_id, (resolve_user_id parse_oid generate_oid qp init).1 = Ret user_id →
           heap (script_run parse_oid generate_oid cache qp collection w).1.2 !! 0%nat
           = Some stored).
Proof.
  assert (Hk : keeps_queries (sidebar_filters 0%nat w ≫= λ filtered, views 0%nat filtered w)).
  { apply keeps_queries_bind; [apply sidebar_filters_keeps_queries|].
    intros filtered. apply views_keeps_queries. }
  split; [|split].
  - destruct cache as [stored|].
    + destruct (resolve_user_id_cases parse_oid generate_oid qp init) as [(msg & E)|(o & E)].
      * unfold script_run. by rewrite E.
      * rewrite (script_run_hit _ _ _ _ _ _ _ E). cbn [fst snd]. by rewrite Hk.
    + rewrite script_run_miss, app_query_log. done.
  - apply script_run_miss.
  - intros stored ->. split.
    + destruct (resolve_user_id_cases parse_oid generate_oid qp init) as [(msg & E)|(o & E)].
      * unfold script_run. by rewrite E.
      * by rewrite (script_run_hit _ _ _ _ _ _ _ E).
    + intros user_id Hu.
      destruct (resolve_user_id_cases parse_oid generate_oid qp init) as [(msg & E)|(o & E)].
      { by rewrite E in Hu. }
      rewrite (script_run_hit _ _ _ _ _ _ _ E). cbn [fst snd].
      set (HI := fun h : list DataFrame => h !! 0%nat = Some stored).
      set (PI := fun _ : Element => True).
      assert (Halloc : ∀ (h : list DataFrame) (d : DataFrame), HI h → HI (h ++ [d])%list).
      { unfold HI. intros h d Hh. by apply lookup_app_l_Some. }
      assert (Hset : ∀ h d name f,
        HI h → h !! 1%nat = Some d → HI (<[1%nat := setitem name f d]> h)).
      { unfold HI. intros h d name f Hh _. by rewrite list_lookup_insert_ne. }
      set (s1 := mkSession [stored] [] []).
      assert (H1 : Inv HI PI s1) by (split; [done|constructor]).
      pose proof (sidebar_filters_frame HI PI 0%nat w Halloc ltac:(done) s1 H1) as Hinv.
      pose proof (sidebar_filters_loc 0%nat w s1) as Hloc.
      unfold wp, inv_post in Hinv, Hloc. unfold mbind, M_bind at 1.
      destruct (sidebar_filters 0%nat w s1) as [[l| |e] s2]; simpl in Hinv, Hloc.
      * rewrite (Hloc l eq_refl). simpl.
        by pose proof (wp_run _ _ _
          (views_frame HI PI 0%nat 1%nat w Hset ltac:(done) ltac:(done) s2 Hinv)) as [? _].
      * apply Hinv.
      * apply Hinv.
Qed.

Lemma script_run_queries_witness :
  heap (script_run bson_oid 0%N (Some sample_df)
          {["user_id" := "000000000000000000000008"]} sample_collection sample_widgets).1.2
    !! 0%nat
  = Some sample_df.
Proof.
  destruct (script_run_queries bson_oid 0%N (Some sample_df)
              {["user_id" := "000000000000000000000008"]} sample_collection sample_widgets)
    as (_ & _ & H).
  destruct (H sample_df eq_refl) as [_ H'].
  apply (H' (oid_of_bytes [0; 0; 0; 0; 0; 0; 0; 0; 0; 0; 0; 8]%N)). reflexivity.
Defined.

(** ** The budget tracker over budget *)

(** X14. When the spend of the budget category over the filtered table
    exceeds a positive budget, the tracker renders the progress bar at
    the integer 100 and the text with the spend, the budget and the
    uncapped percentage, which is above 100; the spend is the sum of
    [amount] over the rows of the filtered table of that category. *)
Theorem budget_tracker_over_budget (df filtered : loc) (w : Widgets) (s : Session)
    (d f : DataFrame) :
  heap s !! df = Some d → heap s !! filtered = Some f →
  (0 < budget_amount w)%Q →
  (budget_amount w
   < inject_Z (series_sum (map amount
       (filter (fun r => categoryName r = budget_category w) (rows f)))))%Q →
  ∃ spent progress,
    spent = series_sum (map amount
              (filter (fun r => categoryName r = budget_category w) (rows f)))
    ∧ progress = (inject_Z spent / budget_amount w * 100)%Q
    ∧ (100 < progress)%Q
    ∧ budget_tracker df filtered w s
      = (Ret tt,
         render (st_write_budget spent (budget_amount w) progress)
           (render (st_progress (NInt 100))
              (render (st_number_input ("Set Budget for " +:+ budget_category w))
                 (render (st_selectbox "Select Category for Budget" "categoryName"
                            (unique (map categoryName (rows d))))
                    (render (st_header "Budget Settings") s))))).
Proof.
  intros Hd Hf Hpos Hover. eexists _, _. split; [reflexivity|]. split; [reflexivity|].
  set (spent := series_sum _) in *.
  set (progress := (inject_Z spent / budget_amount w * 100)%Q).
  assert (Hp : (100 < progress)%Q).
  { unfold progress.
    assert (H1 : (1 < inject_Z spent / budget_amount w)%Q).
    { apply Qlt_shift_div_l; [done|]. by rewrite Qmult_1_l. }
    apply (Qmult_lt_compat_r _ _ 100) in H1; [|done]. by rewrite Qmult_1_l in H1. }
  split; [done|].
  assert (Hguard : Qle_bool (budget_amount w) 0 = false).
  { destruct (Qle_bool (budget_amount w) 0) eqn:E; [|done].
    apply Qle_bool_iff in E. by apply Qle_not_lt in E. }
  assert (Hcap : min_100 progress = NInt 100).
  { unfold min_100. destruct (Qle_bool progress 100) eqn:E; [|done].
    apply Qle_bool_iff in E. by apply Qle_not_lt in E. }
  apply wp_eq. unfold budget_tracker. do 4 wp_step. rewrite Hguard. cbn [negb].
  wp_step. unfold series_eq. rewrite getitem_mask_series. wp_step. simpl.
  assert (Hrows : filter (fun r => bool_decide (categoryName r = budget_category w) = true) (rows f)
                  = filter (fun r => categoryName r = budget_category w) (rows f)).
  { apply list_filter_iff. intros r. by rewrite bool_decide_eq_true. }
  rewrite Hrows. fold spent. wp_step.
  unfold truediv. rewrite (Qle_bool_false_Qeq_bool _ Hguard). simpl.
  fold progress. rewrite Hcap. change (progress_ok (NInt 100)) with true. cbv iota.
  wp_step. by wp_step.
Qed.

Lemma budget_tracker_over_budget_witness :
  ∃ progress,
    (100 < progress)%Q
    ∧ budget_tracker 0%nat 1%nat
        (mkWidgets (mkFilterSelection (19723, 19760) [] []) "Food" 20
                   (19723, 19753) (19754, 19784) 10) sample_session
      = (Ret tt,
         mkSession [sample_df; sample_df]
           [st_header "Budget Settings";
            st_selectbox "Select Category for Budget" "categoryName" ["Food"; "Transport"];
            st_number_input "Set Budget for Food";
            st_progress (NInt 100);
            st_write_budget 37 20 progress] []).
Proof.
  destruct (budget_tracker_over_budget 0%nat 1%nat
              (mkWidgets (mkFilterSelection (19723, 19760) [] []) "Food" 20
                         (19723, 19753) (19754, 19784) 10)
              sample_session sample_df sample_df)
    as (spent & progress & -> & -> & Hlt & Hrun); [reflexivity|reflexivity|done|done|].
  eexists. split; [exact Hlt|exact Hrun].
Defined.

(** ** The temporal views after their column is written *)

Lemma assoc_get_set name c kvs : assoc_get name (assoc_set name c kvs) = Some c.
Proof.
  induction kvs as [|[k v] kvs IH]; simpl.
  - by rewrite decide_True.
  - destruct (decide (k = name)) as [->|Hne]; simpl.
    + by rewrite decide_True.
    + by rewrite decide_False.
Qed.

Lemma omap_Some_map {A B} (h : A -> B) (l : list A) :
  omap (fun x => Some (h x)) l = map h l.
Proof. induction l as [|a l IH]; [done|]. cbn. by f_equal. Qed.

Lemma omap_map {A B C} (g : A -> B) (h : B -> option C) (l : list A) :
  omap h (map g l) = omap (fun x => h (g x)) l.
Proof.
  induction l as [|a l IH]; [done|]. cbn. destruct (h (g a)); by f_equal.
Qed.

Lemma month_of_setitem r :
  month_of (set_derived "month" (to_period_M (date r)) r) = Some (month_key r).
Proof.
  unfold month_of, set_derived, month_key. cbn [derived date].
  rewrite assoc_get_set.
  unfold to_period_M. by destruct (civil_from_days _) as [[y m] d].
Qed.

Lemma monthly_groups f :
  groupby_amount_opt (fun r => m ← month_of r; Some (m, categoryName r))
    (rows (setitem "month" (fun r => to_period_M (date r)) f))
  = map (fun r => ((month_key r, categoryName r), amount r)) (rows f).
Proof.
  unfold groupby_amount_opt, setitem. cbn [rows]. rewrite omap_map.
  rewrite <- (omap_Some_map (fun r => ((month_key r, categoryName r), amount r))).
  induction (rows f) as [|r l IH]; [done|].
  cbn [omap list_omap]. rewrite month_of_setitem, IH. done.
Qed.

Lemma series_sum_bind {A B} (h : B -> Z) (F : A -> list B) (l : list A) :
  series_sum (map h (l ≫= F)) = series_sum (map (fun a => series_sum (map h (F a))) l).
Proof.
  induction l as [|a l IH]; [done|].
  rewrite bind_cons, map_app, series_sum_app, IH. done.
Qed.

(** X15. Once the [month] column is written, the monthly view is a
    rectangular matrix: one line per month of the table and, in every
    line, one cell per category of the table, months and categories
    without repetition; the cell of a month and a category carries the
    sum of [amount] over the rows of that month and category, and no
    value when there is no such row. *)
Theorem monthly_expenses_matrix (f : DataFrame) :
  let f' := setitem "month" (fun r => to_period_M (date r)) f in
  (∀ line, line ∈ (monthly_expenses f').2 →
     length line.2 = length (monthly_expenses f').1)
  ∧ NoDup (monthly_expenses f').1
  ∧ (∀ c, c ∈ (monthly_expenses f').1 ↔ c ∈ map categoryName (rows f))
  ∧ NoDup (map fst (monthly_expenses f').2)
  ∧ (∀ m, m ∈ map fst (monthly_expenses f').2 ↔ m ∈ map month_key (rows f))
  ∧ (∀ m cells i c,
       (m, cells) ∈ (monthly_expenses f').2 → (monthly_expenses f').1 !! i = Some c →
       cells !! i
       = Some match filter (fun r => (month_key r, categoryName r) = (m, c)) (rows f) with
              | [] => None
              | rs => Some (series_sum (map amount rs))
              end).
Proof.
  intros f'. unfold monthly_expenses, f'. rewrite monthly_groups. cbn [fst snd].
  change (map (fun r => ((month_key r, categoryName r), amount r)) (rows f))
    with (groupby_amount (fun r => (month_key r, categoryName r)) (rows f)).
  set (g := groupby_amount (fun r => (month_key r, categoryName r)) (rows f)).
  set (months := sort_stable period_leb (remove_dups (map (fun p => p.1.1) g))).
  set (cats := sort_stable String.leb (remove_dups (map (fun p => p.1.2) g))).
  assert (Hmonths : ∀ m, m ∈ months ↔ m ∈ map month_key (rows f)).
  { intros m. unfold months, g, groupby_amount.
    rewrite elem_of_sort_stable, elem_of_remove_dups. by rewrite map_map. }
  assert (Hcats : ∀ c, c ∈ cats ↔ c ∈ map categoryName (rows f)).
  { intros c. unfold cats, g, groupby_amount.
    rewrite elem_of_sort_stable, elem_of_remove_dups. by rewrite map_map. }
  assert (Hndm : NoDup months).
  { unfold months. rewrite sort_stable_perm. apply NoDup_remove_dups. }
  assert (Hndc : NoDup cats).
  { unfold cats. rewrite sort_stable_perm. apply NoDup_remove_dups. }
  split; [|split; [|split; [|split; [|split]]]].
  - intros line (m & -> & _)%list_elem_of_fmap. simpl. by rewrite length_map.
  - done.
  - done.
  - rewrite map_map. simpl. by rewrite map_id.
  - intros m. rewrite map_map. simpl. by rewrite map_id.
  - intros m cells i c (m' & [= -> ->] & _)%list_elem_of_fmap Hc.
    rewrite list_lookup_fmap, Hc. simpl. f_equal.
    unfold g. rewrite group_values_groupby.
    by destruct (filter _ (rows f)).
Qed.

Lemma monthly_expenses_matrix_witness :
  length ((2024, 2), [Some 7; None]).2 = 2%nat.
Proof.
  destruct (monthly_expenses_matrix sample_df) as [H _].
  apply (H ((2024, 2), [Some 7; None])). vm_compute.
  apply list_elem_of_further, list_elem_of_here.
Defined.

Lemma day_of_week_of_setitem r :
  day_of_week_of (set_derived "day_of_week" (day_name (date r)) r) = Some (weekday_of r).
Proof.
  unfold day_of_week_of, set_derived, weekday_of. cbn [derived date].
  by rewrite assoc_get_set.
Qed.

Lemma dow_groups f :
  groupby_amount_opt day_of_week_of
    (rows (setitem "day_of_week" (fun r => day_name (date r)) f))
  = groupby_amount weekday_of (rows f).
Proof.
  unfold groupby_amount_opt, groupby_amount, setitem. cbn [rows]. rewrite omap_map.
  rewrite <- (omap_Some_map (fun r => (weekday_of r, amount r))).
  induction (rows f) as [|r l IH]; [done|].
  cbn [omap list_omap]. rewrite day_of_week_of_setitem, IH. done.
Qed.

Lemma weekday_of_weekdays r : weekday_of r ∈ weekdays.
Proof.
  unfold weekday_of, day_name.
  assert (H : (Z.to_nat ((dt_date (date r) + 3) mod 7) < 7)%nat).
  { pose proof (Z.mod_pos_bound (dt_date (date r) + 3) 7). lia. }
  destruct (Z.to_nat _) as [|[|[|[|[|[|[|n]]]]]]]; [| | | | | | |lia];
    cbn; unfold weekdays; set_solver.
Qed.

(** X16. Once the [day_of_week] column is written, the day-of-week view
    has exactly the seven lines Monday to Sunday, in this order; the
    line of a weekday carries the mean of [amount] over the rows of the
    table that fall on it, and no value when there is none; every row
    falls on one of the seven, so that the rows behind the seven lines
    are all the rows of the table, each counted once. *)
Theorem dow_expenses_spec (f : DataFrame) :
  let f' := setitem "day_of_week" (fun r => day_name (date r)) f in
  map fst (dow_expenses f') = weekdays
  ∧ (∀ d v, (d, v) ∈ dow_expenses f' ↔
       d ∈ weekdays
       ∧ v = series_mean (map amount (filter (fun r => weekday_of r = d) (rows f))))
  ∧ (∀ d, (d, None) ∈ dow_expenses f' ↔
       d ∈ weekdays ∧ ∀ r, r ∈ rows f → weekday_of r ≠ d)
  ∧ series_sum (map (fun d => Z.of_nat (length (filter (fun r => weekday_of r = d) (rows f))))
                    weekdays)
    = Z.of_nat (length (rows f)).
Proof.
  intros f'. unfold dow_expenses, f'. rewrite dow_groups.
  assert (Hspec : ∀ d v,
    (d, v) ∈ map (fun d => (d, series_mean (group_values d (groupby_amount weekday_of (rows f)))))
                 weekdays ↔
    d ∈ weekdays
    ∧ v = series_mean (map amount (filter (fun r => weekday_of r = d) (rows f)))).
  { intros d v. rewrite list_elem_of_fmap. setoid_rewrite group_values_groupby. split.
    - by intros (d' & [= -> ->] & Hd).
    - intros [Hd ->]. by exists d. }
  split; [|split; [|split]].
  - rewrite map_map. cbn [fst]. apply map_id.
  - done.
  - intros d. rewrite Hspec. split; intros [Hd H]; (split; [done|]).
    + intros r Hr E.
      destruct (filter (fun r => weekday_of r = d) (rows f)) as [|r' l] eqn:Ef; [|done].
      assert (Hin : r ∈ filter (fun r => weekday_of r = d) (rows f))
        by by apply list_elem_of_filter.
      rewrite Ef in Hin. by apply elem_of_nil in Hin.
    + destruct (filter (fun r => weekday_of r = d) (rows f)) as [|r' l] eqn:Ef; [done|].
      assert (Hin : r' ∈ filter (fun r => weekday_of r = d) (rows f))
        by (rewrite Ef; apply list_elem_of_here).
      apply list_elem_of_filter in Hin as [E Hin]. by destruct (H r' Hin).
  - rewrite (map_ext _ (fun d => series_sum
               (group_values d (map (fun p : string * Z => (p.1, 1))
                                  (groupby_amount weekday_of (rows f)))))).
    2:{ intros d. rewrite <- group_count_as_sum, group_values_groupby.
        by rewrite length_map. }
    rewrite sum_group_sums.
    + unfold groupby_amount. rewrite !map_map. simpl. generalize (rows f). clear.
      induction l as [|r l IH]; simpl; lia.
    + unfold weekdays. repeat (constructor; [set_solver|]). constructor.
    + intros d. unfold groupby_amount. rewrite !map_map. simpl.
      intros (r & -> & _)%list_elem_of_fmap. apply weekday_of_weekdays.
Qed.

Lemma dow_expenses_spec_witness :
  "Sunday" ∈ weekdays ∧ ∀ r, r ∈ rows sample_df → weekday_of r ≠ "Sunday".
Proof.
  destruct (dow_expenses_spec sample_df) as (_ & _ & H & _).
  apply (H "Sunday"). vm_compute.
  do 6 apply list_elem_of_further. apply list_elem_of_here.
Defined.

(** ** The budget tracker between one and a hundred percent *)



(** ** What a run renders *)

Section renders_only_rules.
Variable P : Element -> Prop.

Lemma renders_only_bind {A B} (m : M A) (f : A -> M B) :
  renders_only P m → (∀ a, renders_only P (f a)) → renders_only P (m ≫= f).
Proof.
  intros Hm Hf s. destruct (Hm s) as (es & E & Hes). rewrite M_bind_eq.
  destruct (m s) as [[a| |e] s']; simpl in *; [|by exists es|by exists es].
  destruct (Hf a s') as (es' & E' & Hes'). exists (es ++ es')%list.
  rewrite E', E, app_assoc. split; [done|]. by apply Forall_app.
Qed.

Lemma renders_only_nothing {A} (m : M A) :
  (∀ s, page (m s).2 = page s) → renders_only P m.
Proof. intros H s. exists []. rewrite H, app_nil_r. by split. Qed.

Lemma renders_only_ret {A} (a : A) : renders_only P (mret a).
Proof. by apply renders_only_nothing. Qed.

Lemma renders_only_emit e : P e → renders_only P (emit e).
Proof. intros He s. exists [e]. split; [done|]. by constructor. Qed.

Lemma renders_only_lift {A} (o : Outcome A) : renders_only P (lift o).
Proof. by apply renders_only_nothing. Qed.

Lemma renders_only_stop {A} : renders_only P (@st_stop A).
Proof. by apply renders_only_nothing. Qed.

Lemma renders_only_load l : renders_only P (load l).
Proof. apply renders_only_nothing. intros s. unfold load. by destruct (heap s !! l). Qed.

Lemma renders_only_update l g : renders_only P (update l g).
Proof. apply renders_only_nothing. intros s. unfold update. by destruct (heap s !! l). Qed.

Lemma renders_only_alloc d : renders_only P (alloc d).
Proof. by apply renders_only_nothing. Qed.

Lemma renders_only_find collection user_id : renders_only P (find collection user_id).
Proof. by apply renders_only_nothing. Qed.
End renders_only_rules.

(** Through a sequence, branch by branch; what is left are the
    conditions on the elements rendered. *)
Ltac renders_only_tac :=
  repeat first
    [ apply renders_only_emit | apply renders_only_load | apply renders_only_lift
    | apply renders_only_update | apply renders_only_alloc | apply renders_only_ret
    | apply renders_only_stop | apply renders_only_find
    | apply renders_only_bind; [|intros ?]
    | lazymatch goal with
      | |- renders_only _ (if ?b then _ else _) => destruct b
      | |- renders_only _ (let '(_, _) := ?p in _) => destruct p
      | |- renders_only _ (match ?p with (_, _) => _ end) => destruct p
      end ].

Lemma fetch_and_views_no_error collection user_id w :
  renders_only not_an_error
    (get_data collection user_id ≫= λ df,
       sidebar_filters df w ≫= λ filtered, views df filtered w).
Proof.
  unfold get_data, sidebar_filters, views, budget_tracker, download, overview, time_series,
    category_analysis, temporal_patterns, expense_comparison, top_expenses_analysis,
    payee_analysis, statistical_summary_view.
  renders_only_tac; by intros msg.
Qed.

(** ** An identifier with spaces *)

(** C9, at a request the script should refuse.  The value of [user_id]
    has 24 characters, but it is not a 24-digit hexadecimal identifier:
    it is eight pairs of digits, each followed by a space.  The store's
    client reads it, as eight bytes: identity resolution renders no
    error and does not stop, and the run goes on to the fetch, which
    queries the store; no error message is on the page at the end of the
    run, whatever the collection and the widget values. *)
Theorem C9_spaced_identifier_accepted (collection : list Document) (w : Widgets) :
  String.length spaced_user_id = 24%nat
  ∧ fromhex spaced_user_id = Some [0; 0; 0; 0; 0; 0; 0; 9]%N
  ∧ resolve_user_id bson_oid 0%N {["user_id" := spaced_user_id]} init
    = (Ret (oid_of_bytes [0; 0; 0; 0; 0; 0; 0; 9]%N), init)
  ∧ queries (app bson_oid 0%N {["user_id" := spaced_user_id]} collection w init).2
    = [oid_of_bytes [0; 0; 0; 0; 0; 0; 0; 9]%N]
  ∧ ∀ msg, st_error msg
           ∉ page (app bson_oid 0%N {["user_id" := spaced_user_id]} collection w init).2.
Proof.
  assert (E : resolve_user_id bson_oid 0%N {["user_id" := spaced_user_id]} init
              = (Ret (oid_of_bytes [0; 0; 0; 0; 0; 0; 0; 9]%N), init)).
  { apply resolve_user_id_well_formed with (v := spaced_user_id); [|done|].
    - apply lookup_singleton_eq.
    - reflexivity. }
  split; [reflexivity|]. split; [reflexivity|]. split; [exact E|]. split.
  - rewrite app_query_log, E. done.
  - intros msg Hin. unfold app in Hin. rewrite M_bind_eq, E in Hin.
    destruct (fetch_and_views_no_error collection
                (oid_of_bytes [0; 0; 0; 0; 0; 0; 0; 9]%N) w init) as (es & Hp & Hes).
    rewrite Hp in Hin. simpl in Hin.
    rewrite Forall_forall in Hes. by apply (Hes _ Hin msg).
Qed.

(** ** Frames written *)

Lemma keeps_heap_bind {A B} (m : M A) (f : A -> M B) :
  keeps_heap m → (∀ a, keeps_heap (f a)) → keeps_heap (m ≫= f).
Proof.
  intros Hm Hf s. specialize (Hm s). rewrite M_bind_eq.
  destruct (m s) as [[a| |e] s']; simpl in *; [|done|done].
  by rewrite Hf.
Qed.

Lemma keeps_heap_ret {A} (a : A) : keeps_heap (mret a).
Proof. done. Qed.

Lemma keeps_heap_emit e : keeps_heap (emit e).
Proof. done. Qed.

Lemma keeps_heap_lift {A} (o : Outcome A) : keeps_heap (lift o).
Proof. done. Qed.

Lemma keeps_heap_load l : keeps_heap (load l).
Proof. intros s. unfold load. by destruct (heap s !! l). Qed.

Ltac keeps_heap_tac :=
  repeat first
    [ apply keeps_heap_emit | apply keeps_heap_load | apply keeps_heap_lift
    | apply keeps_heap_ret
    | apply keeps_heap_bind; [|intros ?]
    | lazymatch goal with
      | |- keeps_heap (if ?b then _ else _) => destruct b
      end ].

(** ** The views among other frames *)

Section framed_rules.
Variables df filtered : nat.
Variable D : DataFrame.
Variable s0 : Session.
Hypothesis df_filtered_ne : df ≠ filtered.
Hypothesis s0_df : heap s0 !! df = Some D.
Hypothesis s0_filtered : (filtered < length (heap s0))%nat.

Lemma framed_bind {A B} (m m' : M A) (f f' : A -> M B) :
  framed df filtered D s0 m m' → (∀ a, framed df filtered D s0 (f a) (f' a)) → framed df filtered D s0 (m ≫= f) (m' ≫= f').
Proof.
  intros Hm Hf F es. destruct (Hm F es) as (o & F' & es' & E & E' & Hb).
  rewrite !M_bind_eq, E, E'. destruct o as [a| |e].
  - destruct (Hf a F' (es ++ es')%list) as (o2 & F'' & es'' & E2 & E2' & Hb2).
    exists o2, F'', (es' ++ es'')%list. rewrite !app_assoc.
    rewrite <- (app_assoc (page s0)). rewrite E2, E2'.
    split; [by rewrite !app_assoc|]. split; [done|]. congruence.
  - by exists Stopped, F', es'.
  - by exists (Raised e), F', es'.
Qed.

Lemma framed_nothing {A} (o : Outcome A) (m m' : M A) :
  (∀ s, m s = (o, s)) → (∀ s, m' s = (o, s)) → framed df filtered D s0 m m'.
Proof.
  intros Hm Hm' F es. exists o, F, []. rewrite Hm, Hm', !app_nil_r. done.
Qed.

Lemma framed_ret {A} (a : A) : framed df filtered D s0 (mret a) (mret a).
Proof. by apply (framed_nothing (Ret a)). Qed.

Lemma framed_lift {A} (o : Outcome A) : framed df filtered D s0 (lift o) (lift o).
Proof. by apply (framed_nothing o). Qed.

Lemma framed_emit e : framed df filtered D s0 (emit e) (emit e).
Proof.
  intros F es. exists (Ret tt), F, [e]. unfold emit. simpl.
  by rewrite <- !app_assoc.
Qed.

Lemma framed_load_df : framed df filtered D s0 (load df) (load 0%nat).
Proof.
  intros F es. exists (Ret D), F, []. unfold load. cbn [heap].
  rewrite list_lookup_insert_ne by done. rewrite s0_df, !app_nil_r. done.
Qed.

Lemma framed_load_filtered : framed df filtered D s0 (load filtered) (load 1%nat).
Proof.
  intros F es. exists (Ret F), F, []. unfold load. cbn [heap].
  rewrite list_lookup_insert_eq by done. rewrite !app_nil_r. done.
Qed.

Lemma framed_setitem name c :
  framed df filtered D s0 (update filtered (setitem name c)) (update 1%nat (setitem name c)).
Proof.
  intros F es. exists (Ret tt), (setitem name c F), []. unfold update. cbn [heap page queries].
  rewrite list_lookup_insert_eq by done. cbn [lookup list_lookup insert list_insert].
  rewrite list_insert_insert_eq, !app_nil_r.
  split; [done|]. split; [done|]. apply setitem_base.
Qed.
End framed_rules.

Ltac framed_tac :=
  repeat first
    [ apply framed_emit | apply framed_load_df; assumption
    | apply framed_load_filtered; assumption
    | apply framed_lift | apply framed_ret | apply framed_setitem; assumption
    | apply framed_bind; [|intros ?]
    | lazymatch goal with
      | |- framed _ _ _ _ (if ?b then _ else _) _ => destruct b
      | |- framed _ _ _ _ (let '(_, _) := ?p in _) _ => destruct p
      | |- framed _ _ _ _ (match ?p with (_, _) => _ end) _ => destruct p
      end ].

Section views_framed.
Variables df filtered : nat.
Variable D : DataFrame.
Variable s0 : Session.
Variable w : Widgets.
Hypothesis df_filtered_ne : df ≠ filtered.
Hypothesis s0_df : heap s0 !! df = Some D.
Hypothesis s0_filtered : (filtered < length (heap s0))%nat.

Lemma view_list_framed v :
  v ∈ view_list → framed df filtered D s0 (v df filtered w) (v 0%nat 1%nat w).
Proof.
  unfold view_list. rewrite !elem_of_cons, elem_of_nil.
  intros H. repeat destruct H as [->|H]; [..|done];
    unfold budget_tracker, download, overview, time_series, category_analysis,
      temporal_patterns, expense_comparison, top_expenses_analysis, payee_analysis,
      statistical_summary_view;
    framed_tac.
Qed.

Lemma views_framed :
  framed df filtered D s0 (views df filtered w) (views 0%nat 1%nat w).
Proof.
  unfold views, budget_tracker, download, overview, time_series, category_analysis,
    temporal_patterns, expense_comparison, top_expenses_analysis, payee_analysis,
    statistical_summary_view.
  framed_tac.
Qed.
End views_framed.

(** The frames after the two tabs of "Temporal Patterns": the month
    column is written; the day-of-week column is written when the bar
    chart of the first tab accepts its arguments. *)
Lemma temporal_patterns_heap (filtered : nat) (s : Session) (F : DataFrame) :
  heap s !! filtered = Some F →
  let Fm := setitem "month" (fun r => to_period_M (date r)) F in
  heap (temporal_patterns filtered s).2
  = <[filtered :=
        match px_bar (monthly_expenses Fm).1
                (map (fun line => period_str line.1) (monthly_expenses Fm).2)
                (monthly_expenses Fm).1 with
        | Ret _ => with_temporal_columns F
        | _ => Fm
        end]> (heap s).
Proof.
  intros HF Fm. apply (wp_run _ (fun _ s' => heap s' = _)).
  assert (Hlt : (filtered < length (heap s))%nat) by by eapply lookup_lt_Some.
  unfold temporal_patterns. wp_step. wp_step.
  eapply wp_load_bind; [simpl; by apply list_lookup_insert_eq|].
  fold Fm. rewrite (surjective_pairing (monthly_expenses Fm)).
  destruct (px_bar _ _ _) as [[]| |e]; wp_step; [|done|done].
  simpl. wp_step.
  eapply wp_update_bind; [simpl; by apply list_lookup_insert_eq|].
  eapply wp_load_bind.
  { simpl. apply list_lookup_insert_eq. by rewrite length_insert. }
  wp_step. simpl. by rewrite list_insert_insert_eq.
Qed.

Lemma temporal_patterns_empty (filtered : nat) (s : Session) (F : DataFrame) :
  heap s !! filtered = Some F → rows F = [] →
  temporal_patterns filtered s
  = (Raised "ValueError",
     mkSession (<[filtered := setitem "month" (fun r => to_period_M (date r)) F]> (heap s))
               (page s ++ [st_header "Temporal Patterns"]) (queries s)).
Proof.
  intros HF Hrows. apply wp_eq.
  assert (Hlt : (filtered < length (heap s))%nat) by by eapply lookup_lt_Some.
  unfold temporal_patterns. wp_step. wp_step.
  eapply wp_load_bind; [simpl; by apply list_lookup_insert_eq|].
  unfold monthly_expenses, setitem. cbn [rows]. rewrite Hrows. by wp_step.
Qed.

(** ** Shared state, as the script has it *)

(** C8, as the script has it.  What a view does is a function of the
    two tables and of the widget values: run among other frames, after
    other elements, each view (and the sequence of the views) ends as
    it does on the two tables alone, renders the same elements, and
    leaves every frame but the filtered table as it was, the filtered
    table with its rows in the store's columns.  Only "Temporal
    Patterns" writes to a frame: it adds the column [month] to the
    filtered table, and the column [day_of_week] when the bar chart of
    the first tab accepts its arguments, which it does not on a table
    without rows.  The views after it that read the store's columns
    only, top payees and the statistical summary, render what they
    render on the table as filtered, and the Top-N view shows the same
    rows in the store's columns. *)
Theorem C8_views_shared_state (df filtered : nat) (w : Widgets) (s : Session)
    (D F : DataFrame) :
  df ≠ filtered → heap s !! df = Some D → heap s !! filtered = Some F →
  (∀ v, v ∈ views :: view_list →
     ∃ o es F',
       v 0%nat 1%nat w (two_frames D F) = (o, mkSession [D; F'] es [])
       ∧ v df filtered w s
         = (o, mkSession (<[filtered := F']> (heap s)) (page s ++ es) (queries s))
       ∧ map base (rows F') = map base (rows F))
  ∧ (∀ i v, view_list !! i = Some v → i ≠ 5%nat →
       heap (v df filtered w s).2 = heap s)
  ∧ heap (temporal_patterns filtered s).2
    = <[filtered :=
          let Fm := setitem "month" (fun r => to_period_M (date r)) F in
          match px_bar (monthly_expenses Fm).1
                  (map (fun line => period_str line.1) (monthly_expenses Fm).2)
                  (monthly_expenses Fm).1 with
          | Ret _ => with_temporal_columns F
          | _ => Fm
          end]> (heap s)
  ∧ (rows F = [] →
       temporal_patterns filtered s
       = (Raised "ValueError",
          mkSession
            (<[filtered := setitem "month" (fun r => to_period_M (date r)) F]> (heap s))
            (page s ++ [st_header "Temporal Patterns"]) (queries s)))
  ∧ (∀ F2, map base (rows F2) = map base (rows F) →
       payee_analysis 1%nat (two_frames D F2)
       = (Ret tt,
          mkSession [D; F2] (page (payee_analysis 1%nat (two_frames D F)).2) [])
       ∧ statistical_summary_view 1%nat (two_frames D F2)
         = (Ret tt,
            mkSession [D; F2] (page (statistical_summary_view 1%nat (two_frames D F)).2) [])
       ∧ ∀ n, map base (rows (top_expenses n F2)) = map base (rows (top_expenses n F))).
Proof.
  intros Hne HD HF.
  assert (Hlt : (filtered < length (heap s))%nat) by by eapply lookup_lt_Some.
  split; [|split; [|split; [|split]]].
  - intros v Hv.
    assert (Hfr : framed df filtered D s (v df filtered w) (v 0%nat 1%nat w)).
    { apply elem_of_cons in Hv as [->|Hv]; [by apply views_framed|by apply view_list_framed]. }
    destruct (Hfr F []) as (o & F' & es & E & E' & Hb).
    exists o, es, F'. split; [exact E'|]. split; [|done].
    etrans; [|exact E]. f_equal.
    rewrite list_insert_id, app_nil_r by done. by destruct s.
  - intros i v Hi Hn.
    assert (Hk : keeps_heap (v df filtered w)); [|apply Hk].
    do 10 (destruct i as [|i]; [try done; injection Hi as <-;
      unfold budget_tracker, download, overview, time_series, category_analysis,
        expense_comparison, top_expenses_analysis, payee_analysis,
        statistical_summary_view; keeps_heap_tac|]).
    done.
  - by apply temporal_patterns_heap.
  - by apply temporal_patterns_empty.
  - intros F2 E. destruct (same_base_views F F2 E) as (Hp & Hst & Htop).
    split; [|split; [|done]].
    + change (payee_analysis 1%nat (two_frames D F2))
        with (Ret tt, mkSession [D; F2]
                [st_header "Payee Analysis";
                 st_plotly_chart "Top 10 Payees" (TByPayee (top_payees F2))] []).
      by rewrite Hp.
    + change (statistical_summary_view 1%nat (two_frames D F2))
        with (Ret tt, mkSession [D; F2]
                [st_header "Statistical Summary";
                 st_write (TDescribe (statistical_summary F2))] []).
      by rewrite Hst.
Qed.

Lemma C8_views_shared_state_witness :
  heap (temporal_patterns 1%nat sample_session).2
  = [sample_df; with_temporal_columns sample_df]
  ∧ heap (payee_analysis 1%nat sample_session).2 = [sample_df; sample_df].
Proof.
  destruct (C8_views_shared_state 0%nat 1%nat sample_widgets sample_session sample_df sample_df)
    as (_ & Hk & Ht & _); [done|done|done|].
  split; [exact Ht|].
  apply (Hk 8%nat (fun _ filtered _ => payee_analysis filtered)); [reflexivity|done].
Defined.

(** ** Sums of a 64-bit integer column *)

Lemma wrap64_add_l a b : wrap64 (wrap64 a + b) = wrap64 (a + b).
Proof.
  unfold wrap64. f_equal.
  replace ((a + 2 ^ 63) mod 2 ^ 64 - 2 ^ 63 + b + 2 ^ 63)
    with ((a + 2 ^ 63) mod 2 ^ 64 + b) by lia.
  rewrite Z.add_mod_idemp_l by lia. f_equal. lia.
Qed.

Lemma wrap64_add_r a b : wrap64 (a + wrap64 b) = wrap64 (a + b).
Proof. by rewrite (Z.add_comm a), wrap64_add_l, Z.add_comm. Qed.

Lemma wrap64_idemp a : wrap64 (wrap64 a) = wrap64 a.
Proof. pose proof (wrap64_add_l a 0) as H. by rewrite !Z.add_0_r in H. Qed.


Lemma sum_int64_from acc vs :
  fold_left (fun a v => wrap64 (a + v)) vs (wrap64 acc) = wrap64 (acc + series_sum vs).
Proof.
  revert acc. induction vs as [|v vs IH]; intros acc; simpl.
  - by rewrite Z.add_0_r.
  - rewrite wrap64_add_l, IH. f_equal. lia.
Qed.

(** The sum of a 64-bit column is the exact sum, wrapped. *)
Lemma sum_int64_exact vs : sum_int64 vs = wrap64 (series_sum vs).
Proof. unfold sum_int64. change 0 with (wrap64 0) at 1. by rewrite sum_int64_from. Qed.

Lemma series_sum_map_wrap64 vs : wrap64 (series_sum (map wrap64 vs)) = wrap64 (series_sum vs).
Proof.
  induction vs as [|v vs IH]; [done|]. simpl.
  rewrite wrap64_add_l. rewrite <- wrap64_add_r, IH, wrap64_add_r. done.
Qed.



Lemma agg_sum_int64 {K} `{EqDecision K} (leb : K -> K -> bool) (g : list (K * Z)) :
  agg leb sum_int64 g = map (fun p => (p.1, wrap64 p.2)) (agg leb series_sum g).
Proof.
  unfold agg. rewrite map_map. apply map_ext. intros k. simpl.
  by rewrite sum_int64_exact.
Qed.

Lemma agg_sum_int64_total {K} `{EqDecision K} (leb : K -> K -> bool) (g : list (K * Z)) :
  sum_int64 (map snd (agg leb sum_int64 g)) = wrap64 (series_sum (map snd g)).
Proof.
  rewrite sum_int64_exact, agg_sum_int64, map_map. cbn [snd].
  rewrite <- (map_map snd wrap64), series_sum_map_wrap64, agg_sum_total. done.
Qed.

(** C3, on an integer amount column.  For every filtered table whose
    amounts are integers, the totals of the category breakdown (group
    by [categoryName], sum of [amount], sorted in descending order)
    add up to the "Total Expenses" metric, the sum of [amount] over
    the same table, each sum taken in 64-bit arithmetic. *)
Theorem C3_category_totals_sum (df : DataFrame) :
  sum_int64 (map snd (category_totals_int64 df)) = total_expenses_int64 df.
Proof.
  unfold category_totals_int64, sort_values_desc, total_expenses_int64.
  rewrite sum_int64_exact.
  rewrite (series_sum_perm _ (map snd (agg String.leb sum_int64
             (groupby_amount categoryName (rows df))))).
  - rewrite <- sum_int64_exact, agg_sum_int64_total, groupby_amount_values.
    by rewrite sum_int64_exact.
  - apply Permutation_map, sort_stable_perm.
Qed.

(** C3, as stated, fails on a float amount column: of three purchases
    of 19.99, 19.99 and 3.3, the first and the last of one category,
    the category totals are 23.29 and 19.99 and add up to 43.28, while
    "Total Expenses" is 43.279999999999994.  It fails as well when a
    row has no category: the row counts in "Total Expenses" and in no
    category total. *)
Lemma C3_float_totals_differ :
  category_totals_float64 float_rows = [("Food", 23.29%float); ("Fuel", 19.99%float)]
  ∧ sum_float64 (map snd (category_totals_float64 float_rows)) = 43.28%float
  ∧ total_expenses_float64 float_rows = 43.279999999999994%float
  ∧ sum_float64 (map snd (category_totals_float64 float_rows))
    ≠ total_expenses_float64 float_rows
  ∧ sum_float64 (map snd (category_totals_float64 uncategorised_rows)) = 10%float
  ∧ total_expenses_float64 uncategorised_rows = 15%float.
Proof.
  split; [by vm_compute|]. split; [by vm_compute|]. split; [by vm_compute|].
  split; [|split; by vm_compute].
  vm_compute. intros H. discriminate H.
Qed.

(** ** The cumulative series of a 64-bit integer column *)








